(** * Arduino-IRremote (retrospy fork): the CDTV and RC5_CDI codecs

    A shallow embedding of [src/ir_CDTV.hpp] and [src/ir_RC5_CDI.hpp].

    - Machine integers are [Z] with the wrap-around of their C type written
      out ([unsigned long] and [uint32_t] are 32 bits wide, [uint16_t] 16,
      [uint8_t] and [uint_fast8_t] 8, as on the AVR boards the library
      targets).
    - The transmitter interface ([enableIROut], [mark], [space], [delay]) is
      a log of calls, in the order the code makes them.
    - The receive side reads the raw timing buffer ([rawbuf], [rawlen]) and
      updates the [decodedIRData] record; a decoder is a function from the
      record before the call to the returned [bool] and the record after.
    - What the two files use and do not define (the timing macros, a few
      constants, the time of the previous frame) is the [Platform] class;
      the functions they call and do not define are modelled from the
      specification, each marked so. *)

From Stdlib Require Import ZArith List Bool Lia.
Import ListNotations.
Open Scope Z_scope.

(** * Part I: the model *)

(** ** Transmitter interface *)

Inductive TxCall : Type :=
| EnableIROut (aFrequencyKHz : Z)
| Mark (aMarkMicros : Z)
| Space (aSpaceMicros : Z)
| Delay (aMillis : Z).

(** The mark and space calls of a log, the carrier set-up and the delays
    left out. *)
Definition isPulse (c : TxCall) : bool :=
  match c with
  | Mark _ | Space _ => true
  | EnableIROut _ | Delay _ => false
  end.

Definition pulsesOf (log : list TxCall) : list TxCall := filter isPulse log.

(** How a send function ends.  [UndefinedShift]: the code evaluated a shift
    whose count is negative or not below the width of the shifted type, which
    C leaves undefined; the log then holds the calls made before it.
    [FuelExhausted] is the model's, for a loop that did not end within the
    steps it was given. *)
Inductive Outcome : Type :=
| Returned
| UndefinedShift
| FuelExhausted.

Record Emission : Type := mkEmission {
  calls : list TxCall;
  outcome : Outcome
}.

(** ** Machine words *)

Definition ULONG_BITS : Z := 32.

Definition wrap (width x : Z) : Z := x mod 2 ^ width.

(** [x << n] on [unsigned long]; no value when C leaves the shift undefined. *)
Definition shl_ulong (x n : Z) : option Z :=
  if (0 <=? n) && (n <? ULONG_BITS) then Some (wrap ULONG_BITS (Z.shiftl x n))
  else None.

(** The [n] low bits of [data], most significant first. *)
Definition bitsMSB (data : Z) (n : nat) : list bool :=
  map (fun k => Z.testbit data (Z.of_nat k)) (rev (seq 0 n)).

(** ** Receiver data *)

Inductive Level : Type := SPACE | MARK.

Definition Level_eqb (a b : Level) : bool :=
  match a, b with
  | SPACE, SPACE | MARK, MARK => true
  | _, _ => false
  end.

(** [irparams_struct]: the timing buffer filled by the capture layer.  The
    buffer is an array of fixed size of which the first [rawlen] entries
    belong to the frame; entry 0 is the gap before the frame, the odd
    entries are marks, the even ones spaces.  An index past the modelled
    list reads 0. *)
Record irparams_struct : Type := mkRaw {
  rawlen : Z;
  rawbuf : list Z
}.

Definition rawbuf_at (raw : irparams_struct) (i : Z) : Z :=
  nth (Z.to_nat i) (rawbuf raw) 0.

(** The protocol identifiers the two files name. *)
Inductive decode_type_t : Type := UNKNOWN | CDTV | RC5_CDI.

(** [IRData], the fields the two files write.  Its declaration is not in
    [src/], and neither are the widths of its fields: a field is a [Z] that
    holds the value assigned to it. *)
Record IRData : Type := mkIRData {
  protocol : decode_type_t;
  address : Z;
  command : Z;
  numberOfBits : Z;
  flags : Z;
  decodedRawData : Z
}.

Definition set_protocol (p : decode_type_t) (d : IRData) : IRData :=
  mkIRData p (address d) (command d) (numberOfBits d) (flags d) (decodedRawData d).
Definition set_address (a : Z) (d : IRData) : IRData :=
  mkIRData (protocol d) a (command d) (numberOfBits d) (flags d) (decodedRawData d).
Definition set_command (c : Z) (d : IRData) : IRData :=
  mkIRData (protocol d) (address d) c (numberOfBits d) (flags d) (decodedRawData d).
Definition set_numberOfBits (n : Z) (d : IRData) : IRData :=
  mkIRData (protocol d) (address d) (command d) n (flags d) (decodedRawData d).
Definition set_flags (f : Z) (d : IRData) : IRData :=
  mkIRData (protocol d) (address d) (command d) (numberOfBits d) f (decodedRawData d).
Definition set_decodedRawData (v : Z) (d : IRData) : IRData :=
  mkIRData (protocol d) (address d) (command d) (numberOfBits d) (flags d) v.

(** ** What the two files use and do not define

    [MATCH_MARK measured nominal] and [MATCH_SPACE measured nominal] are the
    timing matcher's macros; the rest are constants of other headers, and
    the elapsed time the time-tracking collaborator reports. *)
Class Platform : Type := mkPlatform {
  MATCH_MARK : Z -> Z -> bool;
  MATCH_SPACE : Z -> Z -> bool;
  CDTV_KHZ : Z;
  RC5_CDI_KHZ : Z;
  MICROS_IN_ONE_MILLI : Z;
  MICROS_PER_TICK : Z;
  IRDATA_FLAGS_IS_REPEAT : Z;
  IRDATA_FLAGS_TOGGLE_BIT : Z;
  IRDATA_FLAGS_IS_MSB_FIRST : Z;
  ticksSincePreviousFrame : Z
}.

(** ** ir_CDTV.hpp: constants *)

Definition CDTV_BITS : Z := 24.
Definition CDTV_HDR_MARK : Z := 8850.
Definition CDTV_HDR_SPACE : Z := 4450.
Definition CDTV_BIT_MARK : Z := 350.
Definition CDTV_ONE_SPACE : Z := 1250.
Definition CDTV_ZERO_SPACE : Z := 450.
Definition CDTV_RPT_SPACE : Z := 2250.
Definition CDTV_RAW_REPEAT_LENGTH : Z := 4.
Definition CDTV_REPEAT_PERIOD : Z := 50000.
Definition CDTV_RAW_SIGNAL_LENGTH : Z := 52.

Inductive BitOrder : Type := PROTOCOL_IS_LSB_FIRST | PROTOCOL_IS_MSB_FIRST.

(** [struct PulseDistanceWidthProtocolConstants], its fields in the order of
    the initialiser in [ir_CDTV.hpp]. *)
Record PulseDistanceWidthProtocolConstants : Type := mkConstants {
  ProtocolIndex : decode_type_t;
  FrequencyKHz : Z;
  HeaderMarkMicros : Z;
  HeaderSpaceMicros : Z;
  OneMarkMicros : Z;
  OneSpaceMicros : Z;
  ZeroMarkMicros : Z;
  ZeroSpaceMicros : Z;
  Flags : BitOrder;
  RepeatPeriodMillis : Z;
  SpecialSendRepeatFunction : option (list TxCall)
}.

(** ** IRsend::sendCDTV *)

(** The body of the data loop for one value of [mask]. *)
Definition sendCDTV_bit (data mask : Z) : list TxCall :=
  if Z.land data mask =? 0
  then [Mark CDTV_BIT_MARK; Space CDTV_ZERO_SPACE]
  else [Mark CDTV_BIT_MARK; Space CDTV_ONE_SPACE].

(** [for (mask = ...; mask; mask >>= 1)], from the current [mask] on. *)
Fixpoint sendCDTV_data (fuel : nat) (data mask : Z) : option (list TxCall) :=
  match fuel with
  | O => None
  | S fuel' =>
      if mask =? 0 then Some []
      else option_map (app (sendCDTV_bit data mask))
                      (sendCDTV_data fuel' data (Z.shiftr mask 1))
  end.

(** The whole call.  The log is the frame sent when the bit count is from 1
    to 32.  For any other count the shift that starts the loop is undefined
    in C: the log then ends at the header, which is sent before the count
    is used, and the outcome says so; what a compiler and a board go on to
    send after such a shift is not modelled. *)
Definition sendCDTV (data nbits : Z) : Emission :=
  let header := [EnableIROut 40; Mark CDTV_HDR_MARK; Space CDTV_HDR_SPACE] in
  match shl_ulong 1 (nbits - 1) with
  | None => mkEmission header UndefinedShift
  | Some mask =>
      match sendCDTV_data (S (Z.to_nat ULONG_BITS)) data mask with
      | None => mkEmission header FuelExhausted
      | Some bits =>
          mkEmission (header ++ bits ++ [Mark CDTV_BIT_MARK; Space 0]) Returned
      end
  end.

(** The pulse sequence as the specification words it: header, then one
    mark and one space per bit, most significant of the [n] bits first, then
    the closing mark and the zero-length space. *)
Definition specCDTV_bit (b : bool) : list TxCall :=
  [Mark CDTV_BIT_MARK; Space (if b then CDTV_ONE_SPACE else CDTV_ZERO_SPACE)].

Definition specCDTV_pulses (data : Z) (n : nat) : list TxCall :=
  [Mark CDTV_HDR_MARK; Space CDTV_HDR_SPACE]
    ++ flat_map specCDTV_bit (bitsMSB data n)
    ++ [Mark CDTV_BIT_MARK; Space 0].

(** ** ir_RC5_CDI.hpp: constants *)

Definition RC5_CDI_ADDRESS_BITS : Z := 5.
Definition RC5_CDI_COMMAND_BITS : Z := 6.
Definition RC5_CDI_COMMAND_FIELD_BIT : Z := 1.
Definition RC5_CDI_TOGGLE_BIT : Z := 1.
Definition RC5_CDI_BITS : Z :=
  RC5_CDI_COMMAND_FIELD_BIT + RC5_CDI_TOGGLE_BIT + RC5_CDI_ADDRESS_BITS + RC5_CDI_COMMAND_BITS.
Definition RC5_CDI_UNIT : Z := 450.
Definition MIN_RC5_CDI_MARKS : Z := (RC5_CDI_BITS + 1) / 2.
Definition RC5_CDI_DURATION : Z := 15 * RC5_CDI_UNIT.
Definition RC5_CDI_REPEAT_PERIOD : Z := 128 * RC5_CDI_UNIT.
Definition RC5_CDI_REPEAT_DISTANCE : Z := RC5_CDI_REPEAT_PERIOD - RC5_CDI_DURATION.
Definition RC5_CDI_MAXIMUM_REPEAT_DISTANCE : Z :=
  RC5_CDI_REPEAT_DISTANCE + RC5_CDI_REPEAT_DISTANCE / 4.

(** [uint8_t sCDILastSendToggleValue = 1;] *)
Definition sCDILastSendToggleValue_init : Z := 1.

(** ** The biphase emitter *)

(** Modelled from the spec: [IRsend::sendBiphaseData] is not in [src/].
    Section 4.3, Encode: for each bit, most significant first, a half-cell of
    one level then a half-cell of the opposite level (1: space then mark,
    0: mark then space), the first emitted half-cell being the start bit;
    [sendRC5_CDI] notes at the call that the start bit is sent here.  The
    start bit is a 1 whose space half is the idle time before the frame, so
    what is emitted for it is its mark. *)
Definition biphaseCell (unit : Z) (b : bool) : list TxCall :=
  if b then [Space unit; Mark unit] else [Mark unit; Space unit].

Definition sendBiphaseData (aBiphaseTimeUnit aData : Z) (aNumberOfBits : Z) : list TxCall :=
  Mark aBiphaseTimeUnit
    :: flat_map (biphaseCell aBiphaseTimeUnit) (bitsMSB aData (Z.to_nat aNumberOfBits)).

Section Codecs.

Context {P : Platform}.

(** ** The protocol constants of CDTV *)

Definition CDTVProtocolConstants : PulseDistanceWidthProtocolConstants :=
  mkConstants CDTV CDTV_KHZ CDTV_HDR_MARK CDTV_HDR_SPACE
              CDTV_BIT_MARK CDTV_ONE_SPACE CDTV_BIT_MARK CDTV_ZERO_SPACE
              PROTOCOL_IS_MSB_FIRST (CDTV_REPEAT_PERIOD / MICROS_IN_ONE_MILLI) None.

(** ** The pulse-distance/width engine *)

(** One bit added to the accumulator in the declared bit order. *)
Definition accumulateBit (order : BitOrder) (nbits acc : Z) (b : bool) : Z :=
  match order with
  | PROTOCOL_IS_MSB_FIRST => Z.lor (Z.shiftl acc 1) (Z.b2z b)
  | PROTOCOL_IS_LSB_FIRST => Z.lor (Z.shiftr acc 1) (Z.shiftl (Z.b2z b) (nbits - 1))
  end.

(** Modelled from the spec: [IRrecv::decodePulseDistanceWidthData] is not in
    [src/].  Section 4.2, Decode: for each bit position the mark must match
    the nominal bit mark, and the space after it is a one if it matches the
    one-space nominal, a zero if it matches the zero-space nominal, a
    failure otherwise; the bits are accumulated in the declared order.  The
    length and header checks the section lists are made in [decodeCDTV]
    itself, which enters the engine at the first bit mark (offset 3). *)
Fixpoint decodePulseDistanceWidthData_bits
    (c : PulseDistanceWidthProtocolConstants) (raw : irparams_struct)
    (nbits : Z) (todo : nat) (offset acc : Z) : option Z :=
  match todo with
  | O => Some acc
  | S todo' =>
      if negb (MATCH_MARK (rawbuf_at raw offset) (OneMarkMicros c)) then None
      else if MATCH_SPACE (rawbuf_at raw (offset + 1)) (OneSpaceMicros c) then
        decodePulseDistanceWidthData_bits c raw nbits todo' (offset + 2)
          (accumulateBit (Flags c) nbits acc true)
      else if MATCH_SPACE (rawbuf_at raw (offset + 1)) (ZeroSpaceMicros c) then
        decodePulseDistanceWidthData_bits c raw nbits todo' (offset + 2)
          (accumulateBit (Flags c) nbits acc false)
      else None
  end.

(** Modelled from the spec: the engine's entry point, not in [src/], with
    the bit loop above: on success the value and the bit count are written
    into the frame, on failure the frame is returned as it was.
    [decodeCDTV] reads the value back from the frame after a success. *)
Definition decodePulseDistanceWidthData
    (c : PulseDistanceWidthProtocolConstants) (aNumberOfBits aStartOffset : Z)
    (raw : irparams_struct) (d : IRData) : bool * IRData :=
  match decodePulseDistanceWidthData_bits c raw aNumberOfBits
          (Z.to_nat aNumberOfBits) aStartOffset 0 with
  | None => (false, d)
  | Some v => (true, set_numberOfBits aNumberOfBits (set_decodedRawData v d))
  end.

(** ** IRrecv::decodeCDTV *)

(** The checksum as the comments of [decodeCDTV] state it. *)
Definition checksumDocumented (v : Z) : bool :=
  Z.lxor (Z.land v 0xFFF) (Z.shiftr v 12) =? 0xFFF.

(** The condition [lo^hi == 0xFFF] as C reads it: [==] binds tighter than
    [^], so it is [lo ^ (hi == 0xFFF)], true when not zero. *)
Definition checksumCompiled (v : Z) : bool :=
  let lo := Z.land v 0xFFF in
  let hi := Z.shiftr v 12 in
  negb (Z.lxor lo (if hi =? 0xFFF then 1 else 0) =? 0).

Definition decodeCDTV (raw : irparams_struct) (d : IRData) : bool * IRData :=
  if negb (MATCH_MARK (rawbuf_at raw 1) CDTV_HDR_MARK) then (false, d)
  else if (rawlen raw =? CDTV_RAW_REPEAT_LENGTH)
          && MATCH_MARK (rawbuf_at raw 1) CDTV_HDR_MARK
          && MATCH_SPACE (rawbuf_at raw 2) CDTV_RPT_SPACE
  then (true, set_protocol CDTV (set_command 0xFFFFFF (set_numberOfBits 4 d)))
  else if negb (rawlen raw =? CDTV_RAW_SIGNAL_LENGTH) then (false, d)
  else if negb (MATCH_SPACE (rawbuf_at raw 2) CDTV_HDR_SPACE) then (false, d)
  else
    match decodePulseDistanceWidthData CDTVProtocolConstants CDTV_BITS 3 raw d with
    | (false, d1) => (false, d1)
    | (true, d1) =>
        if checksumCompiled (decodedRawData d1)
        then (true, set_protocol CDTV (set_numberOfBits CDTV_BITS d1))
        else (false, d1)
    end.

(** ** IRsend::sendRC5_CDI *)

(** The 13-bit word [tIRData] and the toggle state after the call. *)
Definition sendRC5_CDI_word (aAddress aCommand : Z) (aEnableAutomaticToggle : bool)
    (sCDILastSendToggleValue : Z) : Z * Z :=
  let tIRData := wrap 16 (Z.shiftl (Z.land aAddress 0x1F) RC5_CDI_COMMAND_BITS) in
  let '(tIRData, aCommand) :=
    if aCommand <? 0x40
    then (wrap 16 (Z.lor tIRData
            (Z.shiftl 1 (RC5_CDI_TOGGLE_BIT + RC5_CDI_ADDRESS_BITS + RC5_CDI_COMMAND_BITS))),
          aCommand)
    else (tIRData, Z.land aCommand 0x3F) in
  let tIRData := wrap 16 (Z.lor tIRData aCommand) in
  if aEnableAutomaticToggle then
    if sCDILastSendToggleValue =? 0
    then (wrap 16 (Z.lor tIRData (Z.shiftl 1 (RC5_CDI_ADDRESS_BITS + RC5_CDI_COMMAND_BITS))), 1)
    else (tIRData, 0)
  else (tIRData, sCDILastSendToggleValue).

(** [while (tNumberOfCommands > 0)]: one frame per command, the delay
    skipped after the last. *)
Fixpoint sendRC5_CDI_frames (tNumberOfCommands : nat) (tIRData : Z) : list TxCall :=
  match tNumberOfCommands with
  | O => []
  | S n =>
      sendBiphaseData RC5_CDI_UNIT tIRData RC5_CDI_BITS
        ++ (match n with
            | O => []
            | S _ => [Delay (RC5_CDI_REPEAT_DISTANCE / MICROS_IN_ONE_MILLI)]
            end)
        ++ sendRC5_CDI_frames n tIRData
  end.

(** The log of the call and the toggle state it leaves. *)
Definition sendRC5_CDI (aAddress aCommand aNumberOfRepeats : Z)
    (aEnableAutomaticToggle : bool) (sCDILastSendToggleValue : Z) : list TxCall * Z :=
  let '(tIRData, toggle') :=
    sendRC5_CDI_word aAddress aCommand aEnableAutomaticToggle sCDILastSendToggleValue in
  let tNumberOfCommands := wrap 8 (aNumberOfRepeats + 1) in
  (EnableIROut RC5_CDI_KHZ :: sendRC5_CDI_frames (Z.to_nat tNumberOfCommands) tIRData,
   toggle').

(** ** The biphase decoder *)

(** The cursor of the biphase decoder, static variables of the library.
    [sBiphaseDecodeRawbuffOffset], the index of the current buffer entry, is
    read by the loop of [decodeRC5_CDI]; with it section 4.3 names the time
    left in the current entry, here in half-cells (0 before the entry is
    entered), and the half-cell duration. *)
Record BiphaseState : Type := mkBiphase {
  sBiphaseDecodeRawbuffOffset : Z;
  sBiphaseHalfCellsLeft : Z;
  sBiphaseTimeUnit : Z
}.

(** Modelled from the spec: [IRrecv::initBiphaselevel] is not in [src/].
    Section 4.3, initialize: the cursor is put at the given entry, past the
    gap, and the half-cell duration is set. *)
Definition initBiphaselevel (aRCDecodeRawbuffOffset aBiphaseTimeUnit : Z) : BiphaseState :=
  mkBiphase aRCDecodeRawbuffOffset 0 aBiphaseTimeUnit.

Definition levelOfOffset (offset : Z) : Level :=
  if Z.odd offset then MARK else SPACE.

Definition matchLevel (l : Level) (measured nominal : Z) : bool :=
  match l with
  | MARK => MATCH_MARK measured nominal
  | SPACE => MATCH_SPACE measured nominal
  end.

(** The number of half-cells a buffer entry lasts: the first of one, two or
    three units its duration matches.  (A level that lasts three half-cells
    or more holds no transition, so where the count stops does not change
    what [decodeRC5_CDI] returns.) *)
Definition halfCellsOf (l : Level) (measured unit : Z) : option Z :=
  if matchLevel l measured unit then Some 1
  else if matchLevel l measured (2 * unit) then Some 2
  else if matchLevel l measured (3 * unit) then Some 3
  else None.

(** Modelled from the spec: [IRrecv::getBiphaselevel] is not in [src/].
    Section 4.3: the level in force at the next half-cell, read off the
    current buffer entry and moving to the next entry (the other level) when
    the current one is used up; a failure when the duration of an entry is
    not, within tolerance, a whole number of half-cells.

    Past the last entry the level read is a space, the line being idle
    there.  Section 4.3 words a read after the end of the sequence as a
    failure; the source decides otherwise.  The two frames recorded at the
    head of [ir_RC5_CDI.hpp] (raw data 0x1476 and 0xC76, 13 bits each) end
    in a mark that is the first half of a last bit 0, the space after it
    never being captured, and the loop of [decodeRC5_CDI] tests the cursor
    once per bit and then reads twice: the second read of that last bit is
    made past the last entry and has to return [SPACE] for the frame to
    decode as recorded. *)
Definition getBiphaselevel (raw : irparams_struct) (st : BiphaseState)
    : option Level * BiphaseState :=
  let offset := sBiphaseDecodeRawbuffOffset st in
  if rawlen raw <=? offset then (Some SPACE, st)
  else
    let tLevelOfCurrentInterval := levelOfOffset offset in
    let cells :=
      if sBiphaseHalfCellsLeft st =? 0
      then halfCellsOf tLevelOfCurrentInterval (rawbuf_at raw offset) (sBiphaseTimeUnit st)
      else Some (sBiphaseHalfCellsLeft st) in
    match cells with
    | None => (None, st)
    | Some k =>
        if k - 1 <=? 0
        then (Some tLevelOfCurrentInterval, mkBiphase (offset + 1) 0 (sBiphaseTimeUnit st))
        else (Some tLevelOfCurrentInterval, mkBiphase offset (k - 1) (sBiphaseTimeUnit st))
    end.

(** Modelled from the spec: [IRrecv::checkForRepeatSpaceTicksAndSetFlag] is
    not in [src/].  Section 4.4: a repeat is recognised by comparing the
    time since the previous frame with the maximum repeat distance. *)
Definition checkForRepeatSpaceTicksAndSetFlag (aMaximumRepeatSpaceTicks : Z)
    (d : IRData) : IRData :=
  if ticksSincePreviousFrame <? aMaximumRepeatSpaceTicks
  then set_flags (Z.lor (flags d) IRDATA_FLAGS_IS_REPEAT) d
  else d.

(** ** IRrecv::decodeRC5_CDI *)

(** The length check: [rawlen < ((RC5_CDI_BITS + 1) / 2) + 2 &&
    (RC5_CDI_BITS + 2) < rawlen]. *)
Definition decodeRC5_CDI_lengthRejects (len : Z) : bool :=
  (len <? (RC5_CDI_BITS + 1) / 2 + 2) && (RC5_CDI_BITS + 2 <? len).

(** How the data loop ends. *)
Inductive BitLoop : Type :=
| LoopFuel
| LoopNoTransition
| LoopDone (tBitIndex tDecodedRawData : Z).

(** [for (tBitIndex = 0; sBiphaseDecodeRawbuffOffset < rawlen; tBitIndex++)],
    from the current cursor on. *)
Fixpoint decodeRC5_CDI_bits (fuel : nat) (raw : irparams_struct) (st : BiphaseState)
    (tBitIndex tDecodedRawData : Z) : BitLoop :=
  match fuel with
  | O => LoopFuel
  | S fuel' =>
      if sBiphaseDecodeRawbuffOffset st <? rawlen raw then
        let '(tStartLevel, st1) := getBiphaselevel raw st in
        let '(tEndLevel, st2) := getBiphaselevel raw st1 in
        match tStartLevel, tEndLevel with
        | Some SPACE, Some MARK =>
            decodeRC5_CDI_bits fuel' raw st2 (wrap 8 (tBitIndex + 1))
              (wrap 32 (Z.lor (Z.shiftl tDecodedRawData 1) 1))
        | Some MARK, Some SPACE =>
            decodeRC5_CDI_bits fuel' raw st2 (wrap 8 (tBitIndex + 1))
              (wrap 32 (Z.lor (Z.shiftl tDecodedRawData 1) 0))
        | _, _ => LoopNoTransition
        end
      else LoopDone tBitIndex tDecodedRawData
  end.

(** The fields written after the loop.  [LongUnion] is not in [src/]: its
    members are read by their names, low byte first. *)
Definition decodeRC5_CDI_fields (tBitIndex tDecodedRawData : Z) (d : IRData) : IRData :=
  let LowByte := tDecodedRawData mod 2 ^ 8 in
  let MidLowByte := Z.shiftr tDecodedRawData 8 mod 2 ^ 8 in
  let LowWord := tDecodedRawData mod 2 ^ 16 in
  let d := set_numberOfBits tBitIndex d in
  let d := set_decodedRawData tDecodedRawData d in
  let d := set_command (Z.land LowByte 0x3F) d in
  let d := set_address (Z.land (Z.shiftr LowWord RC5_CDI_COMMAND_BITS) 0x1F) d in
  let d :=
    if Z.land LowWord
         (Z.shiftl 1 (RC5_CDI_TOGGLE_BIT + RC5_CDI_ADDRESS_BITS + RC5_CDI_COMMAND_BITS)) =? 0
    then set_command (command d + 0x40) d
    else d in
  let d := set_flags IRDATA_FLAGS_IS_MSB_FIRST d in
  let d :=
    if negb (Z.land MidLowByte 0x8 =? 0)
    then set_flags (Z.lor IRDATA_FLAGS_TOGGLE_BIT IRDATA_FLAGS_IS_MSB_FIRST) d
    else d in
  let d := set_protocol RC5_CDI d in
  checkForRepeatSpaceTicksAndSetFlag (RC5_CDI_MAXIMUM_REPEAT_DISTANCE / MICROS_PER_TICK) d.

(** The steps of the loop never exceed three per buffer entry. *)
Definition decodeRC5_CDI_fuel (raw : irparams_struct) : nat :=
  S (3 * Z.to_nat (rawlen raw)).

(** From the start-bit check on.  [None] only if the data loop did not end
    within its fuel. *)
Definition decodeRC5_CDI_afterLengthCheck (raw : irparams_struct) (d : IRData)
    : option (bool * IRData) :=
  let '(tLevel, st) := getBiphaselevel raw (initBiphaselevel 1 RC5_CDI_UNIT) in
  match tLevel with
  | Some MARK =>
      match decodeRC5_CDI_bits (decodeRC5_CDI_fuel raw) raw st 0 0 with
      | LoopFuel => None
      | LoopNoTransition => Some (false, d)
      | LoopDone tBitIndex tDecodedRawData =>
          Some (true, decodeRC5_CDI_fields tBitIndex tDecodedRawData d)
      end
  | _ => Some (false, d)
  end.

(** The cursor of the biphase decoder lives in static variables that
    [initBiphaselevel] sets anew on entry, so the call depends on the buffer
    and the frame only. *)
Definition decodeRC5_CDI (raw : irparams_struct) (d : IRData) : option (bool * IRData) :=
  if decodeRC5_CDI_lengthRejects (rawlen raw) then Some (false, d)
  else decodeRC5_CDI_afterLengthCheck raw d.

End Codecs.

(** ** Loop-back of a sent frame into the receiver's buffer *)

(** The level and the duration of a mark or space call. *)
Definition pulseOf (c : TxCall) : list (Level * Z) :=
  match c with
  | Mark t => [(MARK, t)]
  | Space t => [(SPACE, t)]
  | EnableIROut _ | Delay _ => []
  end.

(** A pulse put before the runs that follow it: one entry with the first of
    them when both have the same level. *)
Definition joinRun (p : Level * Z) (runs : list (Level * Z)) : list (Level * Z) :=
  match runs with
  | (l', t') :: rest =>
      if Level_eqb (fst p) l' then (fst p, snd p + t') :: rest else p :: runs
  | [] => [p]
  end.

Fixpoint mergeRuns (ps : list (Level * Z)) : list (Level * Z) :=
  match ps with
  | [] => []
  | p :: rest => joinRun p (mergeRuns rest)
  end.

(** The runs without a space at their end. *)
Fixpoint dropTrailingSpace (runs : list (Level * Z)) : list (Level * Z) :=
  match runs with
  | [] => []
  | (l, t) :: rest =>
      match rest, l with
      | [], SPACE => []
      | _, _ => (l, t) :: dropTrailingSpace rest
      end
  end.

(** Modelled from the spec: the capture layer is not in [src/].  Section 3,
    RawPulseTrain: the durations alternate between mark and space, after a
    leading gap.  The measurement at the head of [ir_CDTV.hpp] shows the
    layout: entry 0 is the gap, the header mark is entry 1, and the space
    after the last mark is not recorded.  Here every pulse is measured at
    the duration it was sent with: successive calls of one level make one
    entry, a space at the end of the frame is part of the next gap, and a
    space at its start part of the gap before. *)
Definition capture (gap : Z) (log : list TxCall) : irparams_struct :=
  let buf :=
    match dropTrailingSpace (mergeRuns (flat_map pulseOf log)) with
    | (SPACE, t) :: runs => (gap + t) :: map snd runs
    | runs => gap :: map snd runs
    end in
  mkRaw (Z.of_nat (length buf)) buf.

(** ** A platform for the examples *)

(** Modelled from the spec: the timing matcher is not in [src/].  Section
    4.1: a measured duration matches a nominal one when it lies in a
    symmetric window around it, here 25 percent and never less than 50
    microseconds; a duration that is not positive matches nothing. *)
Definition matchMicros (measured nominal : Z) : bool :=
  (0 <? measured)
  && (Z.min (nominal * 75 / 100) (nominal - 50) <=? measured)
  && (measured <=? Z.max (nominal * 125 / 100) (nominal + 50)).

(** The theorems hold for every platform; this one evaluates them. *)
Definition bench : Platform :=
  mkPlatform matchMicros matchMicros 40 36 1000 50 0x01 0x08 0x80 2000.

(** A frame record before any decode. *)
Definition emptyIRData : IRData := mkIRData UNKNOWN 0 0 0 0 0.

(** ** Buffers for the examples *)

(** The CDTV frames of the values 0x123EDC, 0x000001 and 0x123000 at their
    nominal durations, after a gap of 20 ms. *)
Definition frame_CDTV_0x123EDC : irparams_struct :=
  mkRaw 52
    [20000; 8850; 4450;
     350; 450; 350; 450; 350; 450; 350; 1250; 350; 450; 350; 450; 350; 1250; 350; 450;
     350; 450; 350; 450; 350; 1250; 350; 1250; 350; 1250; 350; 1250; 350; 1250; 350; 450;
     350; 1250; 350; 1250; 350; 450; 350; 1250; 350; 1250; 350; 1250; 350; 450; 350; 450;
     350].

Definition frame_CDTV_0x000001 : irparams_struct :=
  mkRaw 52
    [20000; 8850; 4450;
     350; 450; 350; 450; 350; 450; 350; 450; 350; 450; 350; 450; 350; 450; 350; 450;
     350; 450; 350; 450; 350; 450; 350; 450; 350; 450; 350; 450; 350; 450; 350; 450;
     350; 450; 350; 450; 350; 450; 350; 450; 350; 450; 350; 450; 350; 450; 350; 1250;
     350].

Definition frame_CDTV_0x123000 : irparams_struct :=
  mkRaw 52
    [20000; 8850; 4450;
     350; 450; 350; 450; 350; 450; 350; 1250; 350; 450; 350; 450; 350; 1250; 350; 450;
     350; 450; 350; 450; 350; 1250; 350; 1250; 350; 450; 350; 450; 350; 450; 350; 450;
     350; 450; 350; 450; 350; 450; 350; 450; 350; 450; 350; 450; 350; 450; 350; 450;
     350].

(** The CDTV repeat frame. *)
Definition frame_CDTV_repeat : irparams_struct :=
  mkRaw 4 [20000; 8850; 2250; 350].

(** The two frames recorded at the head of [ir_RC5_CDI.hpp], their 19
    durations counted in half-cells of [RC5_CDI_UNIT]: address 0x11 with
    command 0x36 (raw data 0x1476), and with command 0x76 and the toggle
    bit (raw data 0xC76). *)
Definition frame_RC5_0x1476 : irparams_struct :=
  mkRaw 20
    [20000; 450; 450; 900; 900; 900; 450; 450; 450; 450; 900;
     450; 450; 450; 450; 900; 900; 450; 450; 900].

Definition frame_RC5X_0xC76 : irparams_struct :=
  mkRaw 20
    [20000; 900; 900; 450; 450; 900; 450; 450; 450; 450; 900;
     450; 450; 450; 450; 900; 900; 450; 450; 900].

(** A frame left by an earlier decode of [frame_RC5_0x1476]. *)
Definition earlierIRData : IRData := mkIRData RC5_CDI 0x11 0x36 13 0x80 0x1476.

(** ** Vocabulary of the proofs *)

Section Vocabulary.

Context {P : Platform}.

(** The half-cells the biphase decoder may still read: three for each entry
    not yet entered, and what is left of the current one. *)
Definition cellsAhead (raw : irparams_struct) (st : BiphaseState) : Z :=
  if sBiphaseHalfCellsLeft st =? 0
  then 3 * (rawlen raw - sBiphaseDecodeRawbuffOffset st)
  else 3 * (rawlen raw - sBiphaseDecodeRawbuffOffset st - 1) + sBiphaseHalfCellsLeft st.

Definition cursorOk (raw : irparams_struct) (st : BiphaseState) : Prop :=
  0 <= sBiphaseHalfCellsLeft st <= 2
  /\ sBiphaseDecodeRawbuffOffset st <= rawlen raw
  /\ (sBiphaseHalfCellsLeft st <> 0 -> sBiphaseDecodeRawbuffOffset st < rawlen raw).

(** [Reads raw st cells]: from the cursor [st] the decoder reads the levels
    [cells], one per call, and is then at the end of the buffer. *)
Fixpoint Reads (raw : irparams_struct) (st : BiphaseState) (cells : list Level) : Prop :=
  match cells with
  | [] => rawlen raw <= sBiphaseDecodeRawbuffOffset st
  | c :: cells' =>
      sBiphaseDecodeRawbuffOffset st < rawlen raw
      /\ exists st', getBiphaselevel raw st = (Some c, st') /\ Reads raw st' cells'
  end.

(** The matcher takes each nominal duration the two encoders send for what
    it is, and tells the two CDTV spaces and one half-cell from two apart. *)
Definition nominalTimingsMatch : Prop :=
  MATCH_MARK CDTV_HDR_MARK CDTV_HDR_MARK = true
  /\ MATCH_SPACE CDTV_HDR_SPACE CDTV_HDR_SPACE = true
  /\ MATCH_MARK CDTV_BIT_MARK CDTV_BIT_MARK = true
  /\ MATCH_SPACE CDTV_ONE_SPACE CDTV_ONE_SPACE = true
  /\ MATCH_SPACE CDTV_ZERO_SPACE CDTV_ZERO_SPACE = true
  /\ MATCH_SPACE CDTV_ZERO_SPACE CDTV_ONE_SPACE = false
  /\ (forall l, matchLevel l RC5_CDI_UNIT RC5_CDI_UNIT = true)
  /\ (forall l, matchLevel l (2 * RC5_CDI_UNIT) RC5_CDI_UNIT = false)
  /\ (forall l, matchLevel l (2 * RC5_CDI_UNIT) (2 * RC5_CDI_UNIT) = true).

(** The 24 bit periods of a CDTV frame from entry 3 on, as the engine
    reads them. *)
Definition cdtvBits (raw : irparams_struct) : option Z :=
  decodePulseDistanceWidthData_bits CDTVProtocolConstants raw CDTV_BITS
    (Z.to_nat CDTV_BITS) 3 0.

End Vocabulary.

(** The levels of the two half-cells of a bit. *)
Definition firstHalf (b : bool) : Level := if b then SPACE else MARK.
Definition secondHalf (b : bool) : Level := if b then MARK else SPACE.

(** The half-cells of the data bits that end up in the buffer: two per bit,
    but for a last bit 0 only its mark, the space after it being idle time. *)
Fixpoint frameCells (bits : list bool) : list Level :=
  match bits with
  | [] => []
  | b :: bits' =>
      match b, bits' with
      | false, [] => [MARK]
      | _, _ => firstHalf b :: secondHalf b :: frameCells bits'
      end
  end.

(** Buffer entries of one or two half-cells of [unit], the levels
    alternating from the level of entry [offset]. *)
Fixpoint goodRuns (unit offset : Z) (runs : list (Level * Z)) : Prop :=
  match runs with
  | [] => True
  | (l, t) :: rest =>
      l = levelOfOffset offset /\ (t = unit \/ t = unit + unit)
      /\ goodRuns unit (offset + 1) rest
  end.

Definition expandRun (unit : Z) (r : Level * Z) : list Level :=
  if snd r =? unit then [fst r] else [fst r; fst r].

(** The bits shifted into [tDecodedRawData], and the count of [tBitIndex]. *)
Definition shiftInBits (acc : Z) (bits : list bool) : Z :=
  fold_left (fun acc b => wrap 32 (Z.lor (Z.shiftl acc 1) (Z.b2z b))) bits acc.

Definition countBits (tBitIndex : Z) (bits : list bool) : Z :=
  fold_left (fun i _ => wrap 8 (i + 1)) bits tBitIndex.

(** The buffer entries of a CDTV bit. *)
Definition cdtvCell (b : bool) : list Z :=
  [CDTV_BIT_MARK; if b then CDTV_ONE_SPACE else CDTV_ZERO_SPACE].

(** Bit [i] of a word, through the wrap-arounds, masks, shifts and ors that
    build it. *)
Ltac word_bits wrap_testbit :=
  repeat first
    [ rewrite wrap_testbit by lia
    | rewrite Z.lor_spec
    | rewrite Z.land_spec
    | rewrite Z.shiftl_spec by lia ].

(** ** Durations and counts *)

(** The time a call keeps the transmitter at one level, in microseconds. *)
Definition microsOf (c : TxCall) : Z :=
  match c with
  | Mark t | Space t => t
  | EnableIROut _ | Delay _ => 0
  end.

(** The time the marks and spaces of a log add up to. *)
Definition frameMicros (log : list TxCall) : Z :=
  fold_right (fun c total => microsOf c + total) 0 log.

(** The number of ones among bits. *)
Definition onesOf (bits : list bool) : Z :=
  fold_right (fun b total => Z.b2z b + total) 0 bits.



(** * Part II: properties *)

(** ** Bits and words *)

Lemma land_pow2 (a k : Z) :
  0 <= k -> Z.land a (2 ^ k) = if Z.testbit a k then 2 ^ k else 0.
Proof.
  intros Hk. apply Z.bits_inj'. intros i Hi.
  rewrite Z.land_spec, Z.pow2_bits_eqb by assumption.
  destruct (Z.eqb_spec k i) as [->|Hne].
  - destruct (Z.testbit a i) eqn:E.
    + now rewrite Z.pow2_bits_eqb, Z.eqb_refl by assumption.
    + now rewrite Z.bits_0.
  - rewrite andb_false_r. destruct (Z.testbit a k).
    + rewrite Z.pow2_bits_eqb by assumption.
      symmetry. now apply Z.eqb_neq.
    + now rewrite Z.bits_0.
Qed.

Lemma testbit_small (x n i : Z) :
  0 <= x < 2 ^ n -> n <= i -> Z.testbit x i = false.
Proof.
  intros [Hx0 Hx] Hi.
  destruct (Z.eq_dec x 0) as [->|Hne]; [apply Z.bits_0|].
  apply Z.bits_above_log2; [assumption|].
  assert (Z.log2 x < n); [|lia].
  apply Z.log2_lt_pow2; lia.
Qed.

Lemma bitsMSB_S (data : Z) (n : nat) :
  bitsMSB data (S n) = Z.testbit data (Z.of_nat n) :: bitsMSB data n.
Proof.
  unfold bitsMSB. rewrite seq_S, rev_app_distr. reflexivity.
Qed.

Lemma bitsMSB_length (data : Z) (n : nat) : length (bitsMSB data n) = n.
Proof.
  unfold bitsMSB. now rewrite length_map, length_rev, length_seq.
Qed.

(** ** sendCDTV *)

Lemma sendCDTV_bit_pow2 (data : Z) (k : nat) :
  sendCDTV_bit data (2 ^ Z.of_nat k) = specCDTV_bit (Z.testbit data (Z.of_nat k)).
Proof.
  unfold sendCDTV_bit, specCDTV_bit.
  rewrite land_pow2 by lia.
  destruct (Z.testbit data (Z.of_nat k)).
  - assert (0 < 2 ^ Z.of_nat k) by (apply Z.pow_pos_nonneg; lia).
    destruct (Z.eqb_spec (2 ^ Z.of_nat k) 0); [lia | reflexivity].
  - reflexivity.
Qed.

(** The loop entered with [mask = 2^k] sends bits [k], [k-1], ..., [0] and
    ends, given more than [k + 1] steps. *)
Lemma sendCDTV_data_pow2 (data : Z) (k fuel : nat) :
  (k + 1 < fuel)%nat ->
  sendCDTV_data fuel data (2 ^ Z.of_nat k)
  = Some (flat_map specCDTV_bit (bitsMSB data (S k))).
Proof.
  revert fuel. induction k as [|k IH]; intros fuel Hf.
  - destruct fuel as [|[|fuel]]; try lia.
    cbn [sendCDTV_data]. change (2 ^ Z.of_nat 0) with 1.
    change (1 =? 0) with false. cbv iota.
    change (Z.shiftr 1 1) with 0. change (0 =? 0) with true. cbv iota.
    change 1 with (2 ^ Z.of_nat 0) at 1. rewrite sendCDTV_bit_pow2.
    reflexivity.
  - destruct fuel as [|fuel]; try lia.
    cbn [sendCDTV_data].
    assert (Hpos : 0 < 2 ^ Z.of_nat (S k)) by (apply Z.pow_pos_nonneg; lia).
    destruct (Z.eqb_spec (2 ^ Z.of_nat (S k)) 0) as [E|_]; [lia|].
    assert (Hshift : Z.shiftr (2 ^ Z.of_nat (S k)) 1 = 2 ^ Z.of_nat k).
    { rewrite Z.shiftr_div_pow2 by lia.
      replace (Z.of_nat (S k)) with (Z.of_nat k + 1) by lia.
      rewrite Z.pow_add_r by lia. now rewrite Z.div_mul by lia. }
    rewrite Hshift, IH by lia.
    rewrite sendCDTV_bit_pow2, (bitsMSB_S data (S k)).
    reflexivity.
Qed.

Lemma shl_ulong_one (n : Z) :
  0 < n <= ULONG_BITS -> shl_ulong 1 (n - 1) = Some (2 ^ (n - 1)).
Proof.
  unfold shl_ulong, ULONG_BITS, wrap. intros Hn.
  destruct (Z.leb_spec 0 (n - 1)); [|lia].
  destruct (Z.ltb_spec (n - 1) 32); [|lia]. cbn [andb].
  rewrite Z.shiftl_1_l. f_equal. apply Z.mod_small.
  split; [apply Z.pow_nonneg; lia|apply Z.pow_lt_mono_r; lia].
Qed.

Lemma shl_ulong_invalid (x n : Z) :
  ~ 0 < n <= ULONG_BITS -> shl_ulong x (n - 1) = None.
Proof.
  unfold shl_ulong, ULONG_BITS. intros Hn.
  destruct (Z.leb_spec 0 (n - 1)); [|reflexivity].
  destruct (Z.ltb_spec (n - 1) 32); [lia|reflexivity].
Qed.

(** The whole log of a call with a valid bit count. *)
Lemma sendCDTV_valid (data nbits : Z) :
  0 < nbits <= ULONG_BITS ->
  sendCDTV data nbits
  = mkEmission (EnableIROut 40 :: specCDTV_pulses data (Z.to_nat nbits)) Returned.
Proof.
  intros Hn. unfold sendCDTV. rewrite shl_ulong_one by assumption.
  replace (nbits - 1) with (Z.of_nat (Z.to_nat nbits - 1)) by lia.
  rewrite sendCDTV_data_pow2 by (unfold ULONG_BITS in *; lia).
  replace (S (Z.to_nat nbits - 1)) with (Z.to_nat nbits) by (unfold ULONG_BITS in *; lia).
  reflexivity.
Qed.

Lemma pulsesOf_specCDTV (data : Z) (n : nat) :
  pulsesOf (specCDTV_pulses data n) = specCDTV_pulses data n.
Proof.
  unfold pulsesOf, specCDTV_pulses.
  rewrite !filter_app. f_equal. f_equal.
  induction (bitsMSB data n) as [|b bs IH]; [reflexivity|].
  cbn [flat_map]. rewrite filter_app, IH. reflexivity.
Qed.

Lemma specCDTV_pulses_length (data : Z) (n : nat) :
  length (specCDTV_pulses data n) = (2 * n + 4)%nat.
Proof.
  unfold specCDTV_pulses. rewrite !length_app.
  assert (H : forall bs, length (flat_map specCDTV_bit bs) = (2 * length bs)%nat).
  { induction bs as [|b bs IH]; cbn [flat_map length app specCDTV_bit]; lia. }
  rewrite H, bitsMSB_length. cbn [length]. lia.
Qed.

(** C9.  For every data value and every bit count [0 < n <= 32], [sendCDTV]
    returns, and its mark and space calls are, in order: the header mark,
    the header space, for each of the [n] bits from the most significant
    down the bit mark and then the one-space or the zero-space, and last the
    bit mark and a space of duration 0.  The only other call of the log is
    the carrier set-up that precedes them. *)
Theorem sendCDTV_pulse_sequence (data nbits : Z) :
  0 < nbits <= ULONG_BITS ->
  outcome (sendCDTV data nbits) = Returned
  /\ pulsesOf (calls (sendCDTV data nbits)) = specCDTV_pulses data (Z.to_nat nbits)
  /\ calls (sendCDTV data nbits)
     = EnableIROut 40 :: specCDTV_pulses data (Z.to_nat nbits).
Proof.
  intros Hn. rewrite (sendCDTV_valid data nbits Hn). cbn [calls outcome].
  repeat split.
  change (pulsesOf (EnableIROut 40 :: ?l)) with (pulsesOf l).
  apply pulsesOf_specCDTV.
Qed.

Lemma sendCDTV_pulse_sequence_witness :
  0 < 24 <= ULONG_BITS
  /\ pulsesOf (calls (sendCDTV 0x123EDC 24)) = specCDTV_pulses 0x123EDC 24.
Proof.
  split; [unfold ULONG_BITS; lia|].
  apply (sendCDTV_pulse_sequence 0x123EDC 24). unfold ULONG_BITS; lia.
Defined.

(** C3, as the code has it.  [sendCDTV] does not look at the bit count
    before it sends: for every bit count the log starts with the carrier
    set-up, the header mark and the header space.  With [0 < n <= 32] the
    call returns, after [2n + 4] mark and space calls; with any other count
    the shift that computes the mask is undefined, and nothing reports it. *)
Theorem sendCDTV_no_bit_count_check (data nbits : Z) :
  firstn 3 (calls (sendCDTV data nbits))
  = [EnableIROut 40; Mark CDTV_HDR_MARK; Space CDTV_HDR_SPACE]
  /\ (0 < nbits <= ULONG_BITS ->
      outcome (sendCDTV data nbits) = Returned
      /\ length (pulsesOf (calls (sendCDTV data nbits))) = Z.to_nat (2 * nbits + 4))
  /\ (~ 0 < nbits <= ULONG_BITS ->
      outcome (sendCDTV data nbits) = UndefinedShift).
Proof.
  split; [|split].
  - unfold sendCDTV. destruct (shl_ulong 1 (nbits - 1)); [|reflexivity].
    destruct (sendCDTV_data _ data z); reflexivity.
  - intros Hn. rewrite (sendCDTV_valid data nbits Hn). cbn [calls outcome].
    split; [reflexivity|].
    change (pulsesOf (EnableIROut 40 :: ?l)) with (pulsesOf l).
    rewrite pulsesOf_specCDTV, specCDTV_pulses_length. lia.
  - intros Hn. unfold sendCDTV. now rewrite shl_ulong_invalid.
Qed.

Lemma sendCDTV_no_bit_count_check_witness :
  outcome (sendCDTV 0x123EDC 24) = Returned
  /\ outcome (sendCDTV 0x123EDC 33) = UndefinedShift.
Proof.
  split.
  - apply (sendCDTV_no_bit_count_check 0x123EDC 24). unfold ULONG_BITS; lia.
  - apply (sendCDTV_no_bit_count_check 0x123EDC 33). unfold ULONG_BITS; lia.
Defined.

(** C3, the claim as stated fails: with bit count 0 (and with 33) the
    header mark and the header space are sent all the same. *)
Lemma sendCDTV_invalid_count_sends_header :
  pulsesOf (calls (sendCDTV 0x123EDC 0)) = [Mark 8850; Space 4450]
  /\ pulsesOf (calls (sendCDTV 0x123EDC 33)) = [Mark 8850; Space 4450].
Proof. split; reflexivity. Qed.

(** ** sendRC5_CDI: the composed word *)

Lemma wrap_testbit (w x i : Z) :
  0 <= i < w -> Z.testbit (wrap w x) i = Z.testbit x i.
Proof. intros Hi. unfold wrap. apply Z.mod_pow2_bits_low. lia. Qed.

Lemma wrap_range (w x : Z) : 0 <= w -> 0 <= wrap w x < 2 ^ w.
Proof. intros Hw. unfold wrap. apply Z.mod_pos_bound. apply Z.pow_pos_nonneg; lia. Qed.

Section SendRC5.

Context {P : Platform}.

Variables (aAddress aCommand sCDILastSendToggleValue : Z).
Variable aEnableAutomaticToggle : bool.
Hypothesis aCommand_uint8 : 0 <= aCommand < 256.

Lemma sendRC5_CDI_word_toggle_bit :
  Z.testbit
    (fst (sendRC5_CDI_word aAddress aCommand aEnableAutomaticToggle
         sCDILastSendToggleValue)) 11
  = aEnableAutomaticToggle && (sCDILastSendToggleValue =? 0).
Proof.
  unfold sendRC5_CDI_word.
  unfold RC5_CDI_COMMAND_BITS, RC5_CDI_TOGGLE_BIT, RC5_CDI_ADDRESS_BITS.
  assert (Hhigh : aCommand < 64 -> Z.testbit aCommand 11 = false)
    by (intros; apply (testbit_small aCommand 6); lia).
  destruct (Z.ltb_spec aCommand 64); destruct aEnableAutomaticToggle;
    destruct (Z.eqb_spec sCDILastSendToggleValue 0);
    cbn [fst andb]; word_bits wrap_testbit; rewrite ?Hhigh by assumption;
    cbn; now rewrite ?andb_false_r.
Qed.

Lemma sendRC5_CDI_word_field_bit :
  Z.testbit
    (fst (sendRC5_CDI_word aAddress aCommand aEnableAutomaticToggle
         sCDILastSendToggleValue)) 12
  = (aCommand <? 0x40).
Proof.
  unfold sendRC5_CDI_word.
  unfold RC5_CDI_COMMAND_BITS, RC5_CDI_TOGGLE_BIT, RC5_CDI_ADDRESS_BITS.
  assert (Hhigh : aCommand < 64 -> Z.testbit aCommand 12 = false)
    by (intros; apply (testbit_small aCommand 6); lia).
  destruct (Z.ltb_spec aCommand 64); destruct aEnableAutomaticToggle;
    destruct (Z.eqb_spec sCDILastSendToggleValue 0);
    cbn [fst andb]; word_bits wrap_testbit; rewrite ?Hhigh by assumption;
    cbn; now rewrite ?andb_false_r.
Qed.

Lemma sendRC5_CDI_word_command_bits :
  Z.land
    (fst (sendRC5_CDI_word aAddress aCommand aEnableAutomaticToggle
         sCDILastSendToggleValue)) 0x3F
  = Z.land aCommand 0x3F.
Proof.
  apply Z.bits_inj'. intros i Hi.
  rewrite !Z.land_spec.
  destruct (Z.ltb_spec i 6) as [Hlt|Hge].
  - f_equal. unfold sendRC5_CDI_word.
    unfold RC5_CDI_COMMAND_BITS, RC5_CDI_TOGGLE_BIT, RC5_CDI_ADDRESS_BITS.
    assert (H1 : forall n, 6 <= n -> Z.testbit 1 (i - n) = false)
      by (intros; apply Z.testbit_neg_r; lia).
    assert (H2 : forall x, Z.testbit x (i - 6) = false)
      by (intros; apply Z.testbit_neg_r; lia).
    assert (H63 : Z.testbit 63 i = true)
      by (change 63 with (Z.ones 6); apply Z.ones_spec_low; lia).
    destruct (Z.ltb_spec aCommand 64); destruct aEnableAutomaticToggle;
      destruct (Z.eqb_spec sCDILastSendToggleValue 0);
      cbn [fst andb]; word_bits wrap_testbit;
      rewrite ?H2, ?H63, ?(H1 (1 + 5 + 6)), ?(H1 (5 + 6)) by lia;
      cbn [andb orb]; now rewrite ?orb_false_r, ?andb_true_r.
  - change 63 with (Z.ones 6). rewrite Z.ones_spec_high by lia.
    now rewrite !andb_false_r.
Qed.

Lemma sendRC5_CDI_word_range :
  0 <= fst (sendRC5_CDI_word aAddress aCommand aEnableAutomaticToggle
         sCDILastSendToggleValue) < 2 ^ 13.
Proof.
  set (tIRData := fst (sendRC5_CDI_word aAddress aCommand aEnableAutomaticToggle
                         sCDILastSendToggleValue)).
  assert (H0 : 0 <= tIRData < 2 ^ 16).
  { subst tIRData. unfold sendRC5_CDI_word.
    destruct (aCommand <? 64); destruct aEnableAutomaticToggle;
      destruct (sCDILastSendToggleValue =? 0); cbn [fst];
      apply wrap_range; lia. }
  split; [lia|].
  assert (E : tIRData = tIRData mod 2 ^ 13); [|rewrite E; apply Z.mod_pos_bound; lia].
  apply Z.bits_inj'. intros i Hi.
  destruct (Z.ltb_spec i 13) as [Hlt|Hge].
  - now rewrite Z.mod_pow2_bits_low by lia.
  - rewrite Z.mod_pow2_bits_high by lia.
    destruct (Z.ltb_spec i 16) as [Hlt16|Hge16];
      [|apply (testbit_small tIRData 16); lia].
    subst tIRData. unfold sendRC5_CDI_word.
    unfold RC5_CDI_COMMAND_BITS, RC5_CDI_TOGGLE_BIT, RC5_CDI_ADDRESS_BITS.
    assert (Hc : Z.testbit aCommand i = false)
      by (apply (testbit_small aCommand 8); lia).
    assert (Ha : Z.testbit 31 (i - 6) = false)
      by (apply (testbit_small 31 5); lia).
    assert (H1 : forall n, n <= 12 -> Z.testbit 1 (i - n) = false)
      by (intros; apply (testbit_small 1 1); lia).
    destruct (Z.ltb_spec aCommand 64); destruct aEnableAutomaticToggle;
      destruct (Z.eqb_spec sCDILastSendToggleValue 0);
      cbn [fst andb]; word_bits wrap_testbit;
      rewrite ?Hc, ?Ha, ?(H1 (1 + 5 + 6)), ?(H1 (5 + 6)) by lia;
      now rewrite ?andb_false_r.
Qed.

End SendRC5.

(** C2, as the code has it.  Address 0x11, command 0x36 and toggle bit 0
    (automatic toggle off, or on with the state it has at startup) compose
    the 13-bit word 0x1476: field bit 1, the command being below 0x40,
    toggle bit 0, address 10001, command 110110.  The word goes to the
    biphase emitter with unit 450 and 13 bits, and the emitter sends the
    mark of the start bit before the cells of the 13 bits. *)
Theorem sendRC5_CDI_example_word {P : Platform} (sCDILastSendToggleValue : Z) :
  sendRC5_CDI 0x11 0x36 0 false sCDILastSendToggleValue
  = (EnableIROut RC5_CDI_KHZ :: sendBiphaseData RC5_CDI_UNIT 0x1476 RC5_CDI_BITS,
     sCDILastSendToggleValue)
  /\ sendRC5_CDI 0x11 0x36 0 true sCDILastSendToggleValue_init
     = (EnableIROut RC5_CDI_KHZ :: sendBiphaseData RC5_CDI_UNIT 0x1476 RC5_CDI_BITS, 0)
  /\ sendBiphaseData RC5_CDI_UNIT 0x1476 RC5_CDI_BITS
     = Mark 450
       :: flat_map (biphaseCell 450)
            [true; false; true; false; false; false; true;
             true; true; false; true; true; false].
Proof.
  split; [|split].
  - unfold sendRC5_CDI.
    change (sendRC5_CDI_word 0x11 0x36 false sCDILastSendToggleValue)
      with (0x1476, sCDILastSendToggleValue).
    reflexivity.
  - reflexivity.
  - reflexivity.
Qed.

(** C2, the claim as stated fails: the word composed is 0x1476, with the
    field bit set, and not 0x0476. *)
Lemma sendRC5_CDI_example_word_not_0x0476 :
  fst (sendRC5_CDI_word 0x11 0x36 false 0) = 0x1476
  /\ fst (sendRC5_CDI_word 0x11 0x36 true 1) = 0x1476
  /\ fst (sendRC5_CDI_word 0x11 0x36 false 0) <> 0x0476.
Proof. repeat split. discriminate. Qed.

(** C10.  A call with automatic toggle on leaves the toggle state 1 if it
    was 0 and 0 if it was not, and the toggle bit (bit 11) of the word it
    sends is the new state; a call with automatic toggle off leaves the
    state as it was.  The state starts at 1, so the first call with
    automatic toggle sends toggle bit 0. *)
Theorem sendRC5_CDI_toggle {P : Platform}
    (aAddress aCommand aNumberOfRepeats sCDILastSendToggleValue : Z) :
  0 <= aCommand < 256 ->
  snd (sendRC5_CDI aAddress aCommand aNumberOfRepeats true sCDILastSendToggleValue)
  = (if sCDILastSendToggleValue =? 0 then 1 else 0)
  /\ (sCDILastSendToggleValue = 0 <->
      snd (sendRC5_CDI aAddress aCommand aNumberOfRepeats true sCDILastSendToggleValue) <> 0)
  /\ fst (sendRC5_CDI aAddress aCommand aNumberOfRepeats true sCDILastSendToggleValue)
     = EnableIROut RC5_CDI_KHZ
       :: sendRC5_CDI_frames (Z.to_nat (wrap 8 (aNumberOfRepeats + 1)))
            (fst (sendRC5_CDI_word aAddress aCommand true sCDILastSendToggleValue))
  /\ Z.b2z (Z.testbit
              (fst (sendRC5_CDI_word aAddress aCommand true sCDILastSendToggleValue)) 11)
     = snd (sendRC5_CDI aAddress aCommand aNumberOfRepeats true sCDILastSendToggleValue)
  /\ snd (sendRC5_CDI aAddress aCommand aNumberOfRepeats false sCDILastSendToggleValue)
     = sCDILastSendToggleValue
  /\ snd (sendRC5_CDI aAddress aCommand aNumberOfRepeats true sCDILastSendToggleValue_init)
     = 0
  /\ Z.testbit
       (fst (sendRC5_CDI_word aAddress aCommand true sCDILastSendToggleValue_init)) 11
     = false.
Proof.
  intros Hc.
  assert (Hsnd : forall t,
            snd (sendRC5_CDI aAddress aCommand aNumberOfRepeats true t)
            = if t =? 0 then 1 else 0).
  { intros t. unfold sendRC5_CDI, sendRC5_CDI_word.
    destruct (aCommand <? 64); destruct (t =? 0); reflexivity. }
  repeat split.
  - apply Hsnd.
  - intros ->. now rewrite Hsnd.
  - rewrite Hsnd. destruct (Z.eqb_spec sCDILastSendToggleValue 0); [trivial|].
    intros H. now elim H.
  - unfold sendRC5_CDI.
    now destruct (sendRC5_CDI_word aAddress aCommand true sCDILastSendToggleValue).
  - rewrite Hsnd, (sendRC5_CDI_word_toggle_bit _ _ _ _ Hc).
    now destruct (sCDILastSendToggleValue =? 0).
  - unfold sendRC5_CDI, sendRC5_CDI_word.
    now destruct (aCommand <? 64).
  - apply Hsnd.
  - now rewrite (sendRC5_CDI_word_toggle_bit _ _ _ _ Hc).
Qed.

Lemma sendRC5_CDI_toggle_witness :
  0 <= 0x36 < 256
  /\ snd (@sendRC5_CDI bench 0x11 0x36 0 true 0) = 1
  /\ snd (@sendRC5_CDI bench 0x11 0x36 0 true 1) = 0.
Proof.
  split; [lia|split].
  - apply (@sendRC5_CDI_toggle bench 0x11 0x36 0 0). lia.
  - apply (@sendRC5_CDI_toggle bench 0x11 0x36 0 1). lia.
Defined.

(** ** The biphase cursor and the data loop of decodeRC5_CDI *)

Section BiphaseCursor.

Context {P : Platform}.
Variable raw : irparams_struct.

Lemma halfCellsOf_range (l : Level) (measured unit k : Z) :
  halfCellsOf l measured unit = Some k -> 1 <= k <= 3.
Proof.
  unfold halfCellsOf.
  destruct (matchLevel l measured unit); [intros [= <-]; lia|].
  destruct (matchLevel l measured (2 * unit)); [intros [= <-]; lia|].
  destruct (matchLevel l measured (3 * unit)); [intros [= <-]; lia|discriminate].
Qed.

(** Past the end the level is a space and the cursor stays. *)
Lemma getBiphaselevel_past_end (st : BiphaseState) :
  rawlen raw <= sBiphaseDecodeRawbuffOffset st ->
  getBiphaselevel raw st = (Some SPACE, st).
Proof.
  intros H. unfold getBiphaselevel.
  destruct (Z.leb_spec (rawlen raw) (sBiphaseDecodeRawbuffOffset st)); [reflexivity|lia].
Qed.

(** A read inside the buffer fails and leaves the cursor, or uses up one
    half-cell. *)
Lemma getBiphaselevel_step (st st' : BiphaseState) (l : option Level) :
  sBiphaseDecodeRawbuffOffset st < rawlen raw ->
  0 <= sBiphaseHalfCellsLeft st <= 2 ->
  getBiphaselevel raw st = (l, st') ->
  (l = None /\ st' = st)
  \/ (l = Some (levelOfOffset (sBiphaseDecodeRawbuffOffset st))
      /\ cursorOk raw st' /\ cellsAhead raw st' < cellsAhead raw st).
Proof.
  intros Hin Hleft. unfold getBiphaselevel.
  destruct (Z.leb_spec (rawlen raw) (sBiphaseDecodeRawbuffOffset st)); [lia|].
  assert (Hk : forall k, 1 <= k <= 3 ->
            ((sBiphaseHalfCellsLeft st =? 0) = false -> k = sBiphaseHalfCellsLeft st) ->
            (if k - 1 <=? 0
             then (Some (levelOfOffset (sBiphaseDecodeRawbuffOffset st)),
                   mkBiphase (sBiphaseDecodeRawbuffOffset st + 1) 0 (sBiphaseTimeUnit st))
             else (Some (levelOfOffset (sBiphaseDecodeRawbuffOffset st)),
                   mkBiphase (sBiphaseDecodeRawbuffOffset st) (k - 1) (sBiphaseTimeUnit st)))
            = (l, st') ->
            l = Some (levelOfOffset (sBiphaseDecodeRawbuffOffset st))
            /\ cursorOk raw st' /\ cellsAhead raw st' < cellsAhead raw st).
  { intros k Hk Hsame. unfold cursorOk, cellsAhead.
    destruct (Z.leb_spec (k - 1) 0); intros [= <- <-];
      cbn [sBiphaseHalfCellsLeft sBiphaseDecodeRawbuffOffset];
      (split; [reflexivity|]).
    - rewrite Z.eqb_refl.
      destruct (Z.eqb_spec (sBiphaseHalfCellsLeft st) 0); [lia|].
      specialize (Hsame eq_refl). lia.
    - destruct (Z.eqb_spec (k - 1) 0); [lia|].
      destruct (Z.eqb_spec (sBiphaseHalfCellsLeft st) 0); [lia|].
      specialize (Hsame eq_refl). lia. }
  destruct (Z.eqb_spec (sBiphaseHalfCellsLeft st) 0) as [E0|Hne].
  - destruct (halfCellsOf _ _ _) as [k|] eqn:Ek.
    + intros Hget. right. apply (Hk k); [|discriminate|assumption].
      now apply halfCellsOf_range in Ek.
    + intros [= <- <-]. now left.
  - intros Hget. right.
    apply (Hk (sBiphaseHalfCellsLeft st)); [lia|reflexivity|assumption].
Qed.

(** The data loop ends within the steps [decodeRC5_CDI] gives it. *)
Lemma decodeRC5_CDI_bits_ends (fuel : nat) (st : BiphaseState) (tBitIndex tDecodedRawData : Z) :
  cursorOk raw st ->
  cellsAhead raw st < Z.of_nat fuel ->
  decodeRC5_CDI_bits fuel raw st tBitIndex tDecodedRawData <> LoopFuel.
Proof.
  revert st tBitIndex tDecodedRawData.
  induction fuel as [|fuel IH]; intros st i acc (Hleft & Hoff & Hmid) Hfuel.
  - exfalso. unfold cellsAhead in Hfuel.
    destruct (Z.eqb_spec (sBiphaseHalfCellsLeft st) 0); [lia|].
    specialize (Hmid ltac:(assumption)). lia.
  - cbn [decodeRC5_CDI_bits].
    destruct (Z.ltb_spec (sBiphaseDecodeRawbuffOffset st) (rawlen raw)) as [Hin|Hout];
      [|discriminate].
    destruct (getBiphaselevel raw st) as [tStartLevel st1] eqn:E1.
    destruct (getBiphaselevel raw st1) as [tEndLevel st2] eqn:E2.
    destruct (getBiphaselevel_step st st1 tStartLevel Hin Hleft E1)
      as [[-> _]|(_ & Hok1 & Hlt1)]; [discriminate|].
    assert (H2 : cursorOk raw st2 /\ cellsAhead raw st2 <= cellsAhead raw st1
                 \/ tEndLevel = None).
    { destruct (Z.ltb_spec (sBiphaseDecodeRawbuffOffset st1) (rawlen raw)) as [Hin1|Hout1].
      - destruct (getBiphaselevel_step st1 st2 tEndLevel Hin1 (proj1 Hok1) E2)
          as [[-> _]|(_ & Hok2 & Hlt2)]; [now right|left; split; [assumption|lia]].
      - rewrite getBiphaselevel_past_end in E2 by assumption.
        injection E2 as <- <-. left. split; [assumption|lia]. }
    destruct H2 as [[Hok2 Hle2]| ->].
    + destruct tStartLevel as [[|]|]; destruct tEndLevel as [[|]|];
        try discriminate; apply IH; (assumption || lia).
    + destruct tStartLevel as [[|]|]; discriminate.
Qed.


(** More fuel does not change how the loop ends. *)
Lemma decodeRC5_CDI_bits_more_fuel (fuel fuel' : nat) (st : BiphaseState)
    (tBitIndex tDecodedRawData : Z) :
  (fuel <= fuel')%nat ->
  decodeRC5_CDI_bits fuel raw st tBitIndex tDecodedRawData <> LoopFuel ->
  decodeRC5_CDI_bits fuel' raw st tBitIndex tDecodedRawData
  = decodeRC5_CDI_bits fuel raw st tBitIndex tDecodedRawData.
Proof.
  revert fuel' st tBitIndex tDecodedRawData.
  induction fuel as [|fuel IH]; intros fuel' st i acc Hle Hends.
  - now elim Hends.
  - destruct fuel' as [|fuel']; [lia|].
    cbn [decodeRC5_CDI_bits] in *.
    destruct (sBiphaseDecodeRawbuffOffset st <? rawlen raw); [|reflexivity].
    destruct (getBiphaselevel raw st) as [tStartLevel st1].
    destruct (getBiphaselevel raw st1) as [tEndLevel st2].
    destruct tStartLevel as [[|]|]; destruct tEndLevel as [[|]|];
      try reflexivity; apply IH; (lia || assumption).
Qed.

(** The state after the start-bit read, when that read is a mark. *)
Lemma start_bit_cursor (st : BiphaseState) :
  getBiphaselevel raw (initBiphaselevel 1 RC5_CDI_UNIT) = (Some MARK, st) ->
  cursorOk raw st /\ cellsAhead raw st < Z.of_nat (decodeRC5_CDI_fuel raw).
Proof.
  intros Hget.
  destruct (Z.ltb_spec 1 (rawlen raw)) as [Hin|Hout].
  - assert (Hleft : 0 <= sBiphaseHalfCellsLeft (initBiphaselevel 1 RC5_CDI_UNIT) <= 2)
      by (cbn [initBiphaselevel sBiphaseHalfCellsLeft]; lia).
    destruct (getBiphaselevel_step (initBiphaselevel 1 RC5_CDI_UNIT) st (Some MARK)
                Hin Hleft Hget)
      as [[Hnone _]|(_ & Hok & Hlt)]; [discriminate|].
    split; [assumption|].
    change (cellsAhead raw (initBiphaselevel 1 RC5_CDI_UNIT))
      with (3 * (rawlen raw - 1)) in Hlt.
    unfold decodeRC5_CDI_fuel. lia.
  - rewrite getBiphaselevel_past_end in Hget by (cbn; lia). discriminate.
Qed.

(** [decodeRC5_CDI] returns: its data loop ends within the fuel. *)
Lemma decodeRC5_CDI_returns (d : IRData) :
  exists ok d', decodeRC5_CDI raw d = Some (ok, d').
Proof.
  unfold decodeRC5_CDI.
  destruct (decodeRC5_CDI_lengthRejects (rawlen raw)); [now exists false, d|].
  unfold decodeRC5_CDI_afterLengthCheck.
  destruct (getBiphaselevel raw (initBiphaselevel 1 RC5_CDI_UNIT)) as [tLevel st] eqn:E.
  destruct tLevel as [[|]|]; try (now exists false, d).
  destruct (start_bit_cursor st E) as [Hok Hfuel].
  pose proof (decodeRC5_CDI_bits_ends (decodeRC5_CDI_fuel raw) st 0 0 Hok Hfuel) as Hends.
  destruct (decodeRC5_CDI_bits (decodeRC5_CDI_fuel raw) raw st 0 0) as [| |n w];
    [now elim Hends|now exists false, d|].
  now exists true, (decodeRC5_CDI_fields n w d).
Qed.

(** Every failure of [decodeRC5_CDI] is returned before the frame is
    written. *)
Lemma decodeRC5_CDI_failure (d d' : IRData) :
  decodeRC5_CDI raw d = Some (false, d') -> d' = d.
Proof.
  unfold decodeRC5_CDI, decodeRC5_CDI_afterLengthCheck.
  destruct (decodeRC5_CDI_lengthRejects (rawlen raw)); [now intros [= <-]|].
  destruct (getBiphaselevel raw (initBiphaselevel 1 RC5_CDI_UNIT)) as [tLevel st].
  destruct tLevel as [[|]|]; try (now intros [= <-]).
  destruct (decodeRC5_CDI_bits _ raw st 0 0);
    [discriminate|now intros [= <-]|discriminate].
Qed.

(** A success of [decodeRC5_CDI] writes the fields from the bit count and
    the value the data loop ended with. *)
Lemma decodeRC5_CDI_success (d d' : IRData) :
  decodeRC5_CDI raw d = Some (true, d') ->
  exists st tBitIndex tDecodedRawData,
    getBiphaselevel raw (initBiphaselevel 1 RC5_CDI_UNIT) = (Some MARK, st)
    /\ decodeRC5_CDI_bits (decodeRC5_CDI_fuel raw) raw st 0 0
       = LoopDone tBitIndex tDecodedRawData
    /\ d' = decodeRC5_CDI_fields tBitIndex tDecodedRawData d.
Proof.
  unfold decodeRC5_CDI, decodeRC5_CDI_afterLengthCheck.
  destruct (decodeRC5_CDI_lengthRejects (rawlen raw)); [discriminate|].
  destruct (getBiphaselevel raw (initBiphaselevel 1 RC5_CDI_UNIT)) as [tLevel st].
  destruct tLevel as [[|]|]; try discriminate.
  destruct (decodeRC5_CDI_bits _ raw st 0 0) as [| |n w] eqn:E; try discriminate.
  intros [= <-]. now exists st, n, w.
Qed.

End BiphaseCursor.

(** ** The fields decodeRC5_CDI writes *)

Section Fields.

Context {P : Platform}.
Variables (tBitIndex tDecodedRawData : Z) (d : IRData).

Lemma checkForRepeat_fields (ticks : Z) (f : IRData) :
  protocol (checkForRepeatSpaceTicksAndSetFlag ticks f) = protocol f
  /\ address (checkForRepeatSpaceTicksAndSetFlag ticks f) = address f
  /\ command (checkForRepeatSpaceTicksAndSetFlag ticks f) = command f
  /\ numberOfBits (checkForRepeatSpaceTicksAndSetFlag ticks f) = numberOfBits f
  /\ decodedRawData (checkForRepeatSpaceTicksAndSetFlag ticks f) = decodedRawData f.
Proof.
  unfold checkForRepeatSpaceTicksAndSetFlag.
  destruct (ticksSincePreviousFrame <? ticks); repeat split.
Qed.

Lemma decodeRC5_CDI_fields_decodedRawData :
  decodedRawData (decodeRC5_CDI_fields tBitIndex tDecodedRawData d) = tDecodedRawData.
Proof.
  unfold decodeRC5_CDI_fields.
  rewrite (proj2 (proj2 (proj2 (proj2 (checkForRepeat_fields _ _))))).
  destruct (Z.land _ (Z.shiftl 1 _) =? 0); destruct (negb _); reflexivity.
Qed.

Lemma decodeRC5_CDI_fields_numberOfBits :
  numberOfBits (decodeRC5_CDI_fields tBitIndex tDecodedRawData d) = tBitIndex.
Proof.
  unfold decodeRC5_CDI_fields.
  rewrite (proj1 (proj2 (proj2 (proj2 (checkForRepeat_fields _ _))))).
  destruct (Z.land _ (Z.shiftl 1 _) =? 0); destruct (negb _); reflexivity.
Qed.

Lemma decodeRC5_CDI_fields_protocol :
  protocol (decodeRC5_CDI_fields tBitIndex tDecodedRawData d) = RC5_CDI.
Proof.
  unfold decodeRC5_CDI_fields.
  now rewrite (proj1 (checkForRepeat_fields _ _)).
Qed.

(** The command: the six low bits, and 0x40 more when bit 12, the field
    bit, is 0. *)
Lemma decodeRC5_CDI_fields_command :
  command (decodeRC5_CDI_fields tBitIndex tDecodedRawData d)
  = Z.land tDecodedRawData 0x3F
    + (if Z.testbit tDecodedRawData 12 then 0 else 0x40).
Proof.
  unfold decodeRC5_CDI_fields.
  rewrite (proj1 (proj2 (proj2 (checkForRepeat_fields _ _)))).
  assert (Hlow : Z.land (tDecodedRawData mod 2 ^ 8) 63 = Z.land tDecodedRawData 63).
  { apply Z.bits_inj'. intros i Hi. rewrite !Z.land_spec.
    destruct (Z.ltb_spec i 8).
    - now rewrite Z.mod_pow2_bits_low by lia.
    - rewrite (testbit_small 63 6 i) by lia. now rewrite !andb_false_r. }
  unfold RC5_CDI_TOGGLE_BIT, RC5_CDI_ADDRESS_BITS, RC5_CDI_COMMAND_BITS.
  change (Z.shiftl 1 (1 + 5 + 6)) with (2 ^ 12).
  rewrite land_pow2, Z.mod_pow2_bits_low by lia.
  destruct (Z.testbit tDecodedRawData 12); destruct (negb _);
    try change (2 ^ 12 =? 0) with false; try change (0 =? 0) with true;
    cbn [command set_command set_flags set_protocol set_address
         set_decodedRawData set_numberOfBits];
    rewrite Hlow; lia.
Qed.

End Fields.

(** ** Reading half-cells off buffer entries *)

Section Reading.

Context {P : Platform}.
Variable raw : irparams_struct.
Variables (offset unit : Z).
Hypothesis offset_in : offset < rawlen raw.

(** An entry of one half-cell is read in one call. *)
Lemma getBiphaselevel_single :
  matchLevel (levelOfOffset offset) (rawbuf_at raw offset) unit = true ->
  getBiphaselevel raw (mkBiphase offset 0 unit)
  = (Some (levelOfOffset offset), mkBiphase (offset + 1) 0 unit).
Proof.
  intros Hm. unfold getBiphaselevel, halfCellsOf.
  cbn [sBiphaseDecodeRawbuffOffset sBiphaseHalfCellsLeft sBiphaseTimeUnit].
  destruct (Z.leb_spec (rawlen raw) offset); [lia|].
  rewrite Z.eqb_refl, Hm. reflexivity.
Qed.

(** The first call on an entry of two half-cells stays on the entry. *)
Lemma getBiphaselevel_double :
  matchLevel (levelOfOffset offset) (rawbuf_at raw offset) unit = false ->
  matchLevel (levelOfOffset offset) (rawbuf_at raw offset) (2 * unit) = true ->
  getBiphaselevel raw (mkBiphase offset 0 unit)
  = (Some (levelOfOffset offset), mkBiphase offset 1 unit).
Proof.
  intros Hm1 Hm2. unfold getBiphaselevel, halfCellsOf.
  cbn [sBiphaseDecodeRawbuffOffset sBiphaseHalfCellsLeft sBiphaseTimeUnit].
  destruct (Z.leb_spec (rawlen raw) offset); [lia|].
  rewrite Z.eqb_refl, Hm1, Hm2. reflexivity.
Qed.

(** The call that reads the last half-cell of an entry moves to the next. *)
Lemma getBiphaselevel_last :
  getBiphaselevel raw (mkBiphase offset 1 unit)
  = (Some (levelOfOffset offset), mkBiphase (offset + 1) 0 unit).
Proof.
  unfold getBiphaselevel.
  cbn [sBiphaseDecodeRawbuffOffset sBiphaseHalfCellsLeft sBiphaseTimeUnit].
  destruct (Z.leb_spec (rawlen raw) offset); [lia|]. reflexivity.
Qed.

End Reading.

Lemma levelOfOffset_succ (offset : Z) :
  levelOfOffset (offset + 1)
  = match levelOfOffset offset with MARK => SPACE | SPACE => MARK end.
Proof.
  unfold levelOfOffset. replace (offset + 1) with (Z.succ offset) by lia.
  rewrite Z.odd_succ, <- Z.negb_odd. now destruct (Z.odd offset).
Qed.

(** ** decodeRC5_CDI: the length check and the field bit *)

(** The two frames recorded at the head of [ir_RC5_CDI.hpp] decode as
    recorded there: 13 bits, address 0x11, command 0x36 with raw data 0x1476
    and command 0x76 with the toggle flag and raw data 0xC76.  Both end in
    a mark whose second half-cell starts the last bit. *)
Example decodeRC5_CDI_recorded_RC5 :
  @decodeRC5_CDI bench frame_RC5_0x1476 emptyIRData
  = Some (true, mkIRData RC5_CDI 0x11 0x36 13 0x80 0x1476).
Proof. vm_compute. reflexivity. Qed.

Example decodeRC5_CDI_recorded_RC5X :
  @decodeRC5_CDI bench frame_RC5X_0xC76 emptyIRData
  = Some (true, mkIRData RC5_CDI 0x11 0x76 13 0x88 0xC76).
Proof. vm_compute. reflexivity. Qed.

(** And they are the frames [sendRC5_CDI] sends for these commands. *)
Example sendRC5_CDI_recorded_frames :
  capture 20000 (fst (@sendRC5_CDI bench 0x11 0x36 0 true 1)) = frame_RC5_0x1476
  /\ capture 20000 (fst (@sendRC5_CDI bench 0x11 0x76 0 true 0)) = frame_RC5X_0xC76.
Proof. split; vm_compute; reflexivity. Qed.

Lemma decodeRC5_CDI_lengthRejects_false (len : Z) :
  decodeRC5_CDI_lengthRejects len = false.
Proof.
  change (decodeRC5_CDI_lengthRejects len) with ((len <? 9) && (15 <? len)).
  destruct (Z.ltb_spec len 9); destruct (Z.ltb_spec 15 len);
    try reflexivity. exfalso. lia.
Qed.

(** C5.  The length check of [decodeRC5_CDI] rejects no length: a length
    below 9 is not above 15.  So the decoder goes on to the start-bit check
    for a buffer of any length, and it can report success with a bit count
    that is not 13: a mark, a space and a mark of one unit each decode as
    one bit. *)
Theorem decodeRC5_CDI_length_check_never_rejects {P : Platform} :
  (forall len, decodeRC5_CDI_lengthRejects len = false)
  /\ (forall raw d, decodeRC5_CDI raw d = decodeRC5_CDI_afterLengthCheck raw d)
  /\ (MATCH_MARK RC5_CDI_UNIT RC5_CDI_UNIT = true ->
      MATCH_SPACE RC5_CDI_UNIT RC5_CDI_UNIT = true ->
      forall gap d,
      exists d',
        decodeRC5_CDI (mkRaw 4 [gap; RC5_CDI_UNIT; RC5_CDI_UNIT; RC5_CDI_UNIT]) d
        = Some (true, d')
        /\ numberOfBits d' = 1).
Proof.
  pose proof decodeRC5_CDI_lengthRejects_false as Hlen.
  split; [exact Hlen|split].
  - intros raw d. unfold decodeRC5_CDI. now rewrite Hlen.
  - intros Hmark Hspace gap d.
    exists (decodeRC5_CDI_fields 1 1 d).
    split; [|apply decodeRC5_CDI_fields_numberOfBits].
    unfold decodeRC5_CDI. rewrite Hlen.
    set (raw := mkRaw 4 [gap; RC5_CDI_UNIT; RC5_CDI_UNIT; RC5_CDI_UNIT]).
    unfold decodeRC5_CDI_afterLengthCheck, initBiphaselevel.
    rewrite (getBiphaselevel_single raw 1 RC5_CDI_UNIT) by (cbn; (lia || assumption)).
    change (levelOfOffset 1) with MARK. cbv iota.
    change (decodeRC5_CDI_fuel raw) with 13%nat.
    cbn [decodeRC5_CDI_bits sBiphaseDecodeRawbuffOffset].
    change (1 + 1 <? rawlen raw) with true. cbv iota.
    rewrite (getBiphaselevel_single raw (1 + 1) RC5_CDI_UNIT) by (cbn; (lia || assumption)).
    rewrite (getBiphaselevel_single raw (1 + 1 + 1) RC5_CDI_UNIT)
      by (cbn; (lia || assumption)).
    change (levelOfOffset (1 + 1)) with SPACE.
    change (levelOfOffset (1 + 1 + 1)) with MARK. cbv iota.
    cbn [sBiphaseDecodeRawbuffOffset].
    change (1 + 1 + 1 + 1 <? rawlen raw) with false. cbv iota.
    reflexivity.
Qed.

Lemma decodeRC5_CDI_length_check_never_rejects_witness :
  exists d',
    @decodeRC5_CDI bench (mkRaw 4 [20000; 450; 450; 450]) emptyIRData = Some (true, d')
    /\ numberOfBits d' = 1.
Proof.
  apply (@decodeRC5_CDI_length_check_never_rejects bench); reflexivity.
Defined.

(** ** The address and the command through the word *)

Section FieldsOfWord.

Context {P : Platform}.

(** The address: bits 6 to 10 of the value. *)
Lemma decodeRC5_CDI_fields_address (tBitIndex tDecodedRawData : Z) (d : IRData) :
  address (decodeRC5_CDI_fields tBitIndex tDecodedRawData d)
  = Z.land (Z.shiftr tDecodedRawData 6) 0x1F.
Proof.
  unfold decodeRC5_CDI_fields.
  rewrite (proj1 (proj2 (checkForRepeat_fields _ _))).
  assert (E : address
                (set_address
                   (Z.land (Z.shiftr (tDecodedRawData mod 2 ^ 16) RC5_CDI_COMMAND_BITS) 31)
                   d)
              = Z.land (Z.shiftr tDecodedRawData 6) 31).
  { cbn [address set_address]. unfold RC5_CDI_COMMAND_BITS.
    apply Z.bits_inj'. intros i Hi. rewrite !Z.land_spec, !Z.shiftr_spec by lia.
    destruct (Z.ltb_spec i 5).
    - now rewrite Z.mod_pow2_bits_low by lia.
    - rewrite (testbit_small 31 5 i) by lia. now rewrite !andb_false_r. }
  destruct (Z.land _ (Z.shiftl 1 _) =? 0); destruct (negb _);
    cbn [address set_command set_flags set_protocol set_address
         set_decodedRawData set_numberOfBits] in *; exact E.
Qed.

(** Bits 6 to 10 of the word [sendRC5_CDI] composes are the five low bits
    of the address. *)
Lemma sendRC5_CDI_word_address_bits
    (aAddress aCommand sCDILastSendToggleValue : Z) (aEnableAutomaticToggle : bool) :
  0 <= aCommand < 256 ->
  Z.land (Z.shiftr (fst (sendRC5_CDI_word aAddress aCommand aEnableAutomaticToggle
                           sCDILastSendToggleValue)) 6) 0x1F
  = Z.land aAddress 0x1F.
Proof.
  intros Hc. apply Z.bits_inj'. intros i Hi.
  rewrite !Z.land_spec, Z.shiftr_spec by lia.
  destruct (Z.ltb_spec i 5) as [Hlt|Hge].
  - assert (H31 : Z.testbit 31 i = true)
      by (change 31 with (Z.ones 5); apply Z.ones_spec_low; lia).
    rewrite H31, andb_true_r.
    unfold sendRC5_CDI_word.
    unfold RC5_CDI_COMMAND_BITS, RC5_CDI_TOGGLE_BIT, RC5_CDI_ADDRESS_BITS.
    assert (H1 : forall n, 11 <= n -> Z.testbit 1 (i + 6 - n) = false)
      by (intros; apply Z.testbit_neg_r; lia).
    assert (Hc6 : aCommand < 64 -> Z.testbit aCommand (i + 6) = false)
      by (intros; apply (testbit_small aCommand 6); lia).
    assert (H63 : Z.testbit 63 (i + 6) = false)
      by (apply (testbit_small 63 6); lia).
    destruct (Z.ltb_spec aCommand 64); destruct aEnableAutomaticToggle;
      destruct (Z.eqb_spec sCDILastSendToggleValue 0);
      cbn [fst andb]; word_bits wrap_testbit;
      rewrite ?Hc6, ?H63, ?(H1 (1 + 5 + 6)), ?(H1 (5 + 6)) by lia;
      replace (i + 6 - 6) with i by lia;
      rewrite H31, ?andb_false_r, ?orb_false_r, ?andb_true_r; reflexivity.
  - rewrite (testbit_small 31 5 i) by lia. now rewrite !andb_false_r.
Qed.

(** The address and the command [decodeRC5_CDI] reports for the word
    [sendRC5_CDI] composes. *)
Lemma decodeRC5_CDI_fields_of_word
    (aAddress aCommand sCDILastSendToggleValue tBitIndex : Z)
    (aEnableAutomaticToggle : bool) (d : IRData) :
  0 <= aCommand < 256 ->
  address (decodeRC5_CDI_fields tBitIndex
             (fst (sendRC5_CDI_word aAddress aCommand aEnableAutomaticToggle
                     sCDILastSendToggleValue)) d)
  = aAddress mod 32
  /\ command (decodeRC5_CDI_fields tBitIndex
                (fst (sendRC5_CDI_word aAddress aCommand aEnableAutomaticToggle
                        sCDILastSendToggleValue)) d)
     = (if aCommand <? 0x40 then aCommand else 0x40 + aCommand mod 64).
Proof.
  intros Hc. split.
  - rewrite decodeRC5_CDI_fields_address, sendRC5_CDI_word_address_bits by assumption.
    change 31 with (Z.ones 5). now rewrite Z.land_ones by lia.
  - rewrite decodeRC5_CDI_fields_command.
    rewrite (sendRC5_CDI_word_field_bit _ _ _ _ Hc), sendRC5_CDI_word_command_bits.
    change 63 with (Z.ones 6). rewrite Z.land_ones by lia. change (2 ^ 6) with 64.
    destruct (Z.ltb_spec aCommand 64); [rewrite Z.mod_small by lia|]; lia.
Qed.

(** The word [sendRC5_CDI] composes as the sum of its four fields. *)
Lemma sendRC5_CDI_word_sum
    (aAddress aCommand sCDILastSendToggleValue : Z) (aEnableAutomaticToggle : bool) :
  0 <= aCommand < 256 ->
  fst (sendRC5_CDI_word aAddress aCommand aEnableAutomaticToggle sCDILastSendToggleValue)
  = (if aCommand <? 0x40 then 2 ^ 12 else 0)
    + (if aEnableAutomaticToggle && (sCDILastSendToggleValue =? 0) then 2 ^ 11 else 0)
    + (aAddress mod 32) * 2 ^ 6
    + aCommand mod 64.
Proof.
  intros Hc.
  pose proof (sendRC5_CDI_word_range aAddress aCommand sCDILastSendToggleValue
                aEnableAutomaticToggle Hc) as Hrange.
  pose proof (sendRC5_CDI_word_field_bit aAddress aCommand sCDILastSendToggleValue
                aEnableAutomaticToggle Hc) as H12.
  pose proof (sendRC5_CDI_word_toggle_bit aAddress aCommand sCDILastSendToggleValue
                aEnableAutomaticToggle Hc) as H11.
  pose proof (sendRC5_CDI_word_command_bits aAddress aCommand sCDILastSendToggleValue
                aEnableAutomaticToggle) as Hcmd.
  pose proof (sendRC5_CDI_word_address_bits aAddress aCommand sCDILastSendToggleValue
                aEnableAutomaticToggle Hc) as Haddr.
  set (w := fst (sendRC5_CDI_word aAddress aCommand aEnableAutomaticToggle
                   sCDILastSendToggleValue)) in *.
  apply (f_equal Z.b2z) in H12, H11.
  rewrite Z.testbit_spec' in H12, H11 by lia.
  change 63 with (Z.ones 6) in Hcmd. change 31 with (Z.ones 5) in Haddr.
  rewrite !Z.land_ones in Hcmd, Haddr by lia.
  rewrite Z.shiftr_div_pow2 in Haddr by lia.
  change (2 ^ 13) with 8192 in *. change (2 ^ 12) with 4096 in *.
  change (2 ^ 11) with 2048 in *. change (2 ^ 6) with 64 in *.
  change (2 ^ 5) with 32 in *.
  rewrite <- Hcmd, <- Haddr.
  destruct (aCommand <? 64);
    destruct (aEnableAutomaticToggle && (sCDILastSendToggleValue =? 0));
    cbn [Z.b2z] in H12, H11; clear Hcmd Haddr;
    Z.div_mod_to_equations; lia.
Qed.


End FieldsOfWord.

(** C7.  For a command [0x40 <= c <= 0x7F] the encoder leaves the field bit
    (bit 12) of the word at 0 and keeps of [c] its six low bits only, that
    is [c - 0x40], in the command field: bit 6 of [c] is masked off and does
    not reach the word, whose bit 6 is the lowest bit of the address, and
    the word is the toggle bit, the address modulo 32 and [c - 0x40], each
    in its field.  Whenever [decodeRC5_CDI] succeeds with that word as raw
    data, it adds 0x40 back: the command it reports is [c], and the
    address the address modulo 32. *)
Theorem command_round_trip_RC5X {P : Platform} (raw : irparams_struct) (d d' : IRData)
    (aAddress aCommand sCDILastSendToggleValue : Z) (aEnableAutomaticToggle : bool) :
  0x40 <= aCommand <= 0x7F ->
  decodeRC5_CDI raw d = Some (true, d') ->
  decodedRawData d'
  = fst (sendRC5_CDI_word aAddress aCommand aEnableAutomaticToggle
           sCDILastSendToggleValue) ->
  Z.testbit (decodedRawData d') 12 = false
  /\ Z.land (decodedRawData d') 0x3F = aCommand - 0x40
  /\ command d' = aCommand
  /\ Z.testbit (decodedRawData d') 6 = Z.testbit aAddress 0
  /\ decodedRawData d'
     = (if aEnableAutomaticToggle && (sCDILastSendToggleValue =? 0) then 2 ^ 11 else 0)
       + (aAddress mod 32) * 2 ^ 6
       + (aCommand - 0x40)
  /\ address d' = aAddress mod 32.
Proof.
  intros Hc Hdec Hraw.
  assert (Hc8 : 0 <= aCommand < 256) by lia.
  assert (Hfield : Z.testbit (decodedRawData d') 12 = false).
  { rewrite Hraw, sendRC5_CDI_word_field_bit by assumption.
    destruct (Z.ltb_spec aCommand 64); [lia|reflexivity]. }
  assert (Hmod : aCommand mod 64 = aCommand - 0x40)
    by (symmetry; apply (Z.mod_unique aCommand 64 1); lia).
  assert (Hlow : Z.land (decodedRawData d') 0x3F = aCommand - 0x40).
  { rewrite Hraw, sendRC5_CDI_word_command_bits by assumption.
    change 63 with (Z.ones 6). rewrite Z.land_ones by lia. exact Hmod. }
  assert (Hbit6 : Z.testbit (decodedRawData d') 6 = Z.testbit aAddress 0).
  { pose proof (sendRC5_CDI_word_address_bits aAddress aCommand sCDILastSendToggleValue
                  aEnableAutomaticToggle Hc8) as Haddr.
    apply (f_equal (fun x => Z.testbit x 0)) in Haddr.
    rewrite !Z.land_spec, Z.shiftr_spec in Haddr by lia.
    change (Z.testbit 31 0) with true in Haddr. rewrite !andb_true_r in Haddr.
    rewrite Hraw. exact Haddr. }
  assert (Hword : decodedRawData d'
                  = (if aEnableAutomaticToggle && (sCDILastSendToggleValue =? 0)
                     then 2 ^ 11 else 0)
                    + (aAddress mod 32) * 2 ^ 6 + (aCommand - 0x40)).
  { rewrite Hraw, sendRC5_CDI_word_sum, Hmod by assumption.
    destruct (Z.ltb_spec aCommand 64); [lia|]. lia. }
  repeat split; try assumption.
  - destruct (decodeRC5_CDI_success raw d d' Hdec) as (st & n & w & _ & _ & ->).
    rewrite decodeRC5_CDI_fields_decodedRawData in Hfield, Hlow.
    rewrite decodeRC5_CDI_fields_command, Hfield, Hlow. lia.
  - destruct (decodeRC5_CDI_success raw d d' Hdec) as (st & n & w & _ & _ & ->).
    rewrite decodeRC5_CDI_fields_decodedRawData in Hraw. subst w.
    now apply decodeRC5_CDI_fields_of_word.
Qed.

Lemma command_round_trip_RC5X_witness :
  @decodeRC5_CDI bench frame_RC5X_0xC76 emptyIRData
  = Some (true, mkIRData RC5_CDI 0x11 0x76 13 0x88 0xC76)
  /\ command (mkIRData RC5_CDI 0x11 0x76 13 0x88 0xC76) = 0x76
  /\ address (mkIRData RC5_CDI 0x11 0x76 13 0x88 0xC76) = 0x11
  /\ decodedRawData (mkIRData RC5_CDI 0x11 0x76 13 0x88 0xC76)
     = 2 ^ 11 + 0x11 * 2 ^ 6 + (0x76 - 0x40).
Proof.
  assert (Hdec : @decodeRC5_CDI bench frame_RC5X_0xC76 emptyIRData
                 = Some (true, mkIRData RC5_CDI 0x11 0x76 13 0x88 0xC76))
    by (vm_compute; reflexivity).
  split; [exact Hdec|].
  destruct (@command_round_trip_RC5X bench frame_RC5X_0xC76 emptyIRData
              (mkIRData RC5_CDI 0x11 0x76 13 0x88 0xC76) 0x11 0x76 0 true
              ltac:(lia) Hdec eq_refl) as (_ & _ & Hcmd & _ & Hword & Haddr).
  split; [exact Hcmd|split; [exact Haddr|exact Hword]].
Defined.

(** ** decodeCDTV *)

(** A value that passes the checksum of the comments passes the condition
    the compiler reads. *)
Lemma checksumDocumented_checksumCompiled (v : Z) :
  checksumDocumented v = true -> checksumCompiled v = true.
Proof.
  unfold checksumDocumented, checksumCompiled.
  set (lo := Z.land v 0xFFF). set (hi := Z.shiftr v 12).
  intros H. apply Z.eqb_eq in H. cbv zeta.
  destruct (Z.eqb_spec hi 0xFFF) as [Ehi|Nhi].
  - assert (Elo : lo = 0).
    { assert (E : lo = Z.lxor (Z.lxor lo hi) hi)
        by now rewrite Z.lxor_assoc, Z.lxor_nilpotent, Z.lxor_0_r.
      rewrite H, Ehi in E. exact E. }
    now rewrite Elo.
  - rewrite Z.lxor_0_r.
    destruct (Z.eqb_spec lo 0) as [Elo|_]; [|reflexivity].
    rewrite Elo, Z.lxor_0_l in H. contradiction.
Qed.

Section DecodeCDTV.

Context {P : Platform}.
Variables (raw : irparams_struct) (d : IRData).

(** The repeat frame. *)
Lemma decodeCDTV_repeat_frame :
  rawlen raw = CDTV_RAW_REPEAT_LENGTH ->
  MATCH_MARK (rawbuf_at raw 1) CDTV_HDR_MARK = true ->
  MATCH_SPACE (rawbuf_at raw 2) CDTV_RPT_SPACE = true ->
  decodeCDTV raw d
  = (true, set_protocol CDTV (set_command 0xFFFFFF (set_numberOfBits 4 d))).
Proof.
  intros Hlen Hmark Hspace. unfold decodeCDTV.
  now rewrite Hmark, Hspace, Hlen.
Qed.

(** The data frame, the header and the 24 bit periods matching. *)
Lemma decodeCDTV_data_frame (v : Z) :
  rawlen raw = CDTV_RAW_SIGNAL_LENGTH ->
  MATCH_MARK (rawbuf_at raw 1) CDTV_HDR_MARK = true ->
  MATCH_SPACE (rawbuf_at raw 2) CDTV_HDR_SPACE = true ->
  cdtvBits raw = Some v ->
  decodeCDTV raw d
  = if checksumCompiled v
    then (true, set_protocol CDTV (set_numberOfBits CDTV_BITS (set_decodedRawData v d)))
    else (false, set_numberOfBits CDTV_BITS (set_decodedRawData v d)).
Proof.
  intros Hlen Hmark Hspace Hbits.
  unfold decodeCDTV, decodePulseDistanceWidthData.
  fold (cdtvBits raw). rewrite Hmark, Hspace, Hlen, Hbits.
  cbn [negb andb Z.eqb CDTV_RAW_SIGNAL_LENGTH CDTV_RAW_REPEAT_LENGTH Pos.eqb].
  change (decodedRawData (set_numberOfBits CDTV_BITS (set_decodedRawData v d))) with v.
  now destruct (checksumCompiled v).
Qed.

(** The data frame with a checksum that holds as the comments state it. *)
Lemma decodeCDTV_checksum_accepts_frame (v : Z) :
  rawlen raw = CDTV_RAW_SIGNAL_LENGTH ->
  MATCH_MARK (rawbuf_at raw 1) CDTV_HDR_MARK = true ->
  MATCH_SPACE (rawbuf_at raw 2) CDTV_HDR_SPACE = true ->
  cdtvBits raw = Some v ->
  checksumDocumented v = true ->
  decodeCDTV raw d
  = (true, set_protocol CDTV (set_numberOfBits CDTV_BITS (set_decodedRawData v d))).
Proof.
  intros Hlen Hmark Hspace Hbits Hsum.
  rewrite (decodeCDTV_data_frame v Hlen Hmark Hspace Hbits).
  now rewrite (checksumDocumented_checksumCompiled v Hsum).
Qed.

(** Where [decodeCDTV] fails. *)
Lemma decodeCDTV_failure (d' : IRData) :
  decodeCDTV raw d = (false, d') ->
  d' = d
  \/ exists v,
       cdtvBits raw = Some v /\ checksumCompiled v = false
       /\ d' = set_numberOfBits CDTV_BITS (set_decodedRawData v d).
Proof.
  unfold decodeCDTV, decodePulseDistanceWidthData. fold (cdtvBits raw).
  destruct (negb (MATCH_MARK _ _)); [intros [= <-]; now left|].
  destruct (_ && _ && _); [discriminate|].
  destruct (negb (rawlen raw =? _)); [intros [= <-]; now left|].
  destruct (negb (MATCH_SPACE _ _)); [intros [= <-]; now left|].
  destruct (cdtvBits raw) as [v|]; [|intros [= <-]; now left].
  change (decodedRawData (set_numberOfBits CDTV_BITS (set_decodedRawData v d))) with v.
  destruct (checksumCompiled v) eqn:E; [discriminate|].
  intros [= <-]. right. now exists v.
Qed.

(** Where a failure of [decodeCDTV] leaves the frame as it was, step by
    step, and where it does not. *)
Lemma decodeCDTV_failure_steps (d' : IRData) :
  decodeCDTV raw d = (false, d') ->
  (MATCH_MARK (rawbuf_at raw 1) CDTV_HDR_MARK = false -> d' = d)
  /\ (rawlen raw <> CDTV_RAW_SIGNAL_LENGTH -> d' = d)
  /\ (MATCH_SPACE (rawbuf_at raw 2) CDTV_HDR_SPACE = false -> d' = d)
  /\ (cdtvBits raw = None -> d' = d)
  /\ (forall v,
        MATCH_MARK (rawbuf_at raw 1) CDTV_HDR_MARK = true ->
        rawlen raw = CDTV_RAW_SIGNAL_LENGTH ->
        MATCH_SPACE (rawbuf_at raw 2) CDTV_HDR_SPACE = true ->
        cdtvBits raw = Some v ->
        checksumCompiled v = false /\ decodedRawData d' = v).
Proof.
  unfold decodeCDTV, decodePulseDistanceWidthData. fold (cdtvBits raw).
  destruct (MATCH_MARK (rawbuf_at raw 1) CDTV_HDR_MARK); cbn [negb andb];
    [|intros [= <-]; repeat split; intros; (reflexivity || congruence)].
  destruct (_ && _ && _); [discriminate|].
  destruct (Z.eqb_spec (rawlen raw) CDTV_RAW_SIGNAL_LENGTH) as [E52|N52]; cbn [negb];
    [|intros [= <-]; repeat split; intros; (reflexivity || congruence)].
  destruct (MATCH_SPACE (rawbuf_at raw 2) CDTV_HDR_SPACE); cbn [negb];
    [|intros [= <-]; repeat split; intros; (reflexivity || congruence)].
  destruct (cdtvBits raw) as [v|];
    [|intros [= <-]; repeat split; intros; (reflexivity || congruence)].
  change (decodedRawData (set_numberOfBits CDTV_BITS (set_decodedRawData v d))) with v.
  destruct (checksumCompiled v) eqn:Ev; [discriminate|].
  intros [= <-]. repeat split; intros;
    cbn [decodedRawData set_numberOfBits set_decodedRawData]; congruence.
Qed.

(** After its own checks have passed, a failing [decodeCDTV] writes nothing
    itself: it returns the frame as the engine left it. *)
Lemma decodeCDTV_failure_after_checks (d' : IRData) :
  decodeCDTV raw d = (false, d') ->
  MATCH_MARK (rawbuf_at raw 1) CDTV_HDR_MARK = true ->
  rawlen raw = CDTV_RAW_SIGNAL_LENGTH ->
  MATCH_SPACE (rawbuf_at raw 2) CDTV_HDR_SPACE = true ->
  d' = snd (decodePulseDistanceWidthData CDTVProtocolConstants CDTV_BITS 3 raw d).
Proof.
  intros H Hmark Hlen Hspace. revert H. unfold decodeCDTV.
  rewrite Hmark, Hlen, Hspace.
  cbn [negb andb Z.eqb CDTV_RAW_SIGNAL_LENGTH CDTV_RAW_REPEAT_LENGTH Pos.eqb].
  destruct (decodePulseDistanceWidthData CDTVProtocolConstants CDTV_BITS 3 raw d)
    as [[|] d1]; cbn [snd].
  - destruct (checksumCompiled (decodedRawData d1)); [discriminate|].
    now intros [= <-].
  - now intros [= <-].
Qed.

(** The data frame whose value the checksum refuses. *)
Lemma decodeCDTV_checksum_refuses_frame (v : Z) :
  rawlen raw = CDTV_RAW_SIGNAL_LENGTH ->
  MATCH_MARK (rawbuf_at raw 1) CDTV_HDR_MARK = true ->
  MATCH_SPACE (rawbuf_at raw 2) CDTV_HDR_SPACE = true ->
  cdtvBits raw = Some v ->
  checksumCompiled v = false ->
  fst (decodeCDTV raw d) = false
  /\ decodedRawData (snd (decodeCDTV raw d)) = v.
Proof.
  intros Hlen Hmark Hspace Hbits Hsum.
  rewrite (decodeCDTV_data_frame v Hlen Hmark Hspace Hbits), Hsum.
  split; reflexivity.
Qed.

End DecodeCDTV.

(** C6.  A buffer of length 4 whose entry 1 matches the header mark and
    whose entry 2 matches the repeat space decodes with success: the command
    is 0xFFFFFF, the bit count 4, the protocol CDTV.  Nothing else is
    looked at: the raw value, the address and the flags stay as they were,
    and no checksum enters the result. *)
Theorem decodeCDTV_repeat {P : Platform} (raw : irparams_struct) (d : IRData) :
  rawlen raw = 4 ->
  MATCH_MARK (rawbuf_at raw 1) CDTV_HDR_MARK = true ->
  MATCH_SPACE (rawbuf_at raw 2) CDTV_RPT_SPACE = true ->
  fst (decodeCDTV raw d) = true
  /\ command (snd (decodeCDTV raw d)) = 0xFFFFFF
  /\ numberOfBits (snd (decodeCDTV raw d)) = 4
  /\ protocol (snd (decodeCDTV raw d)) = CDTV
  /\ decodedRawData (snd (decodeCDTV raw d)) = decodedRawData d
  /\ address (snd (decodeCDTV raw d)) = address d
  /\ flags (snd (decodeCDTV raw d)) = flags d.
Proof.
  intros Hlen Hmark Hspace.
  rewrite (decodeCDTV_repeat_frame raw d Hlen Hmark Hspace).
  repeat split.
Qed.

Lemma decodeCDTV_repeat_witness :
  fst (@decodeCDTV bench frame_CDTV_repeat emptyIRData) = true
  /\ command (snd (@decodeCDTV bench frame_CDTV_repeat emptyIRData)) = 0xFFFFFF.
Proof.
  pose proof (@decodeCDTV_repeat bench frame_CDTV_repeat emptyIRData
                eq_refl eq_refl eq_refl) as H.
  split; apply H.
Defined.

(** C1, as the code has it.  For a buffer of 52 entries whose header and
    24 bit periods match and decode to the value [v]: if the low 12 bits of
    [v] xor its high 12 bits are 0xFFF, [decodeCDTV] returns success, with
    [v] as raw data, 24 bits and protocol CDTV. *)
Theorem decodeCDTV_checksum_accepts {P : Platform} (raw : irparams_struct) (d : IRData)
    (v : Z) :
  rawlen raw = 52 ->
  MATCH_MARK (rawbuf_at raw 1) CDTV_HDR_MARK = true ->
  MATCH_SPACE (rawbuf_at raw 2) CDTV_HDR_SPACE = true ->
  cdtvBits raw = Some v ->
  checksumDocumented v = true ->
  decodeCDTV raw d
  = (true, set_protocol CDTV (set_numberOfBits CDTV_BITS (set_decodedRawData v d))).
Proof.
  intros Hlen Hmark Hspace Hbits Hsum.
  now apply decodeCDTV_checksum_accepts_frame.
Qed.

Lemma decodeCDTV_checksum_accepts_witness :
  checksumDocumented 0x123EDC = true
  /\ @decodeCDTV bench frame_CDTV_0x123EDC emptyIRData
     = (true, mkIRData CDTV 0 0 24 0 0x123EDC).
Proof.
  split; [reflexivity|].
  apply (@decodeCDTV_checksum_accepts bench frame_CDTV_0x123EDC emptyIRData 0x123EDC);
    vm_compute; reflexivity.
Defined.

(** C1, the claim as stated fails.  The value 0x123EDC passes the checksum
    (0xEDC xor 0x123 is 0xFFF) and its frame is accepted; and the frame of
    the value 0x000001, whose halves xor to 1, is accepted too. *)
Lemma decodeCDTV_accepts_0x123EDC :
  Z.lxor (Z.land 0x123EDC 0xFFF) (Z.shiftr 0x123EDC 12) = 0xFFF
  /\ @decodeCDTV bench frame_CDTV_0x123EDC emptyIRData
     = (true, mkIRData CDTV 0 0 24 0 0x123EDC)
  /\ Z.lxor (Z.land 0x000001 0xFFF) (Z.shiftr 0x000001 12) = 1
  /\ @decodeCDTV bench frame_CDTV_0x000001 emptyIRData
     = (true, mkIRData CDTV 0 0 24 0 0x000001).
Proof. repeat split; vm_compute; reflexivity. Qed.

(** C4, as the code has it.  A failed [decodeRC5_CDI] leaves every field of
    the frame as it was, and the call always returns.  A failed
    [decodeCDTV] leaves the whole frame as it was when it fails at the
    header mark, at the length or at the header space, the checks it makes
    itself before the engine runs.  When it fails after them it writes
    nothing itself and returns the frame as the engine left it.  The engine
    is not in [src/]; as modelled from the specification it writes nothing
    when it fails on a bit period, and the raw value and the bit count when
    it succeeds, so that the address, the command, the flags and the
    protocol are as they were after every failure.  The one failure left is
    that of the checksum, after the 24 bit periods were read to a value:
    then the raw value of the frame is that value, and no longer what it
    was before the call. *)
Theorem decode_failure_frame {P : Platform} (raw : irparams_struct) (d d' : IRData) :
  (exists r, decodeRC5_CDI raw d = Some r)
  /\ (decodeRC5_CDI raw d = Some (false, d') -> d' = d)
  /\ (decodeCDTV raw d = (false, d') ->
      address d' = address d /\ command d' = command d
      /\ flags d' = flags d /\ protocol d' = protocol d
      /\ (MATCH_MARK (rawbuf_at raw 1) CDTV_HDR_MARK = false -> d' = d)
      /\ (rawlen raw <> CDTV_RAW_SIGNAL_LENGTH -> d' = d)
      /\ (MATCH_SPACE (rawbuf_at raw 2) CDTV_HDR_SPACE = false -> d' = d)
      /\ (MATCH_MARK (rawbuf_at raw 1) CDTV_HDR_MARK = true ->
          rawlen raw = CDTV_RAW_SIGNAL_LENGTH ->
          MATCH_SPACE (rawbuf_at raw 2) CDTV_HDR_SPACE = true ->
          d' = snd (decodePulseDistanceWidthData CDTVProtocolConstants CDTV_BITS 3 raw d))
      /\ (cdtvBits raw = None -> d' = d)
      /\ (forall v,
            MATCH_MARK (rawbuf_at raw 1) CDTV_HDR_MARK = true ->
            rawlen raw = CDTV_RAW_SIGNAL_LENGTH ->
            MATCH_SPACE (rawbuf_at raw 2) CDTV_HDR_SPACE = true ->
            cdtvBits raw = Some v ->
            checksumCompiled v = false /\ decodedRawData d' = v))
  /\ (forall v,
        MATCH_MARK (rawbuf_at raw 1) CDTV_HDR_MARK = true ->
        rawlen raw = CDTV_RAW_SIGNAL_LENGTH ->
        MATCH_SPACE (rawbuf_at raw 2) CDTV_HDR_SPACE = true ->
        cdtvBits raw = Some v ->
        checksumCompiled v = false ->
        fst (decodeCDTV raw d) = false
        /\ decodedRawData (snd (decodeCDTV raw d)) = v).
Proof.
  split; [|split; [|split]].
  - destruct (decodeRC5_CDI_returns raw d) as (ok & d1 & H). now exists (ok, d1).
  - apply decodeRC5_CDI_failure.
  - intros H.
    destruct (decodeCDTV_failure_steps raw d d' H) as (S1 & S2 & S3 & S4 & S5).
    assert (Hkept : address d' = address d /\ command d' = command d
                    /\ flags d' = flags d /\ protocol d' = protocol d)
      by (destruct (decodeCDTV_failure raw d d' H) as [->|(v & _ & _ & ->)];
          repeat split).
    destruct Hkept as (K1 & K2 & K3 & K4).
    pose proof (decodeCDTV_failure_after_checks raw d d' H) as Hengine.
    repeat (split; [assumption|]). exact S5.
  - intros v Hmark Hlen Hspace Hbits Hsum.
    now apply decodeCDTV_checksum_refuses_frame.
Qed.

Lemma decode_failure_frame_witness :
  @decodeRC5_CDI bench frame_CDTV_0x123000 earlierIRData = Some (false, earlierIRData)
  /\ @decodeCDTV bench frame_CDTV_0x123000 earlierIRData
     = (false, mkIRData RC5_CDI 0x11 0x36 24 0x80 0x123000)
  /\ address (mkIRData RC5_CDI 0x11 0x36 24 0x80 0x123000) = address earlierIRData
  /\ command (mkIRData RC5_CDI 0x11 0x36 24 0x80 0x123000) = command earlierIRData
  /\ decodedRawData (mkIRData RC5_CDI 0x11 0x36 24 0x80 0x123000) = 0x123000.
Proof.
  assert (Hrc5 : @decodeRC5_CDI bench frame_CDTV_0x123000 earlierIRData
                 = Some (false, earlierIRData)) by (vm_compute; reflexivity).
  assert (Hcdtv : @decodeCDTV bench frame_CDTV_0x123000 earlierIRData
                  = (false, mkIRData RC5_CDI 0x11 0x36 24 0x80 0x123000))
    by (vm_compute; reflexivity).
  destruct (@decode_failure_frame bench frame_CDTV_0x123000 earlierIRData
              (mkIRData RC5_CDI 0x11 0x36 24 0x80 0x123000))
    as (_ & _ & Hfields & _).
  destruct (Hfields Hcdtv) as (Ha & Hc & _ & _ & _ & _ & _ & _ & _ & Hsum).
  destruct (Hsum 0x123000 eq_refl eq_refl eq_refl eq_refl) as [_ Hraw].
  repeat split; assumption.
Defined.

(** C4, the claim as stated fails: a CDTV frame whose timings match and
    whose checksum is refused leaves the raw value of the frame changed,
    here from 0x1476 to 0x123000. *)
Lemma decodeCDTV_checksum_failure_writes :
  decodedRawData earlierIRData = 0x1476
  /\ fst (@decodeCDTV bench frame_CDTV_0x123000 earlierIRData) = false
  /\ decodedRawData (snd (@decodeCDTV bench frame_CDTV_0x123000 earlierIRData))
     = 0x123000.
Proof. repeat split; vm_compute; reflexivity. Qed.

(** ** A CDTV frame sent and captured *)

Lemma lor_shiftl_b2z (a : Z) (b : bool) :
  Z.lor (Z.shiftl a 1) (Z.b2z b) = 2 * a + Z.b2z b.
Proof.
  rewrite Z.shiftl_mul_pow2 by lia. change (2 ^ 1) with 2.
  destruct b; cbn [Z.b2z]; [|rewrite Z.lor_0_r; lia].
  apply Z.bits_inj'. intros i Hi.
  rewrite Z.lor_spec, (Z.mul_comm a 2).
  destruct (Z.eq_dec i 0) as [->|Hne].
  - rewrite Z.testbit_odd_0. apply orb_true_r.
  - replace i with (Z.succ (i - 1)) by lia.
    rewrite Z.testbit_odd_succ, Z.testbit_even_succ by lia.
    rewrite (testbit_small 1 1) by lia. apply orb_false_r.
Qed.

(** One more bit of [v] below the [n] low ones. *)
Lemma mod_pow2_succ (v : Z) (n : nat) :
  v mod 2 ^ Z.of_nat (S n)
  = Z.b2z (Z.testbit v (Z.of_nat n)) * 2 ^ Z.of_nat n + v mod 2 ^ Z.of_nat n.
Proof.
  replace (Z.of_nat (S n)) with (Z.of_nat n + 1) by lia.
  rewrite Z.pow_add_r by lia. change (2 ^ 1) with 2.
  assert (Hp : 0 < 2 ^ Z.of_nat n) by (apply Z.pow_pos_nonneg; lia).
  rewrite Z.rem_mul_r by lia.
  rewrite Z.testbit_spec' by lia. lia.
Qed.

(** The bits of [v], most significant first, shifted in after [acc]. *)
Lemma shift_in_bitsMSB (v : Z) (n : nat) (acc : Z) :
  fold_left (fun acc b => Z.lor (Z.shiftl acc 1) (Z.b2z b)) (bitsMSB v n) acc
  = acc * 2 ^ Z.of_nat n + v mod 2 ^ Z.of_nat n.
Proof.
  revert acc. induction n as [|n IH]; intros acc.
  - cbn [bitsMSB seq rev map fold_left]. change (2 ^ Z.of_nat 0) with 1.
    rewrite Z.mod_1_r. lia.
  - rewrite bitsMSB_S. cbn [fold_left]. rewrite IH, lor_shiftl_b2z, mod_pow2_succ.
    replace (Z.of_nat (S n)) with (Z.of_nat n + 1) by lia.
    rewrite Z.pow_add_r by lia. lia.
Qed.

(** The log of the pulses of the data bits and what follows passes the
    capture unchanged but for the space at its end. *)
Lemma capture_cdtv_bits (bits : list bool) :
  exists rest,
    dropTrailingSpace
      (mergeRuns (flat_map pulseOf (flat_map specCDTV_bit bits
                                      ++ [Mark CDTV_BIT_MARK; Space 0])))
    = (MARK, CDTV_BIT_MARK) :: rest
    /\ map snd ((MARK, CDTV_BIT_MARK) :: rest) = flat_map cdtvCell bits ++ [CDTV_BIT_MARK]
    /\ mergeRuns (flat_map pulseOf (flat_map specCDTV_bit bits
                                      ++ [Mark CDTV_BIT_MARK; Space 0]))
       = (MARK, CDTV_BIT_MARK) :: rest ++ [(SPACE, 0)].
Proof.
  induction bits as [|b bits (rest & Hdrop & Hmap & Hmerge)].
  - exists []. repeat split.
  - exists ((SPACE, if b then CDTV_ONE_SPACE else CDTV_ZERO_SPACE)
              :: (MARK, CDTV_BIT_MARK) :: rest).
    cbn [flat_map specCDTV_bit app pulseOf mergeRuns] in *.
    rewrite Hmerge. cbn [joinRun fst snd Level_eqb].
    repeat split.
    + rewrite <- Hdrop, Hmerge. cbn [dropTrailingSpace app].
      destruct rest; reflexivity.
    + cbn [map snd cdtvCell app] in *. now rewrite Hmap.
Qed.

Lemma capture_sendCDTV (gap v : Z) :
  capture gap (calls (sendCDTV v CDTV_BITS))
  = mkRaw CDTV_RAW_SIGNAL_LENGTH
      ([gap; CDTV_HDR_MARK; CDTV_HDR_SPACE]
         ++ flat_map cdtvCell (bitsMSB v (Z.to_nat CDTV_BITS)) ++ [CDTV_BIT_MARK]).
Proof.
  rewrite sendCDTV_valid by (unfold CDTV_BITS, ULONG_BITS; lia).
  cbn [calls]. unfold capture, specCDTV_pulses.
  cbn [flat_map app pulseOf mergeRuns].
  destruct (capture_cdtv_bits (bitsMSB v (Z.to_nat CDTV_BITS)))
    as (rest & Hdrop & Hmap & Hmerge).
  rewrite Hmerge. cbn [joinRun fst snd Level_eqb].
  assert (Hd : dropTrailingSpace
                 ((MARK, CDTV_HDR_MARK) :: (SPACE, CDTV_HDR_SPACE)
                    :: (MARK, CDTV_BIT_MARK) :: rest ++ [(SPACE, 0)])
               = (MARK, CDTV_HDR_MARK) :: (SPACE, CDTV_HDR_SPACE)
                   :: (MARK, CDTV_BIT_MARK) :: rest).
  { rewrite <- Hdrop, Hmerge. reflexivity. }
  rewrite Hd. cbn [map snd] in *. rewrite Hmap.
  reflexivity.
Qed.

Section CDTVBits.

Context {P : Platform}.
Hypothesis timings : nominalTimingsMatch.

(** The engine reads back the bits of the entries the encoder made. *)
Lemma decodePulseDistanceWidthData_bits_cells (raw : irparams_struct) (nbits : Z)
    (bits : list bool) (pre post : list Z) (acc : Z) :
  rawbuf raw = pre ++ flat_map cdtvCell bits ++ post ->
  decodePulseDistanceWidthData_bits CDTVProtocolConstants raw nbits (length bits)
    (Z.of_nat (length pre)) acc
  = Some (fold_left (fun acc b => Z.lor (Z.shiftl acc 1) (Z.b2z b)) bits acc).
Proof.
  destruct timings as (_ & _ & Hmark & Hone & Hzero & Hzero_one & _).
  revert pre acc. induction bits as [|b bits IH]; intros pre acc Hbuf; [reflexivity|].
  cbn [length decodePulseDistanceWidthData_bits fold_left].
  cbn [flat_map cdtvCell app] in Hbuf.
  assert (Hm : rawbuf_at raw (Z.of_nat (length pre)) = CDTV_BIT_MARK).
  { unfold rawbuf_at. rewrite Hbuf, Nat2Z.id. apply nth_middle. }
  assert (Hs : rawbuf_at raw (Z.of_nat (length pre) + 1)
               = if b then CDTV_ONE_SPACE else CDTV_ZERO_SPACE).
  { unfold rawbuf_at. rewrite Hbuf.
    replace (Z.to_nat (Z.of_nat (length pre) + 1)) with (length (pre ++ [CDTV_BIT_MARK]))
      by (rewrite length_app; cbn [length]; lia).
    change (pre ++ CDTV_BIT_MARK :: ?x :: ?l) with (pre ++ [CDTV_BIT_MARK] ++ x :: l).
    rewrite app_assoc. apply nth_middle. }
  rewrite Hm, Hs.
  cbn [OneMarkMicros OneSpaceMicros ZeroSpaceMicros Flags CDTVProtocolConstants
       accumulateBit].
  rewrite Hmark. cbn [negb].
  replace (Z.of_nat (length pre) + 2)
    with (Z.of_nat (length (pre ++ [CDTV_BIT_MARK;
                                    if b then CDTV_ONE_SPACE else CDTV_ZERO_SPACE])))
    by (rewrite length_app; cbn [length]; lia).
  assert (Hbuf' : rawbuf raw
                  = (pre ++ [CDTV_BIT_MARK; if b then CDTV_ONE_SPACE else CDTV_ZERO_SPACE])
                      ++ flat_map cdtvCell bits ++ post)
    by (rewrite Hbuf, <- app_assoc; reflexivity).
  destruct b.
  - rewrite Hone. now apply IH.
  - rewrite Hzero_one, Hzero. now apply IH.
Qed.

(** The round trip of a 24-bit value with a valid checksum. *)
Lemma decodeCDTV_sendCDTV (gap v : Z) (d : IRData) :
  0 <= v < 2 ^ CDTV_BITS ->
  checksumDocumented v = true ->
  decodeCDTV (capture gap (calls (sendCDTV v CDTV_BITS))) d
  = (true, set_protocol CDTV (set_numberOfBits CDTV_BITS (set_decodedRawData v d))).
Proof.
  intros Hv Hsum. rewrite capture_sendCDTV.
  destruct timings as (Hhm & Hhs & _).
  apply decodeCDTV_checksum_accepts_frame; try assumption; try reflexivity.
  unfold cdtvBits.
  pose proof (decodePulseDistanceWidthData_bits_cells
                (mkRaw CDTV_RAW_SIGNAL_LENGTH
                   ([gap; CDTV_HDR_MARK; CDTV_HDR_SPACE]
                      ++ flat_map cdtvCell (bitsMSB v (Z.to_nat CDTV_BITS))
                      ++ [CDTV_BIT_MARK]))
                CDTV_BITS (bitsMSB v (Z.to_nat CDTV_BITS))
                [gap; CDTV_HDR_MARK; CDTV_HDR_SPACE] [CDTV_BIT_MARK] 0 eq_refl) as Hread.
  rewrite bitsMSB_length, shift_in_bitsMSB in Hread.
  rewrite Z2Nat.id, Z.mod_small in Hread by (assumption || (unfold CDTV_BITS; lia)).
  exact Hread.
Qed.

End CDTVBits.

(** ** A biphase frame sent and captured *)

Section ReadsRuns.

Context {P : Platform}.
Variables (raw : irparams_struct) (unit : Z).
Hypothesis unit_pos : 0 < unit.
Hypothesis one_cell : forall l, matchLevel l unit unit = true.
Hypothesis two_cells_not_one : forall l, matchLevel l (unit + unit) unit = false.
Hypothesis two_cells : forall l, matchLevel l (unit + unit) (2 * unit) = true.

(** From the start of a stretch of entries of one or two half-cells that
    ends the buffer, the decoder reads each level once or twice. *)
Lemma Reads_runs (runs : list (Level * Z)) (pre : list Z) :
  rawbuf raw = pre ++ map snd runs ->
  rawlen raw = Z.of_nat (length pre + length runs) ->
  goodRuns unit (Z.of_nat (length pre)) runs ->
  Reads raw (mkBiphase (Z.of_nat (length pre)) 0 unit) (flat_map (expandRun unit) runs).
Proof.
  revert pre. induction runs as [|[l t] runs IH]; intros pre Hbuf Hlen Hgood.
  - cbn [flat_map Reads sBiphaseDecodeRawbuffOffset length] in *. lia.
  - cbn [goodRuns] in Hgood. destruct Hgood as (Hl & Ht & Hgood).
    cbn [map snd length] in Hbuf, Hlen.
    assert (Hin : Z.of_nat (length pre) < rawlen raw) by lia.
    assert (Hat : rawbuf_at raw (Z.of_nat (length pre)) = t).
    { unfold rawbuf_at. rewrite Hbuf, Nat2Z.id. apply nth_middle. }
    assert (Hnext : Z.of_nat (length (pre ++ [t])) = Z.of_nat (length pre) + 1)
      by (rewrite length_app; cbn [length]; lia).
    assert (Hrest : Reads raw (mkBiphase (Z.of_nat (length pre) + 1) 0 unit)
                      (flat_map (expandRun unit) runs)).
    { rewrite <- Hnext. apply IH.
      - rewrite Hbuf, <- app_assoc. reflexivity.
      - rewrite length_app. cbn [length]. lia.
      - now rewrite Hnext. }
    cbn [flat_map]. unfold expandRun at 1. cbn [fst snd]. subst l.
    destruct Ht as [->| ->].
    + rewrite Z.eqb_refl. cbn [app Reads sBiphaseDecodeRawbuffOffset].
      split; [assumption|].
      eexists. split; [|exact Hrest].
      apply getBiphaselevel_single; [assumption|]. rewrite Hat. apply one_cell.
    + destruct (Z.eqb_spec (unit + unit) unit) as [E|_]; [lia|].
      cbn [app Reads sBiphaseDecodeRawbuffOffset].
      split; [assumption|].
      eexists. split.
      { apply getBiphaselevel_double; [assumption|rewrite Hat..].
        - apply two_cells_not_one.
        - apply two_cells. }
      cbn [Reads sBiphaseDecodeRawbuffOffset]. split; [assumption|].
      eexists. split; [|exact Hrest].
      now apply getBiphaselevel_last.
Qed.

(** The data loop on a buffer that holds the half-cells of [bits]. *)
Lemma decodeRC5_CDI_bits_reads (bits : list bool) (fuel : nat) (st : BiphaseState)
    (tBitIndex tDecodedRawData : Z) :
  Reads raw st (frameCells bits) ->
  (length bits < fuel)%nat ->
  decodeRC5_CDI_bits fuel raw st tBitIndex tDecodedRawData
  = LoopDone (countBits tBitIndex bits) (shiftInBits tDecodedRawData bits).
Proof.
  revert fuel st tBitIndex tDecodedRawData.
  induction bits as [|b bits IH]; intros fuel st i acc Hreads Hfuel;
    (destruct fuel as [|fuel]; [cbn [length] in Hfuel; lia|]).
  - cbn [frameCells Reads] in Hreads. cbn [decodeRC5_CDI_bits].
    destruct (Z.ltb_spec (sBiphaseDecodeRawbuffOffset st) (rawlen raw)); [lia|].
    reflexivity.
  - cbn [decodeRC5_CDI_bits countBits shiftInBits fold_left].
    fold (countBits (wrap 8 (i + 1)) bits).
    fold (shiftInBits (wrap 32 (Z.lor (Z.shiftl acc 1) (Z.b2z b))) bits).
    assert (Hcases : (b = false /\ bits = [])
                     \/ frameCells (b :: bits)
                        = firstHalf b :: secondHalf b :: frameCells bits).
    { destruct b; [now right|]. destruct bits; [now left|now right]. }
    destruct Hcases as [[-> ->]|Hcells].
    + cbn [frameCells Reads] in Hreads.
      destruct Hreads as (Hin & st' & Hget & Hend).
      destruct (Z.ltb_spec (sBiphaseDecodeRawbuffOffset st) (rawlen raw)); [|lia].
      rewrite Hget, (getBiphaselevel_past_end raw st' Hend).
      destruct fuel as [|fuel]; [cbn [length] in Hfuel; lia|].
      cbn [decodeRC5_CDI_bits].
      destruct (Z.ltb_spec (sBiphaseDecodeRawbuffOffset st') (rawlen raw)); [lia|].
      reflexivity.
    + rewrite Hcells in Hreads. cbn [Reads] in Hreads.
      destruct Hreads as (Hin & st1 & Hget1 & _ & st2 & Hget2 & Hrest).
      destruct (Z.ltb_spec (sBiphaseDecodeRawbuffOffset st) (rawlen raw)); [|lia].
      rewrite Hget1, Hget2.
      cbn [length] in Hfuel.
      destruct b; cbn [firstHalf secondHalf Z.b2z]; apply IH; (assumption || lia).
Qed.

End ReadsRuns.

(** The count and the value of the data loop, without wrap-around. *)
Lemma countBits_small (bits : list bool) (i : Z) :
  0 <= i -> i + Z.of_nat (length bits) < 2 ^ 8 ->
  countBits i bits = i + Z.of_nat (length bits).
Proof.
  revert i. induction bits as [|b bits IH]; intros i Hi Hlen.
  - cbn [countBits fold_left length]. lia.
  - cbn [length] in Hlen.
    cbn [countBits fold_left]. fold (countBits (wrap 8 (i + 1)) bits).
    unfold wrap. rewrite Z.mod_small by lia.
    rewrite IH by lia. cbn [length]. lia.
Qed.

Lemma shiftInBits_small (bits : list bool) (acc : Z) :
  0 <= acc -> (acc + 1) * 2 ^ Z.of_nat (length bits) <= 2 ^ 32 ->
  shiftInBits acc bits
  = fold_left (fun acc b => Z.lor (Z.shiftl acc 1) (Z.b2z b)) bits acc.
Proof.
  revert acc. induction bits as [|b bits IH]; intros acc Hacc Hlen; [reflexivity|].
  cbn [shiftInBits fold_left].
  fold (shiftInBits (wrap 32 (Z.lor (Z.shiftl acc 1) (Z.b2z b))) bits).
  cbn [length] in Hlen.
  replace (Z.of_nat (S (length bits))) with (Z.of_nat (length bits) + 1) in Hlen by lia.
  rewrite Z.pow_add_r in Hlen by lia. change (2 ^ 1) with 2 in Hlen.
  assert (Hp : 0 < 2 ^ Z.of_nat (length bits)) by (apply Z.pow_pos_nonneg; lia).
  assert (Hb : 0 <= Z.b2z b <= 1) by (destruct b; cbn; lia).
  rewrite lor_shiftl_b2z.
  unfold wrap. rewrite Z.mod_small by nia.
  apply IH; nia.
Qed.

(** ** The entries of a captured biphase frame *)

Section BiphaseRuns.

Variable unit : Z.
Hypothesis unit_pos : 0 < unit.

Lemma firstHalf_secondHalf (b : bool) : Level_eqb (firstHalf b) (secondHalf b) = false.
Proof. now destruct b. Qed.

Lemma mergeRuns_biphaseCell (b : bool) (bits : list bool) :
  mergeRuns (flat_map pulseOf (flat_map (biphaseCell unit) (b :: bits)))
  = (firstHalf b, unit)
      :: joinRun (secondHalf b, unit)
           (mergeRuns (flat_map pulseOf (flat_map (biphaseCell unit) bits))).
Proof.
  cbn [flat_map]. rewrite flat_map_app.
  assert (Hcell : flat_map pulseOf (biphaseCell unit b)
                  = [(firstHalf b, unit); (secondHalf b, unit)]) by now destruct b.
  rewrite Hcell. cbn [app mergeRuns].
  destruct (mergeRuns (flat_map pulseOf (flat_map (biphaseCell unit) bits)))
    as [|[l t] runs].
  - cbn [joinRun fst snd]. now rewrite firstHalf_secondHalf.
  - cbn [joinRun fst snd].
    destruct (Level_eqb (secondHalf b) l); cbn [joinRun fst snd];
      now rewrite firstHalf_secondHalf.
Qed.

Lemma joinRun_cons (p : Level * Z) (runs : list (Level * Z)) :
  exists t rest, joinRun p runs = (fst p, t) :: rest.
Proof.
  destruct p as [l t]. destruct runs as [|[l' t'] runs]; cbn [joinRun fst snd].
  - now exists t, [].
  - destruct (Level_eqb l l'); eexists; eexists; reflexivity.
Qed.

Lemma dropTrailingSpace_cons (r r' : Level * Z) (runs : list (Level * Z)) :
  dropTrailingSpace (r :: r' :: runs) = r :: dropTrailingSpace (r' :: runs).
Proof. destruct r as [[|] t]; reflexivity. Qed.

Lemma Level_eqb_eq (a b : Level) : Level_eqb a b = true <-> a = b.
Proof. destruct a, b; cbn; split; (reflexivity || discriminate). Qed.

(** The entries for the half-cell [prev] and the cells of [bits] after it:
    one or two half-cells each, alternating, and they expand to [prev] and
    the half-cells of [bits] that the buffer holds. *)
Lemma biphase_runs (bits : list bool) (prev : Level) (offset : Z) :
  bits <> [] \/ prev = MARK ->
  prev = levelOfOffset offset ->
  goodRuns unit offset
    (dropTrailingSpace
       (joinRun (prev, unit)
          (mergeRuns (flat_map pulseOf (flat_map (biphaseCell unit) bits)))))
  /\ flat_map (expandRun unit)
       (dropTrailingSpace
          (joinRun (prev, unit)
             (mergeRuns (flat_map pulseOf (flat_map (biphaseCell unit) bits)))))
     = prev :: frameCells bits.
Proof.
  assert (Hone : forall l, expandRun unit (l, unit) = [l])
    by (intros l; unfold expandRun; cbn [fst snd]; now rewrite Z.eqb_refl).
  assert (Htwo : forall l, expandRun unit (l, unit + unit) = [l; l]).
  { intros l. unfold expandRun. cbn [fst snd].
    destruct (Z.eqb_spec (unit + unit) unit); [lia|reflexivity]. }
  revert prev offset. induction bits as [|b bits IH]; intros prev offset Hne Hprev.
  - destruct Hne as [Hne| ->]; [now elim Hne|].
    cbn [flat_map mergeRuns joinRun dropTrailingSpace goodRuns frameCells app].
    rewrite Hone. repeat split; auto.
  - rewrite mergeRuns_biphaseCell.
    set (R := mergeRuns (flat_map pulseOf (flat_map (biphaseCell unit) bits))) in *.
    destruct (joinRun_cons (secondHalf b, unit) R) as (t' & rest' & HS).
    cbn [fst] in HS.
    pose proof (levelOfOffset_succ offset) as Hsucc.
    pose proof (levelOfOffset_succ (offset + 1)) as Hsucc2.
    destruct bits as [|b' bits].
    + (* the last bit *)
      subst R. cbn [flat_map mergeRuns joinRun fst snd] in *.
      destruct b, prev; cbn [joinRun fst snd Level_eqb firstHalf secondHalf
                               dropTrailingSpace goodRuns flat_map frameCells app];
        rewrite ?Hone, ?Htwo; cbn [app];
        rewrite <- ?Hprev in *; rewrite ?Hsucc2, ?Hsucc; repeat split; auto.
    + (* a bit with more after it *)
      assert (Hnext : forall o, secondHalf b = levelOfOffset o ->
                goodRuns unit o (dropTrailingSpace (joinRun (secondHalf b, unit) R))
                /\ flat_map (expandRun unit)
                     (dropTrailingSpace (joinRun (secondHalf b, unit) R))
                   = secondHalf b :: frameCells (b' :: bits)).
      { intros o Ho. apply IH; [left; discriminate|assumption]. }
      assert (Hcells : frameCells (b :: b' :: bits)
                       = firstHalf b :: secondHalf b :: frameCells (b' :: bits))
        by now destruct b.
      rewrite Hcells. rewrite HS in *.
      cbn [joinRun fst snd].
      destruct (Level_eqb prev (firstHalf b)) eqn:E.
      * apply Level_eqb_eq in E.
        rewrite dropTrailingSpace_cons. cbn [goodRuns flat_map].
        rewrite Htwo. cbn [app].
        destruct (Hnext (offset + 1)) as [Hg He].
        { rewrite Hsucc, <- Hprev, E. now destruct b. }
        rewrite He, <- E. repeat split; auto.
      * rewrite !dropTrailingSpace_cons. cbn [goodRuns flat_map].
        rewrite !Hone. cbn [app].
        assert (Hflip : firstHalf b = levelOfOffset (offset + 1)).
        { rewrite Hsucc, <- Hprev. destruct prev, b; (reflexivity || discriminate). }
        destruct (Hnext (offset + 1 + 1)) as [Hg He].
        { rewrite Hsucc2, <- Hflip. now destruct b. }
        rewrite He. repeat split; auto.
Qed.

End BiphaseRuns.

(** ** The round trip of a biphase frame *)

Section BiphaseRoundTrip.

Context {P : Platform}.
Hypothesis timings : nominalTimingsMatch.

Lemma decodeRC5_CDI_sendBiphaseData (gap w : Z) (d : IRData) :
  0 <= w < 2 ^ RC5_CDI_BITS ->
  decodeRC5_CDI (capture gap (sendBiphaseData RC5_CDI_UNIT w RC5_CDI_BITS)) d
  = Some (true, decodeRC5_CDI_fields RC5_CDI_BITS w d).
Proof.
  intros Hw.
  destruct timings as (_ & _ & _ & _ & _ & _ & Hone & Htwo1 & Htwo2).
  set (bits := bitsMSB w (Z.to_nat RC5_CDI_BITS)).
  assert (Hunit : 0 < RC5_CDI_UNIT) by reflexivity.
  (* the entries of the buffer *)
  destruct (biphase_runs RC5_CDI_UNIT Hunit bits MARK 1 (or_intror eq_refl) eq_refl)
    as [Hgood Hexpand].
  set (runs := dropTrailingSpace
                 (joinRun (MARK, RC5_CDI_UNIT)
                    (mergeRuns (flat_map pulseOf
                                  (flat_map (biphaseCell RC5_CDI_UNIT) bits))))) in *.
  assert (Hcapture : capture gap (sendBiphaseData RC5_CDI_UNIT w RC5_CDI_BITS)
                     = mkRaw (Z.of_nat (length (gap :: map snd runs)))
                         (gap :: map snd runs)).
  { unfold capture, sendBiphaseData. cbn [flat_map pulseOf app mergeRuns].
    fold bits. fold runs.
    destruct runs as [|[[|] t] rest]; try reflexivity.
    cbn [goodRuns] in Hgood. destruct Hgood as [Hl _]. discriminate. }
  rewrite Hcapture.
  set (raw := mkRaw (Z.of_nat (length (gap :: map snd runs))) (gap :: map snd runs)).
  (* what the decoder reads *)
  assert (Hreads : Reads raw (mkBiphase 1 0 RC5_CDI_UNIT) (MARK :: frameCells bits)).
  { rewrite <- Hexpand.
    apply (Reads_runs raw RC5_CDI_UNIT Hunit Hone Htwo1 Htwo2 runs [gap]).
    - reflexivity.
    - cbn [rawlen raw length]. rewrite length_map. lia.
    - exact Hgood. }
  cbn [Reads] in Hreads. destruct Hreads as (Hin & st & Hget & Hreads).
  (* the decoder *)
  unfold decodeRC5_CDI. rewrite decodeRC5_CDI_lengthRejects_false.
  unfold decodeRC5_CDI_afterLengthCheck, initBiphaselevel. rewrite Hget.
  destruct (start_bit_cursor raw st Hget) as [Hok Hfuel].
  pose proof (decodeRC5_CDI_bits_ends raw (decodeRC5_CDI_fuel raw) st 0 0 Hok Hfuel)
    as Hends.
  pose proof (decodeRC5_CDI_bits_reads raw bits (S (length bits)) st 0 0 Hreads
                (Nat.lt_succ_diag_r _)) as Hloop.
  assert (Hsame : decodeRC5_CDI_bits (decodeRC5_CDI_fuel raw) raw st 0 0
                  = decodeRC5_CDI_bits (S (length bits)) raw st 0 0).
  { rewrite <- (decodeRC5_CDI_bits_more_fuel raw (decodeRC5_CDI_fuel raw)
                  (Nat.max (decodeRC5_CDI_fuel raw) (S (length bits))))
      by (assumption || lia).
    apply decodeRC5_CDI_bits_more_fuel; [lia|].
    rewrite Hloop. discriminate. }
  rewrite Hsame, Hloop.
  assert (Hlen : Z.of_nat (length bits) = RC5_CDI_BITS)
    by (unfold bits; rewrite bitsMSB_length; reflexivity).
  assert (Hcount : countBits 0 bits = RC5_CDI_BITS)
    by (rewrite countBits_small; rewrite ?Hlen; (reflexivity || (cbn; lia))).
  assert (Hvalue : shiftInBits 0 bits = w).
  { rewrite shiftInBits_small by (rewrite ?Hlen; cbn; lia).
    unfold bits. rewrite shift_in_bitsMSB.
    rewrite Z2Nat.id, Z.mod_small by (assumption || (cbn; lia)). lia. }
  now rewrite Hcount, Hvalue.
Qed.

(** The frame [sendRC5_CDI] sends when it is not asked to repeat. *)
Lemma capture_sendRC5_CDI (gap aAddress aCommand sCDILastSendToggleValue : Z)
    (aEnableAutomaticToggle : bool) :
  capture gap (fst (sendRC5_CDI aAddress aCommand 0 aEnableAutomaticToggle
                      sCDILastSendToggleValue))
  = capture gap
      (sendBiphaseData RC5_CDI_UNIT
         (fst (sendRC5_CDI_word aAddress aCommand aEnableAutomaticToggle
                 sCDILastSendToggleValue))
         RC5_CDI_BITS).
Proof.
  unfold sendRC5_CDI.
  destruct (sendRC5_CDI_word aAddress aCommand aEnableAutomaticToggle
              sCDILastSendToggleValue) as [tIRData toggle'].
  cbn [fst]. change (Z.to_nat (wrap 8 (0 + 1))) with 1%nat.
  cbn [sendRC5_CDI_frames]. rewrite !app_nil_r. reflexivity.
Qed.

End BiphaseRoundTrip.

(** C8.  Given a matcher that takes the nominal durations the encoders send
    for what they are: the frame [sendCDTV] sends for a 24-bit value [v]
    whose checksum holds is decoded by [decodeCDTV] with raw data [v]; the
    biphase frame for a 13-bit word [w] is decoded by [decodeRC5_CDI] with
    raw data [w] and 13 bits; and so the frame [sendRC5_CDI] sends is
    decoded with the word it composed as raw data. *)
Theorem encode_decode_round_trip {P : Platform} :
  nominalTimingsMatch ->
  (forall gap v d,
      0 <= v < 2 ^ CDTV_BITS -> checksumDocumented v = true ->
      fst (decodeCDTV (capture gap (calls (sendCDTV v CDTV_BITS))) d) = true
      /\ decodedRawData (snd (decodeCDTV (capture gap (calls (sendCDTV v CDTV_BITS))) d))
         = v)
  /\ (forall gap w d,
      0 <= w < 2 ^ RC5_CDI_BITS ->
      exists d',
        decodeRC5_CDI (capture gap (sendBiphaseData RC5_CDI_UNIT w RC5_CDI_BITS)) d
        = Some (true, d')
        /\ decodedRawData d' = w /\ numberOfBits d' = RC5_CDI_BITS)
  /\ (forall gap aAddress aCommand aEnableAutomaticToggle sCDILastSendToggleValue d,
      0 <= aCommand < 256 ->
      exists d',
        decodeRC5_CDI
          (capture gap (fst (sendRC5_CDI aAddress aCommand 0 aEnableAutomaticToggle
                               sCDILastSendToggleValue))) d
        = Some (true, d')
        /\ decodedRawData d'
           = fst (sendRC5_CDI_word aAddress aCommand aEnableAutomaticToggle
                    sCDILastSendToggleValue)).
Proof.
  intros Htimings. split; [|split].
  - intros gap v d Hv Hsum.
    rewrite (decodeCDTV_sendCDTV Htimings gap v d Hv Hsum). split; reflexivity.
  - intros gap w d Hw.
    exists (decodeRC5_CDI_fields RC5_CDI_BITS w d).
    split; [now apply decodeRC5_CDI_sendBiphaseData|].
    split; [apply decodeRC5_CDI_fields_decodedRawData
           |apply decodeRC5_CDI_fields_numberOfBits].
  - intros gap a c auto t d Hc.
    pose proof (sendRC5_CDI_word_range a c t auto Hc) as Hw.
    eexists. rewrite capture_sendRC5_CDI.
    split; [now apply decodeRC5_CDI_sendBiphaseData|].
    apply decodeRC5_CDI_fields_decodedRawData.
Qed.

Lemma bench_nominalTimingsMatch : @nominalTimingsMatch bench.
Proof.
  repeat split; try reflexivity; intros []; reflexivity.
Qed.

(** The CDTV buffers of the examples are the frames [sendCDTV] sends. *)
Example sendCDTV_example_frames :
  capture 20000 (calls (sendCDTV 0x123EDC 24)) = frame_CDTV_0x123EDC
  /\ capture 20000 (calls (sendCDTV 0x000001 24)) = frame_CDTV_0x000001
  /\ capture 20000 (calls (sendCDTV 0x123000 24)) = frame_CDTV_0x123000.
Proof. repeat split. Qed.

Lemma encode_decode_round_trip_witness :
  @nominalTimingsMatch bench
  /\ decodedRawData
       (snd (@decodeCDTV bench (capture 20000 (calls (sendCDTV 0x123EDC CDTV_BITS)))
               emptyIRData)) = 0x123EDC
  /\ exists d',
       @decodeRC5_CDI bench (capture 20000 (sendBiphaseData RC5_CDI_UNIT 0x1476 RC5_CDI_BITS))
         emptyIRData = Some (true, d')
       /\ decodedRawData d' = 0x1476 /\ numberOfBits d' = RC5_CDI_BITS.
Proof.
  pose proof (@encode_decode_round_trip bench bench_nominalTimingsMatch)
    as (Hcdtv & Hbiphase & _).
  split; [exact bench_nominalTimingsMatch|split].
  - apply Hcdtv; [unfold CDTV_BITS; lia|reflexivity].
  - apply Hbiphase. unfold RC5_CDI_BITS, RC5_CDI_COMMAND_FIELD_BIT, RC5_CDI_TOGGLE_BIT,
      RC5_CDI_ADDRESS_BITS, RC5_CDI_COMMAND_BITS. lia.
Defined.

(** * Part III: further properties of the four functions *)

(** ** decodeCDTV: when it succeeds and what it writes *)

(** X1.  [decodeCDTV] succeeds on exactly two kinds of buffer, both with an
    entry 1 that matches the header mark: a buffer of length 4 whose entry 2
    matches the repeat space, and a buffer of length 52 whose entry 2 matches
    the header space, whose 24 bit periods the engine reads, and whose value
    passes the condition on the low and the high half as the compiler reads
    it.  A buffer of any other length is refused. *)
Theorem decodeCDTV_success_iff {P : Platform} (raw : irparams_struct) (d : IRData) :
  fst (decodeCDTV raw d) = true
  <-> MATCH_MARK (rawbuf_at raw 1) CDTV_HDR_MARK = true
      /\ ((rawlen raw = CDTV_RAW_REPEAT_LENGTH
           /\ MATCH_SPACE (rawbuf_at raw 2) CDTV_RPT_SPACE = true)
          \/ (rawlen raw = CDTV_RAW_SIGNAL_LENGTH
              /\ MATCH_SPACE (rawbuf_at raw 2) CDTV_HDR_SPACE = true
              /\ exists v, cdtvBits raw = Some v /\ checksumCompiled v = true)).
Proof.
  unfold decodeCDTV, decodePulseDistanceWidthData. fold (cdtvBits raw).
  unfold CDTV_RAW_REPEAT_LENGTH, CDTV_RAW_SIGNAL_LENGTH.
  destruct (MATCH_MARK (rawbuf_at raw 1) CDTV_HDR_MARK); cbn [negb andb fst];
    [|split; [discriminate|intros [? _]; discriminate]].
  destruct (Z.eqb_spec (rawlen raw) 4) as [E4|N4]; cbn [andb].
  - destruct (MATCH_SPACE (rawbuf_at raw 2) CDTV_RPT_SPACE); cbn [fst].
    + split; [intros _; split; [reflexivity|left; now split]|reflexivity].
    + destruct (Z.eqb_spec (rawlen raw) 52) as [E52|_]; [lia|]. cbn [negb fst].
      split; [discriminate|].
      intros [_ [[_ H]|[H _]]]; [discriminate|lia].
  - destruct (Z.eqb_spec (rawlen raw) 52) as [E52|N52]; cbn [negb fst].
    + destruct (MATCH_SPACE (rawbuf_at raw 2) CDTV_HDR_SPACE); cbn [negb fst].
      * destruct (cdtvBits raw) as [v|].
        -- change (decodedRawData (set_numberOfBits CDTV_BITS (set_decodedRawData v d)))
             with v.
           destruct (checksumCompiled v) eqn:Ev; cbn [fst].
           ++ split; [intros _|reflexivity].
              split; [reflexivity|right]. repeat split; [assumption|]. now exists v.
           ++ split; [discriminate|].
              intros [_ [[H _]|(_ & _ & w & [= <-] & Hw)]]; [lia|congruence].
        -- split; [discriminate|].
           intros [_ [[H _]|(_ & _ & w & Hw & _)]]; [lia|discriminate].
      * split; [discriminate|].
        intros [_ [[H _]|(_ & H & _)]]; [lia|discriminate].
    + split; [discriminate|].
      intros [_ [[H _]|[H _]]]; lia.
Qed.

(** X2.  The fields [decodeCDTV] leaves alone.  It never writes the address
    or the flags.  It writes the command for the repeat frame only: a data
    frame that decodes leaves the command of the earlier decode in the frame,
    its 24-bit value being in the raw data.  The raw data is written for a
    buffer of length 52 only.  The protocol is CDTV after a success and as
    it was after a failure. *)
Theorem decodeCDTV_fields_kept {P : Platform} (raw : irparams_struct) (d : IRData) :
  address (snd (decodeCDTV raw d)) = address d
  /\ flags (snd (decodeCDTV raw d)) = flags d
  /\ (rawlen raw <> CDTV_RAW_REPEAT_LENGTH ->
      command (snd (decodeCDTV raw d)) = command d)
  /\ (rawlen raw <> CDTV_RAW_SIGNAL_LENGTH ->
      decodedRawData (snd (decodeCDTV raw d)) = decodedRawData d)
  /\ protocol (snd (decodeCDTV raw d))
     = (if fst (decodeCDTV raw d) then CDTV else protocol d).
Proof.
  unfold decodeCDTV, decodePulseDistanceWidthData. fold (cdtvBits raw).
  unfold CDTV_RAW_REPEAT_LENGTH, CDTV_RAW_SIGNAL_LENGTH.
  destruct (MATCH_MARK (rawbuf_at raw 1) CDTV_HDR_MARK); cbn [negb andb fst snd];
    [|repeat split].
  destruct (Z.eqb_spec (rawlen raw) 4) as [E4|N4]; cbn [andb].
  - destruct (MATCH_SPACE (rawbuf_at raw 2) CDTV_RPT_SPACE); cbn [fst snd].
    + repeat split. intros H. now elim H.
    + destruct (Z.eqb_spec (rawlen raw) 52) as [E52|_]; [lia|]. repeat split.
  - destruct (Z.eqb_spec (rawlen raw) 52) as [E52|N52]; cbn [negb fst snd];
      [|repeat split].
    destruct (MATCH_SPACE (rawbuf_at raw 2) CDTV_HDR_SPACE); cbn [negb fst snd];
      [|repeat split].
    destruct (cdtvBits raw) as [v|]; [|repeat split].
    change (decodedRawData (set_numberOfBits CDTV_BITS (set_decodedRawData v d))) with v.
    destruct (checksumCompiled v); cbn [fst snd]; repeat split;
      intros H; now elim H.
Qed.

(** X3.  What the condition [lo^hi == 0xFFF] refuses, read as C reads it:
    a value whose low 12 bits are 0 while the bits above are not 0xFFF, and
    a value whose low 12 bits are 1 while the bits above are 0xFFF.  Every
    other value passes, whether or not the low half is the inverse of the
    high half. *)
Theorem checksumCompiled_refuses (v : Z) :
  checksumCompiled v = false
  <-> (Z.land v 0xFFF = 0 /\ Z.shiftr v 12 <> 0xFFF)
      \/ (Z.land v 0xFFF = 1 /\ Z.shiftr v 12 = 0xFFF).
Proof.
  unfold checksumCompiled. cbv zeta.
  set (lo := Z.land v 0xFFF). set (hi := Z.shiftr v 12).
  rewrite negb_false_iff, Z.eqb_eq, Z.lxor_eq_0_iff.
  destruct (Z.eqb_spec hi 0xFFF) as [E|N]; split.
  - intros H. right. now split.
  - intros [[_ H]|[H _]]; [contradiction|assumption].
  - intros H. left. now split.
  - intros [[H _]|[_ H]]; [assumption|contradiction].
Qed.

(** ** sendCDTV: the bits it looks at and the time a frame takes *)

Lemma bitsMSB_mod (data : Z) (n : nat) :
  bitsMSB (data mod 2 ^ Z.of_nat n) n = bitsMSB data n.
Proof.
  unfold bitsMSB. apply map_ext_in. intros k Hk.
  apply in_rev, in_seq in Hk.
  apply Z.mod_pow2_bits_low. lia.
Qed.

(** X4.  [sendCDTV] looks at the [nbits] low bits of [data] and at nothing
    above them: two values that agree on these bits are sent as the same
    calls. *)
Theorem sendCDTV_ignores_high_bits (data nbits : Z) :
  0 < nbits <= ULONG_BITS ->
  sendCDTV (data mod 2 ^ nbits) nbits = sendCDTV data nbits.
Proof.
  intros Hn. rewrite !sendCDTV_valid by assumption.
  unfold specCDTV_pulses.
  rewrite <- (Z2Nat.id nbits) at 1 by lia.
  now rewrite bitsMSB_mod.
Qed.

Lemma sendCDTV_ignores_high_bits_witness :
  0 < 24 <= ULONG_BITS /\ sendCDTV 0x123EDC 24 = sendCDTV 0xAB123EDC 24.
Proof.
  assert (H : 0 < 24 <= ULONG_BITS) by (unfold ULONG_BITS; lia).
  split; [exact H|].
  exact (sendCDTV_ignores_high_bits 0xAB123EDC 24 H).
Defined.

Lemma frameMicros_app (l l' : list TxCall) :
  frameMicros (l ++ l') = frameMicros l + frameMicros l'.
Proof.
  induction l as [|c l IH]; cbn [app frameMicros fold_right]; [reflexivity|].
  fold (frameMicros (l ++ l')). fold (frameMicros l). lia.
Qed.

Lemma frameMicros_bits (bits : list bool) :
  frameMicros (flat_map specCDTV_bit bits)
  = (CDTV_BIT_MARK + CDTV_ZERO_SPACE) * Z.of_nat (length bits)
    + (CDTV_ONE_SPACE - CDTV_ZERO_SPACE) * onesOf bits.
Proof.
  induction bits as [|b bits IH]; [reflexivity|].
  cbn [flat_map]. rewrite frameMicros_app, IH.
  cbn [length onesOf fold_right]. fold (onesOf bits).
  rewrite Nat2Z.inj_succ.
  destruct b; cbn [specCDTV_bit frameMicros fold_right microsOf Z.b2z];
    unfold CDTV_BIT_MARK, CDTV_ONE_SPACE, CDTV_ZERO_SPACE; lia.
Qed.

Lemma onesOf_range (bits : list bool) : 0 <= onesOf bits <= Z.of_nat (length bits).
Proof.
  induction bits as [|b bits IH]; cbn [onesOf fold_right length]; [lia|].
  fold (onesOf bits). rewrite Nat2Z.inj_succ. destruct b; cbn [Z.b2z]; lia.
Qed.

(** X5.  The time of a frame of [nbits] bits: 13650 microseconds for the
    header and the closing mark, 800 for each bit and 800 more for each bit
    that is a one; so between 13650 + 800 * nbits and 13650 + 1600 * nbits. *)
Theorem sendCDTV_frame_micros (data nbits : Z) :
  0 < nbits <= ULONG_BITS ->
  frameMicros (calls (sendCDTV data nbits))
  = 13650 + 800 * nbits + 800 * onesOf (bitsMSB data (Z.to_nat nbits))
  /\ 13650 + 800 * nbits <= frameMicros (calls (sendCDTV data nbits))
     <= 13650 + 1600 * nbits.
Proof.
  intros Hn. rewrite sendCDTV_valid by assumption. cbn [calls].
  unfold specCDTV_pulses.
  change (EnableIROut 40 :: (?h ++ ?b ++ ?f)) with ([EnableIROut 40] ++ h ++ b ++ f).
  rewrite !frameMicros_app, frameMicros_bits, bitsMSB_length.
  pose proof (onesOf_range (bitsMSB data (Z.to_nat nbits))) as Hones.
  rewrite bitsMSB_length in Hones.
  rewrite Z2Nat.id in * by lia.
  cbn [frameMicros fold_right microsOf].
  unfold CDTV_HDR_MARK, CDTV_HDR_SPACE, CDTV_BIT_MARK, CDTV_ONE_SPACE, CDTV_ZERO_SPACE.
  lia.
Qed.

Lemma sendCDTV_frame_micros_witness :
  0 < 24 <= ULONG_BITS
  /\ frameMicros (calls (sendCDTV 0xFFFFFF 24)) = 52050.
Proof.
  assert (H : 0 < 24 <= ULONG_BITS) by (unfold ULONG_BITS; lia).
  split; [exact H|].
  exact (proj1 (sendCDTV_frame_micros 0xFFFFFF 24 H)).
Defined.

(** The high half of a value that passes the documented checksum is the
    inverse of its low half, bit by bit. *)
Lemma checksumDocumented_bits (v k : Z) :
  checksumDocumented v = true -> 0 <= k < 12 ->
  Z.testbit v (k + 12) = negb (Z.testbit v k).
Proof.
  unfold checksumDocumented. intros H Hk. apply Z.eqb_eq in H.
  apply (f_equal (fun x => Z.testbit x k)) in H.
  rewrite Z.lxor_spec, Z.land_spec, Z.shiftr_spec in H by lia.
  change 4095 with (Z.ones 12) in H. rewrite Z.ones_spec_low in H by lia.
  rewrite andb_true_r in H.
  destruct (Z.testbit v k), (Z.testbit v (k + 12)); (reflexivity || discriminate).
Qed.

Lemma b2z_negb (b : bool) : Z.b2z (negb b) = 1 - Z.b2z b.
Proof. now destruct b. Qed.

(** X6.  Every value that passes the documented checksum has twelve ones
    among its 24 bits, each bit of the low half facing its inverse in the
    high half; so all such frames take the same time, 42450 microseconds,
    which is within the repeat period of the protocol. *)
Theorem sendCDTV_checksum_frame_micros (v : Z) :
  checksumDocumented v = true ->
  onesOf (bitsMSB v (Z.to_nat CDTV_BITS)) = 12
  /\ frameMicros (calls (sendCDTV v CDTV_BITS)) = 42450
  /\ frameMicros (calls (sendCDTV v CDTV_BITS)) < CDTV_REPEAT_PERIOD.
Proof.
  intros Hsum.
  assert (Hones : onesOf (bitsMSB v (Z.to_nat CDTV_BITS)) = 12).
  { change (bitsMSB v (Z.to_nat CDTV_BITS))
      with [Z.testbit v (11 + 12); Z.testbit v (10 + 12); Z.testbit v (9 + 12);
            Z.testbit v (8 + 12); Z.testbit v (7 + 12); Z.testbit v (6 + 12);
            Z.testbit v (5 + 12); Z.testbit v (4 + 12); Z.testbit v (3 + 12);
            Z.testbit v (2 + 12); Z.testbit v (1 + 12); Z.testbit v (0 + 12);
            Z.testbit v 11; Z.testbit v 10; Z.testbit v 9; Z.testbit v 8;
            Z.testbit v 7; Z.testbit v 6; Z.testbit v 5; Z.testbit v 4;
            Z.testbit v 3; Z.testbit v 2; Z.testbit v 1; Z.testbit v 0].
    rewrite !(checksumDocumented_bits v _ Hsum) by lia.
    cbn [onesOf fold_right]. rewrite !b2z_negb. lia. }
  assert (Hn : 0 < CDTV_BITS <= ULONG_BITS) by (unfold CDTV_BITS, ULONG_BITS; lia).
  destruct (sendCDTV_frame_micros v CDTV_BITS Hn) as [Hmicros _].
  rewrite Hmicros, Hones. unfold CDTV_BITS, CDTV_REPEAT_PERIOD. repeat split; lia.
Qed.

Lemma sendCDTV_checksum_frame_micros_witness :
  checksumDocumented 0x123EDC = true
  /\ frameMicros (calls (sendCDTV 0x123EDC CDTV_BITS)) = 42450.
Proof.
  split; [reflexivity|].
  exact (proj1 (proj2 (sendCDTV_checksum_frame_micros 0x123EDC eq_refl))).
Defined.

(** ** sendCDTV into decodeCDTV, whatever the value and the bit count *)

(** The values the compiled condition refuses. *)
Lemma checksumCompiled_false_iff (v : Z) :
  checksumCompiled v = false
  <-> (Z.land v 0xFFF = 0 /\ Z.shiftr v 12 <> 0xFFF)
      \/ (Z.land v 0xFFF = 1 /\ Z.shiftr v 12 = 0xFFF).
Proof.
  unfold checksumCompiled. cbv zeta.
  rewrite negb_false_iff, Z.eqb_eq, Z.lxor_eq_0_iff.
  destruct (Z.eqb_spec (Z.shiftr v 12) 0xFFF) as [E|N]; intuition congruence.
Qed.

Lemma length_flat_map_cdtvCell (bits : list bool) :
  length (flat_map cdtvCell bits) = (2 * length bits)%nat.
Proof.
  induction bits as [|b bits IH]; cbn [flat_map cdtvCell app length]; lia.
Qed.

(** The buffer of a frame of any valid bit count. *)
Lemma capture_sendCDTV_bits (gap v nbits : Z) :
  0 < nbits <= ULONG_BITS ->
  capture gap (calls (sendCDTV v nbits))
  = mkRaw (2 * nbits + 4)
      ([gap; CDTV_HDR_MARK; CDTV_HDR_SPACE]
         ++ flat_map cdtvCell (bitsMSB v (Z.to_nat nbits)) ++ [CDTV_BIT_MARK]).
Proof.
  intros Hn. rewrite sendCDTV_valid by assumption.
  cbn [calls]. unfold capture, specCDTV_pulses.
  cbn [flat_map app pulseOf mergeRuns].
  destruct (capture_cdtv_bits (bitsMSB v (Z.to_nat nbits)))
    as (rest & Hdrop & Hmap & Hmerge).
  rewrite Hmerge. cbn [joinRun fst snd Level_eqb].
  assert (Hd : dropTrailingSpace
                 ((MARK, CDTV_HDR_MARK) :: (SPACE, CDTV_HDR_SPACE)
                    :: (MARK, CDTV_BIT_MARK) :: rest ++ [(SPACE, 0)])
               = (MARK, CDTV_HDR_MARK) :: (SPACE, CDTV_HDR_SPACE)
                   :: (MARK, CDTV_BIT_MARK) :: rest).
  { rewrite <- Hdrop, Hmerge. reflexivity. }
  rewrite Hd. cbn [map snd] in *. rewrite Hmap.
  f_equal. cbn [length app].
  rewrite length_app, length_flat_map_cdtvCell, bitsMSB_length. cbn [length]. lia.
Qed.

Section CDTVLoop.

Context {P : Platform}.

(** A buffer that is neither 4 nor 52 entries long. *)
Lemma decodeCDTV_other_length (raw : irparams_struct) (d : IRData) :
  rawlen raw <> CDTV_RAW_REPEAT_LENGTH ->
  rawlen raw <> CDTV_RAW_SIGNAL_LENGTH ->
  decodeCDTV raw d = (false, d).
Proof.
  intros N4 N52. unfold decodeCDTV.
  destruct (MATCH_MARK (rawbuf_at raw 1) CDTV_HDR_MARK); cbn [negb andb]; [|reflexivity].
  destruct (Z.eqb_spec (rawlen raw) CDTV_RAW_REPEAT_LENGTH); [contradiction|].
  destruct (Z.eqb_spec (rawlen raw) CDTV_RAW_SIGNAL_LENGTH); [contradiction|].
  reflexivity.
Qed.

(** The engine reads the value back from the buffer of a 24-bit frame. *)
Lemma cdtvBits_sendCDTV (gap v : Z) :
  nominalTimingsMatch ->
  0 <= v < 2 ^ CDTV_BITS ->
  cdtvBits (capture gap (calls (sendCDTV v CDTV_BITS))) = Some v.
Proof.
  intros timings Hv. rewrite capture_sendCDTV. unfold cdtvBits.
  pose proof (decodePulseDistanceWidthData_bits_cells timings
                (mkRaw CDTV_RAW_SIGNAL_LENGTH
                   ([gap; CDTV_HDR_MARK; CDTV_HDR_SPACE]
                      ++ flat_map cdtvCell (bitsMSB v (Z.to_nat CDTV_BITS))
                      ++ [CDTV_BIT_MARK]))
                CDTV_BITS (bitsMSB v (Z.to_nat CDTV_BITS))
                [gap; CDTV_HDR_MARK; CDTV_HDR_SPACE] [CDTV_BIT_MARK] 0 eq_refl) as Hread.
  rewrite bitsMSB_length, shift_in_bitsMSB in Hread.
  rewrite Z2Nat.id, Z.mod_small in Hread by (assumption || (unfold CDTV_BITS; lia)).
  exact Hread.
Qed.

End CDTVLoop.

(** X7.  The frame [sendCDTV] sends for any 24-bit value, captured at its
    nominal durations, gets as far as the checksum of [decodeCDTV]: the
    value is read back into the raw data, and the decode succeeds unless the
    low 12 bits of the value are 0 with the high 12 not 0xFFF, or the low 12
    bits are 1 with the high 12 equal to 0xFFF. *)
Theorem decodeCDTV_sendCDTV_any_value {P : Platform} (gap v : Z) (d : IRData) :
  nominalTimingsMatch ->
  0 <= v < 2 ^ CDTV_BITS ->
  decodedRawData (snd (decodeCDTV (capture gap (calls (sendCDTV v CDTV_BITS))) d)) = v
  /\ fst (decodeCDTV (capture gap (calls (sendCDTV v CDTV_BITS))) d) = checksumCompiled v
  /\ (fst (decodeCDTV (capture gap (calls (sendCDTV v CDTV_BITS))) d) = false
      <-> (Z.land v 0xFFF = 0 /\ Z.shiftr v 12 <> 0xFFF)
          \/ (Z.land v 0xFFF = 1 /\ Z.shiftr v 12 = 0xFFF)).
Proof.
  intros timings Hv.
  pose proof (cdtvBits_sendCDTV gap v timings Hv) as Hbits.
  destruct timings as (Hhm & Hhs & _).
  assert (Hdec : decodeCDTV (capture gap (calls (sendCDTV v CDTV_BITS))) d
                 = if checksumCompiled v
                   then (true, set_protocol CDTV
                                 (set_numberOfBits CDTV_BITS (set_decodedRawData v d)))
                   else (false, set_numberOfBits CDTV_BITS (set_decodedRawData v d))).
  { apply decodeCDTV_data_frame; try assumption;
      rewrite capture_sendCDTV; (reflexivity || assumption). }
  rewrite Hdec, <- checksumCompiled_false_iff.
  destruct (checksumCompiled v); repeat split; auto.
Qed.

Lemma decodeCDTV_sendCDTV_any_value_witness :
  @nominalTimingsMatch bench
  /\ 0 <= 0x123000 < 2 ^ CDTV_BITS
  /\ decodedRawData
       (snd (@decodeCDTV bench (capture 20000 (calls (sendCDTV 0x123000 CDTV_BITS)))
               emptyIRData)) = 0x123000
  /\ fst (@decodeCDTV bench (capture 20000 (calls (sendCDTV 0x123000 CDTV_BITS)))
            emptyIRData) = false.
Proof.
  assert (Hv : 0 <= 0x123000 < 2 ^ CDTV_BITS) by (unfold CDTV_BITS; lia).
  split; [exact bench_nominalTimingsMatch|split; [exact Hv|]].
  destruct (@decodeCDTV_sendCDTV_any_value bench 20000 0x123000 emptyIRData
              bench_nominalTimingsMatch Hv) as (Hraw & Hok & _).
  split; [exact Hraw|exact Hok].
Defined.

(** X8.  A frame that [sendCDTV] sends with a bit count from 1 to 32 other
    than 24 is refused by [decodeCDTV], whatever the value and the matcher,
    and the frame record stays as it was: its buffer has [2 * nbits + 4]
    entries, never the 4 or the 52 the decoder asks for. *)
Theorem decodeCDTV_other_bit_count {P : Platform} (gap v nbits : Z) (d : IRData) :
  0 < nbits <= ULONG_BITS ->
  nbits <> CDTV_BITS ->
  decodeCDTV (capture gap (calls (sendCDTV v nbits))) d = (false, d).
Proof.
  intros Hvalid Hn. apply decodeCDTV_other_length;
    rewrite capture_sendCDTV_bits by assumption; cbn [rawlen].
  - unfold CDTV_RAW_REPEAT_LENGTH. lia.
  - unfold CDTV_RAW_SIGNAL_LENGTH, CDTV_BITS in *. lia.
Qed.

Lemma decodeCDTV_other_bit_count_witness :
  0 < 23 <= ULONG_BITS
  /\ 23 <> CDTV_BITS
  /\ @decodeCDTV bench (capture 20000 (calls (sendCDTV 0x123EDC 23))) earlierIRData
     = (false, earlierIRData).
Proof.
  assert (Hvalid : 0 < 23 <= ULONG_BITS) by (unfold ULONG_BITS; lia).
  assert (H : 23 <> CDTV_BITS) by discriminate.
  split; [exact Hvalid|split; [exact H|]].
  exact (@decodeCDTV_other_bit_count bench 20000 0x123EDC 23 earlierIRData Hvalid H).
Defined.

(** The buffer of a frame [sendCDTV] sends with a bit count from 1 to 32
    never has the length of the repeat frame. *)
Lemma capture_sendCDTV_not_repeat_length (gap v nbits : Z) :
  0 < nbits <= ULONG_BITS ->
  rawlen (capture gap (calls (sendCDTV v nbits))) <> CDTV_RAW_REPEAT_LENGTH.
Proof.
  intros Hvalid. rewrite capture_sendCDTV_bits by assumption. cbn [rawlen].
  unfold CDTV_RAW_REPEAT_LENGTH. lia.
Qed.

(** The command is written for a buffer of length 4 only. *)
Lemma decodeCDTV_command_kept {P : Platform} (raw : irparams_struct) (d : IRData) :
  rawlen raw <> CDTV_RAW_REPEAT_LENGTH ->
  command (snd (decodeCDTV raw d)) = command d.
Proof.
  intros N4. unfold decodeCDTV, decodePulseDistanceWidthData. fold (cdtvBits raw).
  destruct (negb (MATCH_MARK (rawbuf_at raw 1) CDTV_HDR_MARK)); [reflexivity|].
  destruct (Z.eqb_spec (rawlen raw) CDTV_RAW_REPEAT_LENGTH); [contradiction|].
  cbn [andb].
  destruct (negb (rawlen raw =? CDTV_RAW_SIGNAL_LENGTH)); [reflexivity|].
  destruct (negb (MATCH_SPACE (rawbuf_at raw 2) CDTV_HDR_SPACE)); [reflexivity|].
  destruct (cdtvBits raw) as [v|]; [|reflexivity].
  change (decodedRawData (set_numberOfBits CDTV_BITS (set_decodedRawData v d))) with v.
  now destruct (checksumCompiled v).
Qed.

(** X9.  With a bit count from 1 to 32 [sendCDTV] does not send the repeat
    frame [decodeCDTV] knows: whatever the value, the buffer of what it
    sends is not 4 entries long, and a decode of it does not write the
    command, the repeat command 0xFFFFFF least of all. *)
Theorem decodeCDTV_no_repeat_from_sendCDTV {P : Platform} (gap v nbits : Z) (d : IRData) :
  0 < nbits <= ULONG_BITS ->
  rawlen (capture gap (calls (sendCDTV v nbits))) <> CDTV_RAW_REPEAT_LENGTH
  /\ command (snd (decodeCDTV (capture gap (calls (sendCDTV v nbits))) d)) = command d.
Proof.
  intros Hvalid.
  pose proof (capture_sendCDTV_not_repeat_length gap v nbits Hvalid) as Hlen.
  split; [exact Hlen|].
  now apply decodeCDTV_command_kept.
Qed.

Lemma decodeCDTV_no_repeat_from_sendCDTV_witness :
  0 < 1 <= ULONG_BITS
  /\ rawlen (capture 20000 (calls (sendCDTV 1 1))) = 6
  /\ command (snd (@decodeCDTV bench (capture 20000 (calls (sendCDTV 1 1))) earlierIRData))
     = command earlierIRData.
Proof.
  assert (Hvalid : 0 < 1 <= ULONG_BITS) by (unfold ULONG_BITS; lia).
  split; [exact Hvalid|split; [reflexivity|]].
  exact (proj2 (@decodeCDTV_no_repeat_from_sendCDTV bench 20000 1 1 earlierIRData Hvalid)).
Defined.

(** ** sendRC5_CDI: repeats and the toggle over successive calls *)






Section SendRC5Repeats.

Context {P : Platform}.
Variables (aAddress aCommand sCDILastSendToggleValue : Z).
Variable aEnableAutomaticToggle : bool.

Lemma sendRC5_CDI_log (aNumberOfRepeats : Z) :
  sendRC5_CDI aAddress aCommand aNumberOfRepeats aEnableAutomaticToggle
    sCDILastSendToggleValue
  = (EnableIROut RC5_CDI_KHZ
       :: sendRC5_CDI_frames (Z.to_nat (wrap 8 (aNumberOfRepeats + 1)))
            (fst (sendRC5_CDI_word aAddress aCommand aEnableAutomaticToggle
                    sCDILastSendToggleValue)),
     snd (sendRC5_CDI_word aAddress aCommand aEnableAutomaticToggle
            sCDILastSendToggleValue)).
Proof.
  unfold sendRC5_CDI.
  now destruct (sendRC5_CDI_word aAddress aCommand aEnableAutomaticToggle
                  sCDILastSendToggleValue).
Qed.

Lemma sendRC5_CDI_word_state :
  snd (sendRC5_CDI_word aAddress aCommand aEnableAutomaticToggle sCDILastSendToggleValue)
  = if aEnableAutomaticToggle
    then (if sCDILastSendToggleValue =? 0 then 1 else 0)
    else sCDILastSendToggleValue.
Proof.
  unfold sendRC5_CDI_word.
  destruct (aCommand <? 64); destruct aEnableAutomaticToggle;
    destruct (sCDILastSendToggleValue =? 0); reflexivity.
Qed.


End SendRC5Repeats.



(** X11.  Two successive calls with automatic toggle send opposite toggle
    bits, whatever the addresses, commands and repeat counts, and leave the
    state at 0 or 1: back where it was when it was 0 or 1.  A call without
    automatic toggle sends toggle bit 0 whatever the state. *)
Theorem sendRC5_CDI_toggle_alternates {P : Platform}
    (aAddress1 aCommand1 aNumberOfRepeats1 aAddress2 aCommand2 aNumberOfRepeats2 : Z)
    (sCDILastSendToggleValue : Z) :
  0 <= aCommand1 < 256 ->
  0 <= aCommand2 < 256 ->
  Z.testbit
    (fst (sendRC5_CDI_word aAddress2 aCommand2 true
            (snd (sendRC5_CDI aAddress1 aCommand1 aNumberOfRepeats1 true
                    sCDILastSendToggleValue)))) 11
  = negb (Z.testbit
            (fst (sendRC5_CDI_word aAddress1 aCommand1 true sCDILastSendToggleValue)) 11)
  /\ snd (sendRC5_CDI aAddress2 aCommand2 aNumberOfRepeats2 true
            (snd (sendRC5_CDI aAddress1 aCommand1 aNumberOfRepeats1 true
                    sCDILastSendToggleValue)))
     = (if sCDILastSendToggleValue =? 0 then 0 else 1)
  /\ Z.testbit
       (fst (sendRC5_CDI_word aAddress2 aCommand2 false sCDILastSendToggleValue)) 11
     = false.
Proof.
  intros Hc1 Hc2.
  rewrite !sendRC5_CDI_log. cbn [snd].
  rewrite !sendRC5_CDI_word_state.
  rewrite !(sendRC5_CDI_word_toggle_bit _ _ _ _ Hc1),
          !(sendRC5_CDI_word_toggle_bit _ _ _ _ Hc2).
  destruct (sCDILastSendToggleValue =? 0); repeat split.
Qed.

Lemma sendRC5_CDI_toggle_alternates_witness :
  0 <= 0x36 < 256
  /\ Z.testbit (fst (sendRC5_CDI_word 0x11 0x36 true 1)) 11 = false
  /\ Z.testbit
       (fst (sendRC5_CDI_word 0x11 0x36 true (snd (@sendRC5_CDI bench 0x11 0x36 0 true 1))))
       11 = true.
Proof.
  assert (H : 0 <= 0x36 < 256) by lia.
  split; [exact H|split; [reflexivity|]].
  exact (proj1 (@sendRC5_CDI_toggle_alternates bench 0x11 0x36 0 0x11 0x36 0 1 H H)).
Defined.

(** ** decodeRC5_CDI: address and command through the word *)

(** X12.  Address and command through the word.  Whenever [decodeRC5_CDI]
    succeeds and its raw data is the word [sendRC5_CDI] composes for an
    address and a command, the address it reports is the address modulo 32
    and the command is the command itself below 0x40, and 0x40 plus the six
    low bits from 0x40 on: a command from 0x80 to 0xFF comes back as one
    from 0x40 to 0x7F, bit 7 being dropped by the sender. *)
Theorem decodeRC5_CDI_address_command {P : Platform}
    (raw : irparams_struct) (d d' : IRData)
    (aAddress aCommand sCDILastSendToggleValue : Z) (aEnableAutomaticToggle : bool) :
  0 <= aCommand < 256 ->
  decodeRC5_CDI raw d = Some (true, d') ->
  decodedRawData d'
  = fst (sendRC5_CDI_word aAddress aCommand aEnableAutomaticToggle
           sCDILastSendToggleValue) ->
  address d' = aAddress mod 32
  /\ command d' = (if aCommand <? 0x40 then aCommand else 0x40 + aCommand mod 64)
  /\ (command d' = aCommand <-> aCommand < 0x80).
Proof.
  intros Hc Hdec Hraw.
  destruct (decodeRC5_CDI_success raw d d' Hdec) as (st & n & w & _ & _ & ->).
  rewrite decodeRC5_CDI_fields_decodedRawData in Hraw. subst w.
  destruct (decodeRC5_CDI_fields_of_word aAddress aCommand sCDILastSendToggleValue n
              aEnableAutomaticToggle d Hc) as [Haddr Hcmd].
  rewrite Haddr, Hcmd. split; [reflexivity|split; [reflexivity|]].
  pose proof (Z.mod_pos_bound aCommand 64 ltac:(lia)) as Hmod.
  destruct (Z.ltb_spec aCommand 64); [lia|].
  split; intros H'.
  - lia.
  - pose proof (Z.mod_unique aCommand 64 1 (aCommand - 64) ltac:(lia) ltac:(lia)). lia.
Qed.

Lemma decodeRC5_CDI_address_command_witness :
  0 <= 0xB6 < 256
  /\ @decodeRC5_CDI bench frame_RC5X_0xC76 emptyIRData
     = Some (true, mkIRData RC5_CDI 0x11 0x76 13 0x88 0xC76)
  /\ 0xC76 = fst (sendRC5_CDI_word 0x11 0xB6 true 0)
  /\ address (mkIRData RC5_CDI 0x11 0x76 13 0x88 0xC76) = 0x11
  /\ command (mkIRData RC5_CDI 0x11 0x76 13 0x88 0xC76) = 0x76.
Proof.
  assert (H : 0 <= 0xB6 < 256) by lia.
  pose proof decodeRC5_CDI_recorded_RC5X as Hdec.
  split; [exact H|split; [exact Hdec|split; [reflexivity|]]].
  destruct (@decodeRC5_CDI_address_command bench frame_RC5X_0xC76 emptyIRData
              (mkIRData RC5_CDI 0x11 0x76 13 0x88 0xC76) 0x11 0xB6 0 true H Hdec eq_refl)
    as (Haddr & Hcmd & _).
  split; [exact Haddr|exact Hcmd].
Defined.

(** ** decodeRC5_CDI: the ranges of what it reports *)

Section BitLoopBounds.

Context {P : Platform}.
Variable raw : irparams_struct.

(** The counter and the value of the data loop stay in their types. *)
Lemma decodeRC5_CDI_bits_range (fuel : nat) (st : BiphaseState)
    (tBitIndex tDecodedRawData n w : Z) :
  0 <= tBitIndex < 2 ^ 8 ->
  0 <= tDecodedRawData < 2 ^ 32 ->
  decodeRC5_CDI_bits fuel raw st tBitIndex tDecodedRawData = LoopDone n w ->
  0 <= n < 2 ^ 8 /\ 0 <= w < 2 ^ 32.
Proof.
  revert st tBitIndex tDecodedRawData.
  induction fuel as [|fuel IH]; intros st i acc Hi Hacc; [discriminate|].
  cbn [decodeRC5_CDI_bits].
  destruct (sBiphaseDecodeRawbuffOffset st <? rawlen raw);
    [|intros [= <- <-]; now split].
  destruct (getBiphaselevel raw st) as [tStartLevel st1].
  destruct (getBiphaselevel raw st1) as [tEndLevel st2].
  destruct tStartLevel as [[|]|]; destruct tEndLevel as [[|]|]; try discriminate;
    apply IH; apply wrap_range; lia.
Qed.

(** A read inside the buffer does not move the cursor back. *)
Lemma getBiphaselevel_forward (st st' : BiphaseState) (l : Level) :
  sBiphaseDecodeRawbuffOffset st < rawlen raw ->
  cursorOk raw st ->
  getBiphaselevel raw st = (Some l, st') ->
  l = levelOfOffset (sBiphaseDecodeRawbuffOffset st)
  /\ cursorOk raw st'
  /\ sBiphaseDecodeRawbuffOffset st <= sBiphaseDecodeRawbuffOffset st'.
Proof.
  intros Hin (Hleft & Hoff & Hmid) Hget.
  destruct (getBiphaselevel_step raw st st' (Some l) Hin Hleft Hget)
    as [[Hnone _]|([= ->] & Hok & Hlt)]; [discriminate|].
  split; [reflexivity|split; [assumption|]].
  destruct Hok as (Hleft' & Hoff' & Hmid').
  unfold cellsAhead in Hlt.
  destruct (Z.eqb_spec (sBiphaseHalfCellsLeft st) 0);
    destruct (Z.eqb_spec (sBiphaseHalfCellsLeft st') 0); lia.
Qed.

Lemma levelOfOffset_MARK_SPACE (o o' : Z) :
  levelOfOffset o <> levelOfOffset o' -> o <> o'.
Proof. intros H ->. now apply H. Qed.

(** A read moves the cursor by one entry at most. *)
Lemma getBiphaselevel_one_entry (st st' : BiphaseState) (l : option Level) :
  getBiphaselevel raw st = (l, st') ->
  sBiphaseDecodeRawbuffOffset st' <= sBiphaseDecodeRawbuffOffset st + 1.
Proof.
  unfold getBiphaselevel.
  destruct (rawlen raw <=? sBiphaseDecodeRawbuffOffset st); [intros [= <- <-]; lia|].
  destruct (if sBiphaseHalfCellsLeft st =? 0 then _ else _) as [k|];
    [|intros [= <- <-]; lia].
  destruct (k - 1 <=? 0); intros [= <- <-]; cbn [sBiphaseDecodeRawbuffOffset]; lia.
Qed.

Lemma wrap_succ (k : Z) : wrap 8 (wrap 8 k + 1) = wrap 8 (k + 1).
Proof. unfold wrap. rewrite Z.add_mod_idemp_l; [reflexivity|discriminate]. Qed.

(** Each bit of the data loop takes the cursor one or two entries further:
    its two half-cells have different levels, so they lie in different
    entries, and a read passes one entry at most.  With [k] the bits read so
    far, counted without the wrap-around of [tBitIndex]: the cursor is past
    [k] entries at least and [2 * k + 1] at most, and the value has [k] bits. *)
Lemma decodeRC5_CDI_bits_entries (fuel : nat) (st : BiphaseState)
    (k tDecodedRawData n w : Z) :
  cursorOk raw st ->
  0 <= k <= sBiphaseDecodeRawbuffOffset st - 1 ->
  sBiphaseDecodeRawbuffOffset st <= 2 * k + 2 ->
  0 <= tDecodedRawData < 2 ^ k ->
  decodeRC5_CDI_bits fuel raw st (wrap 8 k) tDecodedRawData = LoopDone n w ->
  exists k',
    n = wrap 8 k'
    /\ 0 <= k' <= rawlen raw - 1
    /\ rawlen raw <= 2 * k' + 2
    /\ 0 <= w < 2 ^ k'.
Proof.
  revert st k tDecodedRawData.
  induction fuel as [|fuel IH]; intros st k acc Hok Hk Hmax Hacc; [discriminate|].
  cbn [decodeRC5_CDI_bits].
  destruct (Z.ltb_spec (sBiphaseDecodeRawbuffOffset st) (rawlen raw)) as [Hin|Hout].
  - destruct (getBiphaselevel raw st) as [tStartLevel st1] eqn:E1.
    destruct (getBiphaselevel raw st1) as [tEndLevel st2] eqn:E2.
    assert (Hstep : forall l1 l2 b,
              tStartLevel = Some l1 -> tEndLevel = Some l2 -> l1 <> l2 ->
              decodeRC5_CDI_bits fuel raw st2 (wrap 8 (wrap 8 k + 1))
                (wrap 32 (Z.lor (Z.shiftl acc 1) (Z.b2z b))) = LoopDone n w ->
              exists k',
                n = wrap 8 k' /\ 0 <= k' <= rawlen raw - 1
                /\ rawlen raw <= 2 * k' + 2 /\ 0 <= w < 2 ^ k').
    { intros l1 l2 b -> -> Hne Hloop.
      destruct (getBiphaselevel_forward st st1 l1 Hin Hok E1) as (Hl1 & Hok1 & Hfwd1).
      pose proof (getBiphaselevel_one_entry st st1 _ E1) as Hone1.
      pose proof (getBiphaselevel_one_entry st1 st2 _ E2) as Hone2.
      assert (Hfwd : cursorOk raw st2
                     /\ sBiphaseDecodeRawbuffOffset st + 1
                        <= sBiphaseDecodeRawbuffOffset st2).
      { destruct (Z.ltb_spec (sBiphaseDecodeRawbuffOffset st1) (rawlen raw))
          as [Hin1|Hout1].
        - destruct (getBiphaselevel_forward st1 st2 l2 Hin1 Hok1 E2)
            as (Hl2 & Hok2 & Hfwd2).
          split; [assumption|].
          assert (sBiphaseDecodeRawbuffOffset st <> sBiphaseDecodeRawbuffOffset st1)
            by (apply levelOfOffset_MARK_SPACE; congruence).
          lia.
        - rewrite getBiphaselevel_past_end in E2 by assumption.
          injection E2 as _ <-. split; [assumption|lia]. }
      destruct Hfwd as [Hok2 Hfwd2].
      rewrite wrap_succ in Hloop.
      apply (IH st2 (k + 1) (wrap 32 (Z.lor (Z.shiftl acc 1) (Z.b2z b))));
        try assumption; try lia.
      rewrite lor_shiftl_b2z. unfold wrap.
      assert (Hb : 0 <= Z.b2z b <= 1) by (destruct b; cbn; lia).
      pose proof (Z.mod_pos_bound (2 * acc + Z.b2z b) (2 ^ 32) ltac:(lia)).
      pose proof (Z.mod_le (2 * acc + Z.b2z b) (2 ^ 32) ltac:(lia) ltac:(lia)).
      rewrite Z.pow_add_r by lia. change (2 ^ 1) with 2. lia. }
    destruct tStartLevel as [[|]|]; destruct tEndLevel as [[|]|]; try discriminate.
    + apply (Hstep SPACE MARK true); (reflexivity || discriminate).
    + apply (Hstep MARK SPACE false); (reflexivity || discriminate).
  - intros [= <- <-]. destruct Hok as (_ & Hoff & _).
    exists k. repeat split; lia.
Qed.

(** What the data loop of a successful decode ends with, [k] being the
    bits read, counted without the wrap-around of [tBitIndex]. *)
Lemma decodeRC5_CDI_success_bounds (d d' : IRData) :
  decodeRC5_CDI raw d = Some (true, d') ->
  exists n w k,
    d' = decodeRC5_CDI_fields n w d
    /\ 0 <= n < 2 ^ 8 /\ 0 <= w < 2 ^ 32
    /\ n = wrap 8 k
    /\ 0 <= k <= rawlen raw - 1
    /\ rawlen raw <= 2 * k + 2
    /\ w < 2 ^ k.
Proof.
  intros Hdec.
  destruct (decodeRC5_CDI_success raw d d' Hdec) as (st & n & w & Hget & Hloop & ->).
  destruct (decodeRC5_CDI_bits_range _ st 0 0 n w ltac:(lia) ltac:(lia) Hloop)
    as [Hn Hw].
  destruct (start_bit_cursor raw st Hget) as [Hok _].
  assert (Hin : sBiphaseDecodeRawbuffOffset (initBiphaselevel 1 RC5_CDI_UNIT) < rawlen raw).
  { destruct (Z.ltb_spec 1 (rawlen raw)) as [H|H]; [exact H|].
    rewrite getBiphaselevel_past_end in Hget by (cbn; lia). discriminate. }
  assert (Hok0 : cursorOk raw (initBiphaselevel 1 RC5_CDI_UNIT)).
  { unfold cursorOk. cbn [initBiphaselevel sBiphaseHalfCellsLeft
                          sBiphaseDecodeRawbuffOffset] in *. lia. }
  destruct (getBiphaselevel_forward _ st MARK Hin Hok0 Hget) as (_ & _ & Hfwd).
  pose proof (getBiphaselevel_one_entry _ st _ Hget) as Hone.
  cbn [initBiphaselevel sBiphaseDecodeRawbuffOffset] in Hfwd, Hone.
  destruct (decodeRC5_CDI_bits_entries _ st 0 0 n w Hok ltac:(lia) ltac:(lia)
              ltac:(cbn; lia) Hloop) as (k & Hnk & Hk & Hlen & Hwk).
  exists n, w, k. repeat split; (assumption || lia).
Qed.

End BitLoopBounds.

(** X13.  After a success of [decodeRC5_CDI] the address is at most 0x1F,
    the command at most 0x7F, the command is 0x40 or more exactly when bit
    12 of the raw data is 0, the bit count fits 8 bits, the raw data 32, and
    the protocol is RC5_CDI. *)
Theorem decodeRC5_CDI_field_ranges {P : Platform}
    (raw : irparams_struct) (d d' : IRData) :
  decodeRC5_CDI raw d = Some (true, d') ->
  0 <= address d' <= 0x1F
  /\ 0 <= command d' <= 0x7F
  /\ (0x40 <= command d' <-> Z.testbit (decodedRawData d') 12 = false)
  /\ 0 <= numberOfBits d' < 2 ^ 8
  /\ 0 <= decodedRawData d' < 2 ^ 32
  /\ protocol d' = RC5_CDI.
Proof.
  intros Hdec.
  destruct (decodeRC5_CDI_success_bounds raw d d' Hdec)
    as (n & w & k & -> & Hn & Hw & _).
  rewrite decodeRC5_CDI_fields_address, decodeRC5_CDI_fields_command,
          decodeRC5_CDI_fields_numberOfBits, decodeRC5_CDI_fields_decodedRawData,
          decodeRC5_CDI_fields_protocol.
  change 31 with (Z.ones 5). change 63 with (Z.ones 6).
  rewrite !Z.land_ones by lia. change (Z.ones 5) with 31.
  pose proof (Z.mod_pos_bound (Z.shiftr w 6) (2 ^ 5) ltac:(lia)) as Ha.
  pose proof (Z.mod_pos_bound w (2 ^ 6) ltac:(lia)) as Hc.
  change (2 ^ 5) with 32 in *. change (2 ^ 6) with 64 in *.
  destruct (Z.testbit w 12); repeat split; intros;
    try lia; try discriminate; try reflexivity.
Qed.

Lemma decodeRC5_CDI_field_ranges_witness :
  @decodeRC5_CDI bench frame_RC5_0x1476 emptyIRData
  = Some (true, mkIRData RC5_CDI 0x11 0x36 13 0x80 0x1476)
  /\ 0 <= command (mkIRData RC5_CDI 0x11 0x36 13 0x80 0x1476) <= 0x7F.
Proof.
  pose proof decodeRC5_CDI_recorded_RC5 as Hdec.
  split; [exact Hdec|].
  exact (proj1 (proj2 (@decodeRC5_CDI_field_ranges bench frame_RC5_0x1476 emptyIRData
                         (mkIRData RC5_CDI 0x11 0x36 13 0x80 0x1476) Hdec))).
Defined.

(** X14.  Each bit [decodeRC5_CDI] reads takes it at least one buffer entry
    further, so a success reports at most [rawlen - 1] bits and a value of
    at most that many bits.  As the length check refuses nothing, a buffer
    of 13 entries or fewer that decodes has bit 12 at 0 and is reported as a
    command of 0x40 or more, whatever was sent. *)
Theorem decodeRC5_CDI_short_buffer {P : Platform}
    (raw : irparams_struct) (d d' : IRData) :
  decodeRC5_CDI raw d = Some (true, d') ->
  numberOfBits d' <= rawlen raw - 1
  /\ decodedRawData d' < 2 ^ (rawlen raw - 1)
  /\ (rawlen raw <= 13 -> 0x40 <= command d').
Proof.
  intros Hdec.
  destruct (decodeRC5_CDI_success_bounds raw d d' Hdec)
    as (n & w & k & -> & Hn & Hw & Hnk & Hk & Hlen & Hwk).
  rewrite decodeRC5_CDI_fields_command,
          decodeRC5_CDI_fields_numberOfBits, decodeRC5_CDI_fields_decodedRawData.
  assert (Hwidth : w < 2 ^ (rawlen raw - 1)).
  { apply Z.lt_le_trans with (2 ^ k); [assumption|]. apply Z.pow_le_mono_r; lia. }
  split; [|split; [assumption|]].
  - subst n. unfold wrap.
    pose proof (Z.mod_le k (2 ^ 8) ltac:(lia) ltac:(lia)). lia.
  - intros Hshort.
    assert (H12 : Z.testbit w 12 = false).
    { apply (testbit_small w 12); [|lia].
      split; [lia|].
      apply Z.lt_le_trans with (2 ^ (rawlen raw - 1)); [assumption|].
      apply Z.pow_le_mono_r; lia. }
    rewrite H12.
    change 63 with (Z.ones 6). rewrite Z.land_ones by lia.
    pose proof (Z.mod_pos_bound w (2 ^ 6) ltac:(lia)). lia.
Qed.

Lemma decodeRC5_CDI_short_buffer_witness :
  @decodeRC5_CDI bench (mkRaw 4 [20000; 450; 450; 450]) emptyIRData
  = Some (true, mkIRData RC5_CDI 0 0x41 1 0x80 1)
  /\ numberOfBits (mkIRData RC5_CDI 0 0x41 1 0x80 1) <= 4 - 1
  /\ 0x40 <= command (mkIRData RC5_CDI 0 0x41 1 0x80 1).
Proof.
  assert (Hdec : @decodeRC5_CDI bench (mkRaw 4 [20000; 450; 450; 450]) emptyIRData
                 = Some (true, mkIRData RC5_CDI 0 0x41 1 0x80 1)) by reflexivity.
  split; [exact Hdec|].
  destruct (@decodeRC5_CDI_short_buffer bench (mkRaw 4 [20000; 450; 450; 450])
              emptyIRData (mkIRData RC5_CDI 0 0x41 1 0x80 1) Hdec) as (Hn & _ & Hc).
  split; [exact Hn|]. apply Hc. cbn [rawlen]. lia.
Defined.

(** X15.  A success of [decodeRC5_CDI] on a buffer of at most 256 entries
    has used the whole buffer, one or two entries for each bit after the
    entry of the start bit: the entries number between the bit count plus
    one and twice the bit count plus two, and the raw data fits the bit
    count.  A decode of 13 bits comes from 14 to 28 entries. *)
Theorem decodeRC5_CDI_entries_per_bit {P : Platform}
    (raw : irparams_struct) (d d' : IRData) :
  rawlen raw <= 256 ->
  decodeRC5_CDI raw d = Some (true, d') ->
  numberOfBits d' + 1 <= rawlen raw <= 2 * numberOfBits d' + 2
  /\ 0 <= decodedRawData d' < 2 ^ numberOfBits d'
  /\ (numberOfBits d' = RC5_CDI_BITS -> 14 <= rawlen raw <= 28).
Proof.
  intros Hbuf Hdec.
  destruct (decodeRC5_CDI_success_bounds raw d d' Hdec)
    as (n & w & k & -> & Hn & Hw & Hnk & Hk & Hlen & Hwk).
  rewrite decodeRC5_CDI_fields_numberOfBits, decodeRC5_CDI_fields_decodedRawData.
  assert (E : n = k) by (subst n; unfold wrap; apply Z.mod_small; lia).
  subst k.
  split; [lia|split; [lia|]].
  unfold RC5_CDI_BITS, RC5_CDI_COMMAND_FIELD_BIT, RC5_CDI_TOGGLE_BIT,
    RC5_CDI_ADDRESS_BITS, RC5_CDI_COMMAND_BITS. lia.
Qed.

Lemma decodeRC5_CDI_entries_per_bit_witness :
  rawlen frame_RC5_0x1476 <= 256
  /\ @decodeRC5_CDI bench frame_RC5_0x1476 emptyIRData
     = Some (true, mkIRData RC5_CDI 0x11 0x36 13 0x80 0x1476)
  /\ 13 + 1 <= rawlen frame_RC5_0x1476 <= 2 * 13 + 2.
Proof.
  assert (H : rawlen frame_RC5_0x1476 <= 256) by (cbn; lia).
  pose proof decodeRC5_CDI_recorded_RC5 as Hdec.
  split; [exact H|split; [exact Hdec|]].
  exact (proj1 (@decodeRC5_CDI_entries_per_bit bench frame_RC5_0x1476 emptyIRData
                  (mkIRData RC5_CDI 0x11 0x36 13 0x80 0x1476) H Hdec)).
Defined.

(** ** The toggle flag, and sendRC5_CDI into decodeRC5_CDI *)

Section FlagsOfWord.

Context {P : Platform}.

(** The flags: the bit order, the toggle flag when bit 11 of the value is
    set, and the repeat flag as the repeat check decides. *)
Lemma decodeRC5_CDI_fields_flags (tBitIndex tDecodedRawData : Z) (d : IRData) :
  flags (decodeRC5_CDI_fields tBitIndex tDecodedRawData d)
  = if ticksSincePreviousFrame <? RC5_CDI_MAXIMUM_REPEAT_DISTANCE / MICROS_PER_TICK
    then Z.lor (if Z.testbit tDecodedRawData 11
                then Z.lor IRDATA_FLAGS_TOGGLE_BIT IRDATA_FLAGS_IS_MSB_FIRST
                else IRDATA_FLAGS_IS_MSB_FIRST) IRDATA_FLAGS_IS_REPEAT
    else if Z.testbit tDecodedRawData 11
         then Z.lor IRDATA_FLAGS_TOGGLE_BIT IRDATA_FLAGS_IS_MSB_FIRST
         else IRDATA_FLAGS_IS_MSB_FIRST.
Proof.
  unfold decodeRC5_CDI_fields, checkForRepeatSpaceTicksAndSetFlag.
  assert (E : (Z.land (Z.shiftr tDecodedRawData 8 mod 2 ^ 8) 8 =? 0)
              = negb (Z.testbit tDecodedRawData 11)).
  { change 8 with (2 ^ 3) at 3. rewrite land_pow2 by lia.
    rewrite Z.mod_pow2_bits_low, Z.shiftr_spec by lia.
    change (3 + 8) with 11. now destruct (Z.testbit tDecodedRawData 11). }
  rewrite E, negb_involutive.
  destruct (ticksSincePreviousFrame <? _); destruct (Z.testbit tDecodedRawData 11);
    destruct (Z.land _ (Z.shiftl 1 _) =? 0); reflexivity.
Qed.

End FlagsOfWord.

(** X16.  The toggle through the word.  Whenever [decodeRC5_CDI] succeeds
    and its raw data is the word [sendRC5_CDI] composes, the flags it writes
    hold the toggle flag exactly when the sender set the toggle bit, that
    is with automatic toggle and a state of 0 before the call; the flags of
    the earlier frame are overwritten, and the repeat flag is added when the
    repeat check says so. *)
Theorem decodeRC5_CDI_toggle_flag {P : Platform}
    (raw : irparams_struct) (d d' : IRData)
    (aAddress aCommand sCDILastSendToggleValue : Z) (aEnableAutomaticToggle : bool) :
  0 <= aCommand < 256 ->
  decodeRC5_CDI raw d = Some (true, d') ->
  decodedRawData d'
  = fst (sendRC5_CDI_word aAddress aCommand aEnableAutomaticToggle
           sCDILastSendToggleValue) ->
  flags d'
  = if ticksSincePreviousFrame <? RC5_CDI_MAXIMUM_REPEAT_DISTANCE / MICROS_PER_TICK
    then Z.lor (if aEnableAutomaticToggle && (sCDILastSendToggleValue =? 0)
                then Z.lor IRDATA_FLAGS_TOGGLE_BIT IRDATA_FLAGS_IS_MSB_FIRST
                else IRDATA_FLAGS_IS_MSB_FIRST) IRDATA_FLAGS_IS_REPEAT
    else if aEnableAutomaticToggle && (sCDILastSendToggleValue =? 0)
         then Z.lor IRDATA_FLAGS_TOGGLE_BIT IRDATA_FLAGS_IS_MSB_FIRST
         else IRDATA_FLAGS_IS_MSB_FIRST.
Proof.
  intros Hc Hdec Hraw.
  destruct (decodeRC5_CDI_success raw d d' Hdec) as (st & n & w & _ & _ & ->).
  rewrite decodeRC5_CDI_fields_decodedRawData in Hraw. subst w.
  rewrite decodeRC5_CDI_fields_flags.
  now rewrite (sendRC5_CDI_word_toggle_bit _ _ _ _ Hc).
Qed.

Lemma decodeRC5_CDI_toggle_flag_witness :
  0 <= 0x76 < 256
  /\ @decodeRC5_CDI bench frame_RC5X_0xC76 emptyIRData
     = Some (true, mkIRData RC5_CDI 0x11 0x76 13 0x88 0xC76)
  /\ flags (mkIRData RC5_CDI 0x11 0x76 13 0x88 0xC76)
     = Z.lor (@IRDATA_FLAGS_TOGGLE_BIT bench) (@IRDATA_FLAGS_IS_MSB_FIRST bench).
Proof.
  assert (H : 0 <= 0x76 < 256) by lia.
  pose proof decodeRC5_CDI_recorded_RC5X as Hdec.
  split; [exact H|split; [exact Hdec|]].
  exact (@decodeRC5_CDI_toggle_flag bench frame_RC5X_0xC76 emptyIRData
           (mkIRData RC5_CDI 0x11 0x76 13 0x88 0xC76) 0x11 0x76 0 true H Hdec eq_refl).
Defined.

(** X17.  A frame [sendRC5_CDI] sends without repeats, captured at its
    nominal durations, is decoded by [decodeRC5_CDI] as 13 bits of protocol
    RC5_CDI with the address modulo 32 and the command as the word carries
    it: itself below 0x80, folded into 0x40 to 0x7F from 0x80 on. *)
Theorem sendRC5_CDI_decodeRC5_CDI {P : Platform}
    (gap aAddress aCommand sCDILastSendToggleValue : Z) (aEnableAutomaticToggle : bool)
    (d : IRData) :
  nominalTimingsMatch ->
  0 <= aCommand < 256 ->
  exists d',
    decodeRC5_CDI
      (capture gap (fst (sendRC5_CDI aAddress aCommand 0 aEnableAutomaticToggle
                           sCDILastSendToggleValue))) d
    = Some (true, d')
    /\ protocol d' = RC5_CDI
    /\ numberOfBits d' = RC5_CDI_BITS
    /\ address d' = aAddress mod 32
    /\ command d' = (if aCommand <? 0x40 then aCommand else 0x40 + aCommand mod 64).
Proof.
  intros timings Hc.
  pose proof (sendRC5_CDI_word_range aAddress aCommand sCDILastSendToggleValue
                aEnableAutomaticToggle Hc) as Hw.
  eexists. rewrite capture_sendRC5_CDI.
  split; [now apply decodeRC5_CDI_sendBiphaseData|].
  split; [apply decodeRC5_CDI_fields_protocol|].
  split; [apply decodeRC5_CDI_fields_numberOfBits|].
  now apply decodeRC5_CDI_fields_of_word.
Qed.

Lemma sendRC5_CDI_decodeRC5_CDI_witness :
  @nominalTimingsMatch bench
  /\ 0 <= 0xF6 < 256
  /\ exists d',
       @decodeRC5_CDI bench (capture 20000 (fst (@sendRC5_CDI bench 0x31 0xF6 0 true 0)))
         emptyIRData = Some (true, d')
       /\ address d' = 0x11 /\ command d' = 0x76.
Proof.
  assert (H : 0 <= 0xF6 < 256) by lia.
  split; [exact bench_nominalTimingsMatch|split; [exact H|]].
  destruct (@sendRC5_CDI_decodeRC5_CDI bench 20000 0x31 0xF6 0 true emptyIRData
              bench_nominalTimingsMatch H) as (d' & Hdec & _ & _ & Haddr & Hcmd).
  exists d'. split; [exact Hdec|split; [exact Haddr|exact Hcmd]].
Defined.

(** ** Each decoder on the frames of the other protocol *)

(** The buffer of any frame [sendCDTV] sends starts, after the gap, with
    the header mark. *)
Lemma capture_sendCDTV_header (gap v nbits : Z) :
  exists len rest,
    capture gap (calls (sendCDTV v nbits)) = mkRaw len (gap :: CDTV_HDR_MARK :: rest)
    /\ 2 <= len.
Proof.
  destruct (Z.ltb_spec 0 nbits) as [Hpos|Hneg];
    [destruct (Z.leb_spec nbits ULONG_BITS) as [Hle|Hgt]|].
  - rewrite capture_sendCDTV_bits by lia. cbn [app].
    eexists. eexists. split; [reflexivity|lia].
  - unfold sendCDTV. rewrite shl_ulong_invalid by lia.
    exists 2, []. split; [reflexivity|lia].
  - unfold sendCDTV. rewrite shl_ulong_invalid by lia.
    exists 2, []. split; [reflexivity|lia].
Qed.

(** The buffer of a biphase frame starts, after the gap, with a mark of one
    or two half-cells. *)
Lemma capture_sendBiphaseData_start (gap unit w n : Z) :
  0 < unit ->
  exists len t rest,
    capture gap (sendBiphaseData unit w n) = mkRaw len (gap :: t :: rest)
    /\ (t = unit \/ t = unit + unit).
Proof.
  intros Hunit.
  destruct (biphase_runs unit Hunit (bitsMSB w (Z.to_nat n)) MARK 1
              (or_intror eq_refl) eq_refl) as [Hgood Hexpand].
  unfold capture, sendBiphaseData. cbn [flat_map pulseOf app mergeRuns].
  destruct (dropTrailingSpace _) as [|[l t] rest]; [discriminate|].
  cbn [goodRuns] in Hgood. destruct Hgood as (Hl & Ht & _).
  rewrite Hl. cbn [levelOfOffset Z.odd map snd].
  eexists. exists t, (map snd rest). split; [reflexivity|assumption].
Qed.

(** X18.  [decodeRC5_CDI] refuses every frame [sendCDTV] sends, whatever
    the value and the bit count, when the matcher does not take the CDTV
    header mark for a mark of one, two or three half-cells; the frame record
    stays as it was. *)
Theorem decodeRC5_CDI_refuses_sendCDTV {P : Platform} (gap v nbits : Z) (d : IRData) :
  MATCH_MARK CDTV_HDR_MARK RC5_CDI_UNIT = false ->
  MATCH_MARK CDTV_HDR_MARK (2 * RC5_CDI_UNIT) = false ->
  MATCH_MARK CDTV_HDR_MARK (3 * RC5_CDI_UNIT) = false ->
  decodeRC5_CDI (capture gap (calls (sendCDTV v nbits))) d = Some (false, d).
Proof.
  intros H1 H2 H3.
  destruct (capture_sendCDTV_header gap v nbits) as (len & rest & -> & Hlen).
  unfold decodeRC5_CDI. rewrite decodeRC5_CDI_lengthRejects_false.
  unfold decodeRC5_CDI_afterLengthCheck, getBiphaselevel, initBiphaselevel, halfCellsOf.
  cbn [sBiphaseDecodeRawbuffOffset sBiphaseHalfCellsLeft sBiphaseTimeUnit rawlen].
  destruct (Z.leb_spec len 1); [lia|].
  change (rawbuf_at (mkRaw len (gap :: CDTV_HDR_MARK :: rest)) 1) with CDTV_HDR_MARK.
  cbn [Z.eqb levelOfOffset Z.odd matchLevel].
  now rewrite H1, H2, H3.
Qed.

Lemma decodeRC5_CDI_refuses_sendCDTV_witness :
  @MATCH_MARK bench CDTV_HDR_MARK RC5_CDI_UNIT = false
  /\ @decodeRC5_CDI bench (capture 20000 (calls (sendCDTV 0x123EDC 24))) earlierIRData
     = Some (false, earlierIRData).
Proof.
  split; [reflexivity|].
  exact (@decodeRC5_CDI_refuses_sendCDTV bench 20000 0x123EDC 24 earlierIRData
           eq_refl eq_refl eq_refl).
Defined.

(** X19.  [decodeCDTV] refuses every frame [sendRC5_CDI] sends without
    repeats when the matcher does not take a mark of one or two half-cells
    for the CDTV header mark: the first entry of such a frame is the mark of
    the start bit, alone or joined with the mark that starts a field bit 0;
    the frame record stays as it was. *)
Theorem decodeCDTV_refuses_sendRC5_CDI {P : Platform}
    (gap aAddress aCommand sCDILastSendToggleValue : Z) (aEnableAutomaticToggle : bool)
    (d : IRData) :
  MATCH_MARK RC5_CDI_UNIT CDTV_HDR_MARK = false ->
  MATCH_MARK (RC5_CDI_UNIT + RC5_CDI_UNIT) CDTV_HDR_MARK = false ->
  decodeCDTV
    (capture gap (fst (sendRC5_CDI aAddress aCommand 0 aEnableAutomaticToggle
                         sCDILastSendToggleValue))) d
  = (false, d).
Proof.
  intros H1 H2. rewrite capture_sendRC5_CDI.
  destruct (capture_sendBiphaseData_start gap RC5_CDI_UNIT
              (fst (sendRC5_CDI_word aAddress aCommand aEnableAutomaticToggle
                      sCDILastSendToggleValue)) RC5_CDI_BITS eq_refl)
    as (len & t & rest & -> & Ht).
  unfold decodeCDTV.
  change (rawbuf_at (mkRaw len (gap :: t :: rest)) 1) with t.
  destruct Ht as [-> | ->]; [now rewrite H1|now rewrite H2].
Qed.

Lemma decodeCDTV_refuses_sendRC5_CDI_witness :
  @MATCH_MARK bench RC5_CDI_UNIT CDTV_HDR_MARK = false
  /\ @decodeCDTV bench (capture 20000 (fst (@sendRC5_CDI bench 0x11 0x36 0 true 1)))
       earlierIRData
     = (false, earlierIRData).
Proof.
  split; [reflexivity|].
  exact (@decodeCDTV_refuses_sendRC5_CDI bench 20000 0x11 0x36 1 true earlierIRData
           eq_refl eq_refl).
Defined.

(** ** sendRC5_CDI: the layout of the word *)

(** X20.  The word [sendRC5_CDI] composes, field by field, as the comment
    at the head of the file draws it ([F TAAA AACC CCCC]): the field bit at
    bit 12, set for a command below 0x40; the toggle bit at bit 11, set with
    automatic toggle from state 0; the five low bits of the address at bits
    6 to 10; the six low bits of the command at bits 0 to 5.  Nothing is set
    above bit 12. *)
Theorem sendRC5_CDI_word_layout
    (aAddress aCommand sCDILastSendToggleValue : Z) (aEnableAutomaticToggle : bool) :
  0 <= aCommand < 256 ->
  fst (sendRC5_CDI_word aAddress aCommand aEnableAutomaticToggle sCDILastSendToggleValue)
  = (if aCommand <? 0x40 then 2 ^ 12 else 0)
    + (if aEnableAutomaticToggle && (sCDILastSendToggleValue =? 0) then 2 ^ 11 else 0)
    + (aAddress mod 32) * 2 ^ 6
    + aCommand mod 64.
Proof.
  intros Hc.
  pose proof (sendRC5_CDI_word_range aAddress aCommand sCDILastSendToggleValue
                aEnableAutomaticToggle Hc) as Hrange.
  pose proof (sendRC5_CDI_word_field_bit aAddress aCommand sCDILastSendToggleValue
                aEnableAutomaticToggle Hc) as H12.
  pose proof (sendRC5_CDI_word_toggle_bit aAddress aCommand sCDILastSendToggleValue
                aEnableAutomaticToggle Hc) as H11.
  pose proof (sendRC5_CDI_word_command_bits aAddress aCommand sCDILastSendToggleValue
                aEnableAutomaticToggle) as Hcmd.
  pose proof (sendRC5_CDI_word_address_bits aAddress aCommand sCDILastSendToggleValue
                aEnableAutomaticToggle Hc) as Haddr.
  set (w := fst (sendRC5_CDI_word aAddress aCommand aEnableAutomaticToggle
                   sCDILastSendToggleValue)) in *.
  apply (f_equal Z.b2z) in H12, H11.
  rewrite Z.testbit_spec' in H12, H11 by lia.
  change 63 with (Z.ones 6) in Hcmd. change 31 with (Z.ones 5) in Haddr.
  rewrite !Z.land_ones in Hcmd, Haddr by lia.
  rewrite Z.shiftr_div_pow2 in Haddr by lia.
  change (2 ^ 13) with 8192 in *. change (2 ^ 12) with 4096 in *.
  change (2 ^ 11) with 2048 in *. change (2 ^ 6) with 64 in *.
  change (2 ^ 5) with 32 in *.
  rewrite <- Hcmd, <- Haddr.
  destruct (aCommand <? 64);
    destruct (aEnableAutomaticToggle && (sCDILastSendToggleValue =? 0));
    cbn [Z.b2z] in H12, H11; clear Hcmd Haddr;
    Z.div_mod_to_equations; lia.
Qed.

Lemma sendRC5_CDI_word_layout_witness :
  0 <= 0x76 < 256
  /\ fst (sendRC5_CDI_word 0x11 0x76 true 0) = 0 + 2 ^ 11 + 0x11 * 2 ^ 6 + 0x36.
Proof.
  assert (H : 0 <= 0x76 < 256) by lia.
  split; [exact H|].
  exact (sendRC5_CDI_word_layout 0x11 0x76 0 true H).
Defined.
